(** * Pydantic type generation for Morphe registries: the model compiler,
      the import tracker and the content generators.

    The development follows the Go package [compile]: [CompileModel]
    (compile_models.go) turns a schema model into an intermediate
    [formatdef.Struct]; [generateModelContent] renders it as the lines of a
    Python class; [ImportTracker] (import_tracker.go) collects and renders
    the import section; [generateStructureContent] renders a structure.

    Go maps are association lists without duplicate keys.  The order of the
    list stands for the order in which the Go runtime happens to enumerate
    the map in a [range] loop, so that "does not depend on the iteration
    order" is a statement about permutations of these lists. *)

From Stdlib Require Import List String Ascii Bool Arith Lia.
From Stdlib Require Import Permutation Sorted Mergesort Orders OrderedTypeEx.
From Stdlib Require Import RelationClasses.
Import ListNotations.
Open Scope list_scope.
Open Scope string_scope.

Set Implicit Arguments.

(** ** Results of fallible functions: Go's [(T, error)] *)

Inductive result (A : Type) : Type :=
| Ok (a : A)
| Err (msg : string).
Arguments Ok {A} a.
Arguments Err {A} msg.

(** ** Go maps with string keys *)

Module GoMap.

Definition t (V : Type) : Type := list (string * V).

Definition keys {V : Type} (m : t V) : list string := map fst m.

Fixpoint lookup {V : Type} (m : t V) (k : string) : option V :=
  match m with
  | [] => None
  | (k', v) :: rest => if String.eqb k' k then Some v else lookup rest k
  end.

(** [m[k]]: the zero value [d] when the key is absent. *)
Definition get {V : Type} (d : V) (m : t V) (k : string) : V :=
  match lookup m k with
  | Some v => v
  | None => d
  end.

(** [m[k] = v] *)
Fixpoint set {V : Type} (m : t V) (k : string) (v : V) : t V :=
  match m with
  | [] => [(k, v)]
  | (k', v') :: rest =>
      if String.eqb k' k then (k', v) :: rest else (k', v') :: set rest k v
  end.

End GoMap.

(** ** The functions of Go's [strings] package that the compiler calls *)

Module strings.

Definition rev (s : string) : string :=
  string_of_list_ascii (List.rev (list_ascii_of_string s)).

Definition HasPrefix (s prefix : string) : bool := String.prefix prefix s.

Definition HasSuffix (s suffix : string) : bool :=
  Nat.leb (String.length suffix) (String.length s)
  && String.eqb
       (String.substring (String.length s - String.length suffix)
          (String.length suffix) s)
       suffix.

Fixpoint Contains (s substr : string) : bool :=
  String.prefix substr s
  || match s with
     | EmptyString => false
     | String _ s' => Contains s' substr
     end.

Definition TrimPrefix (s prefix : string) : string :=
  if HasPrefix s prefix
  then String.substring (String.length prefix)
         (String.length s - String.length prefix) s
  else s.

Definition TrimSuffix (s suffix : string) : string :=
  if HasSuffix s suffix
  then String.substring 0 (String.length s - String.length suffix) s
  else s.

Fixpoint inCutset (c : ascii) (cutset : string) : bool :=
  match cutset with
  | EmptyString => false
  | String d rest => Ascii.eqb c d || inCutset c rest
  end.

Fixpoint TrimLeft (s cutset : string) : string :=
  match s with
  | EmptyString => EmptyString
  | String c s' => if inCutset c cutset then TrimLeft s' cutset else s
  end.

Definition TrimRight (s cutset : string) : string :=
  rev (TrimLeft (rev s) cutset).

Definition Trim (s cutset : string) : string :=
  TrimRight (TrimLeft s cutset) cutset.

(** [ReplaceAll] for a one-byte pattern and a one-byte replacement, the
    only way the compiler calls it. *)
Fixpoint ReplaceAll (s : string) (old new : ascii) : string :=
  match s with
  | EmptyString => EmptyString
  | String c s' =>
      String (if Ascii.eqb c old then new else c) (ReplaceAll s' old new)
  end.

(** The white space of [strings.Fields].  On input without a byte above
    0x7F, [Fields] splits at the bytes of its table [asciiSpace]: tab, line
    feed, vertical tab, form feed, carriage return, space.  On any other
    input it decodes UTF-8 and splits at the runes of [unicode.IsSpace]:
    these six and U+0085, U+00A0, U+1680, U+2000 to U+200A, U+2028, U+2029,
    U+202F, U+205F, U+3000.  The first byte of an encoded rune is never a
    continuation byte, so the decoder is never inside another rune when it
    meets one of the encodings below, and an ill-formed byte is no white
    space: the fields are the runs of bytes between these encodings. *)
Definition isSpace (c : ascii) : bool :=
  let n := nat_of_ascii c in
  Nat.eqb n 32 || (Nat.leb 9 n && Nat.leb n 13).

(** U+0085 is [C2 85], U+00A0 is [C2 A0]. *)
Definition isSpace2 (b0 b1 : nat) : bool :=
  Nat.eqb b0 194 && (Nat.eqb b1 133 || Nat.eqb b1 160).

(** U+1680 is [E1 9A 80]; U+2000 to U+200A are [E2 80 80] to [E2 80 8A];
    U+2028, U+2029 and U+202F are [E2 80 A8], [E2 80 A9] and [E2 80 AF];
    U+205F is [E2 81 9F]; U+3000 is [E3 80 80]. *)
Definition isSpace3 (b0 b1 b2 : nat) : bool :=
  (Nat.eqb b0 225 && Nat.eqb b1 154 && Nat.eqb b2 128)
  || (Nat.eqb b0 226 && Nat.eqb b1 128
      && ((Nat.leb 128 b2 && Nat.leb b2 138)
          || Nat.eqb b2 168 || Nat.eqb b2 169 || Nat.eqb b2 175))
  || (Nat.eqb b0 226 && Nat.eqb b1 129 && Nat.eqb b2 159)
  || (Nat.eqb b0 227 && Nat.eqb b1 128 && Nat.eqb b2 128).

(** The number of bytes of the white-space rune [s] starts with, 0 when it
    starts with none. *)
Definition spaceWidth (s : string) : nat :=
  match s with
  | EmptyString => 0
  | String b0 rest =>
      if isSpace b0 then 1
      else
        match rest with
        | EmptyString => 0
        | String b1 rest' =>
            if isSpace2 (nat_of_ascii b0) (nat_of_ascii b1) then 2
            else
              match rest' with
              | EmptyString => 0
              | String b2 _ =>
                  if isSpace3 (nat_of_ascii b0) (nat_of_ascii b1)
                       (nat_of_ascii b2)
                  then 3 else 0
              end
        end
  end.

(** [skip] counts the bytes of a white-space rune that are still to be
    passed. *)
Fixpoint fieldsAux (skip : nat) (cur : list ascii) (s : string)
    : list string :=
  match s with
  | EmptyString =>
      match cur with
      | [] => []
      | _ => [string_of_list_ascii (List.rev cur)]
      end
  | String c s' =>
      match skip with
      | S k => fieldsAux k cur s'
      | O =>
          match spaceWidth s with
          | S w =>
              match cur with
              | [] => fieldsAux w [] s'
              | _ => string_of_list_ascii (List.rev cur) :: fieldsAux w [] s'
              end
          | O => fieldsAux 0 (c :: cur) s'
          end
      end
  end.

Definition Fields (s : string) : list string := fieldsAux 0 [] s.

(** [Split] for a non-empty separator.  [skip] counts the bytes of a
    separator that has just been recognised and is still to be passed. *)
Fixpoint splitAux (sep : string) (skip : nat) (cur : list ascii)
    (s : string) : list string :=
  match s with
  | EmptyString => [string_of_list_ascii (List.rev cur)]
  | String c s' =>
      match skip with
      | S k => splitAux sep k cur s'
      | O =>
          if String.prefix sep s
          then string_of_list_ascii (List.rev cur)
                 :: splitAux sep (String.length sep - 1) [] s'
          else splitAux sep 0 (c :: cur) s'
      end
  end.

Definition Split (s sep : string) : list string := splitAux sep 0 [] s.

Definition Join (elems : list string) (sep : string) : string :=
  String.concat sep elems.

End strings.

(** ** [sort.Strings]: ascending byte-wise order *)

Module StringOrder <: TotalLeBool.
Definition t := string.
Definition leb := String.leb.
Definition leb_total :
  forall a1 a2, leb a1 a2 = true \/ leb a2 a1 = true := String.leb_total.
End StringOrder.

Module StringSort := Sort StringOrder.

Module sort.
Definition Strings (l : list string) : list string := StringSort.sort l.
End sort.

(** The order [sort.Strings] sorts by. *)
Definition sle (a b : string) : Prop := String.leb a b = true.


(** ** Package [formatdef]: the intermediate representation *)

Module formatdef.

(** Modelled from the spec: the type declarations of package [formatdef]
    are not part of the sources at hand.  [CompileModel] builds values
    with [BasicType{Name: ...}] and [ArrayType{ElementType: ...}] and reads
    them back with [GetName]; the generators test the rendered names
    against ["str"] and the prefix ["List["], and the import tracker looks
    for ["Any"]. *)
Inductive Typ : Type :=
| BasicType (Name : string)
| ArrayType (ElementType : Typ).

Fixpoint GetName (t : Typ) : string :=
  match t with
  | BasicType n => n
  | ArrayType e => "List[" ++ GetName e ++ "]"
  end.

Definition isBasicType (t : Typ) : bool :=
  match t with
  | BasicType _ => true
  | ArrayType _ => false
  end.

Definition TypeString : Typ := BasicType "str".
Definition TypeAny : Typ := BasicType "Any".

Record Field : Type := mkField { Name : string; Type_ : Typ }.

Record Struct : Type := mkStruct { StructName : string; Fields : list Field }.

(** Modelled from the spec: [ContentBuilder] is not part of the sources at
    hand.  It collects lines; [Line] writes one line at the current
    indentation, [Indent] and [Dedent] move the indentation by one step,
    [Build] joins the lines. *)
Record ContentBuilder : Type := mkCB {
  indentStr : string;
  level : nat;
  lines : list string
}.

Definition NewContentBuilder (indent : string) : ContentBuilder :=
  {| indentStr := indent; level := 0; lines := [] |}.

Fixpoint indentation (indent : string) (n : nat) : string :=
  match n with
  | O => EmptyString
  | S k => indent ++ indentation indent k
  end.

Definition indented (cb : ContentBuilder) (text : string) : string :=
  indentation (indentStr cb) (level cb) ++ text.

Definition Line (cb : ContentBuilder) (text : string) : ContentBuilder :=
  {| indentStr := indentStr cb;
     level := level cb;
     lines := (lines cb ++ [indented cb text])%list |}.

Definition Indent (cb : ContentBuilder) : ContentBuilder :=
  {| indentStr := indentStr cb; level := S (level cb); lines := lines cb |}.

Definition Dedent (cb : ContentBuilder) : ContentBuilder :=
  {| indentStr := indentStr cb; level := pred (level cb); lines := lines cb |}.

Definition newline : string := String (ascii_of_nat 10) EmptyString.

Definition Build (cb : ContentBuilder) : string :=
  String.concat EmptyString (map (fun l => l ++ newline) (lines cb)).

(** Modelled from the spec: [FormatList] is not part of the sources at
    hand; it is called to write the typing imports on one line. *)
Definition FormatList (items : list string) (sep : string) : string :=
  strings.Join items sep.

End formatdef.

(** ** Package [yaml] of morphe-go: the schema as the loader delivers it *)

Module yaml.

(** Modelled from the spec: morphe-go is a dependency and not part of the
    sources at hand.  A Definition has a name, a mapping from field names
    to field types and a mapping from relation names to relation
    declarations; a relation declaration has a kind, an optional alias, an
    optional "for" list and an optional "through" reference.  The compiler
    reads exactly these members. *)
Record ModelField : Type := mkModelField { FieldType : string }.

Record ModelRelation : Type := mkModelRelation {
  Type_ : string;
  For : list string;
  Through : string;
  Aliased : string
}.

Record Model : Type := mkModel {
  Name : string;
  Fields : GoMap.t ModelField;
  Related : GoMap.t ModelRelation
}.

Definition zeroField : ModelField := {| FieldType := "" |}.
Definition zeroRelation : ModelRelation :=
  {| Type_ := ""; For := []; Through := ""; Aliased := "" |}.

End yaml.

(** ** Package [registry] of morphe-go *)

Module registry.

(** Modelled from the spec: morphe-go is a dependency and not part of the
    sources at hand.  The registry maps, per kind, Definition names to
    Definitions.  Here: the models with their contents; of the other kinds
    the compiler only asks whether a name exists. *)
Record Registry : Type := mkRegistry {
  models : GoMap.t yaml.Model;
  enums : list string;
  structures : list string;
  entities : list string
}.

Definition GetAllModels (r : Registry) : GoMap.t yaml.Model := models r.

End registry.

(** ** Package [yamlops] of morphe-go: the relation kinds *)

Module yamlops.

(** Modelled from the spec: morphe-go is a dependency and not part of the
    sources at hand.  A relation kind is one of the eight names
    {For,Has} x {One,Many} x {plain,Poly}; the predicates read the three
    components off the name. *)
Definition IsRelationFor (relationType : string) : bool :=
  strings.HasPrefix relationType "For".

(** Modelled from the spec: the kind starts with [Has]. *)
Definition IsRelationHas (relationType : string) : bool :=
  strings.HasPrefix relationType "Has".

(** Modelled from the spec: the kind ends in [Poly]. *)
Definition IsRelationPoly (relationType : string) : bool :=
  strings.HasSuffix relationType "Poly".

(** Modelled from the spec: the cardinality, before [Poly], is [One]. *)
Definition IsRelationOne (relationType : string) : bool :=
  strings.HasSuffix (strings.TrimSuffix relationType "Poly") "One".

(** Modelled from the spec: the cardinality, before [Poly], is [Many]. *)
Definition IsRelationMany (relationType : string) : bool :=
  strings.HasSuffix (strings.TrimSuffix relationType "Poly") "Many".

(** Modelled from the spec: the target name is the alias if present, else
    the relation name itself. *)
Definition GetRelationTargetName (relationName aliased : string) : string :=
  if String.eqb aliased "" then relationName else aliased.

End yamlops.

(** ** Functions of this repository that the sources at hand only call

    [ToCamelCase] and [ToSnakeCase] (package [formatdef]), [GetFieldType]
    (package [typemap]) and [SanitizePythonIdentifier], [extractInnerType],
    [resolveFieldType] (package [compile]) are called by the code below but
    defined elsewhere.  The compiler is written against this interface;
    general theorems hold for every implementation of it. *)

Class Helpers : Type := {
  ToCamelCase : string -> string;
  ToSnakeCase : string -> string;
  SanitizePythonIdentifier : string -> string;
  GetFieldType : string -> formatdef.Typ;
  extractInnerType : string -> string;
  resolveFieldType : string -> registry.Registry -> string
}.

(** ** compile_models.go *)

Section Compile.

Context {H : Helpers}.

Definition isPolyRelation (through : string)
    (entry : string * yaml.ModelRelation) : bool :=
  let (relName, rel) := entry in
  String.eqb relName through && yamlops.IsRelationPoly (yaml.Type_ rel).

(** The outer loop of [resolvePolymorphicThrough] over the models, in the
    order the map yields them; the inner loop returns at the first
    polymorphic relation called [through]. *)
Fixpoint resolveIn (through : string) (ms : GoMap.t yaml.Model)
    : result string :=
  match ms with
  | [] => Err ("polymorphic relationship " ++ through ++ " not found")
  | (modelName, model) :: rest =>
      if existsb (isPolyRelation through) (yaml.Related model)
      then Ok modelName
      else resolveIn through rest
  end.

Definition resolvePolymorphicThrough (through : string)
    (r : registry.Registry) : result string :=
  resolveIn through (registry.GetAllModels r).

(** Body of the loop "Add fields". *)
Definition dataField (model : yaml.Model) (fieldName : string)
    : formatdef.Field :=
  let field := GoMap.get yaml.zeroField (yaml.Fields model) fieldName in
  formatdef.mkField fieldName (GetFieldType (yaml.FieldType field)).

(** Body of the loop "Add foreign key fields": the fields one relation
    appends. *)
Definition foreignKeyFields (model : yaml.Model) (relatedName : string)
    : list formatdef.Field :=
  let relation :=
    GoMap.get yaml.zeroRelation (yaml.Related model) relatedName in
  let relationType := yaml.Type_ relation in
  if yamlops.IsRelationPoly relationType
     && yamlops.IsRelationFor relationType
     && yamlops.IsRelationOne relationType
  then [ formatdef.mkField (ToCamelCase (relatedName ++ "_type"))
           formatdef.TypeString;
         formatdef.mkField (ToCamelCase (relatedName ++ "_id"))
           formatdef.TypeString ]
  else if yamlops.IsRelationPoly relationType
  then []
  else if yamlops.IsRelationFor relationType
          && yamlops.IsRelationOne relationType
  then [ formatdef.mkField (ToCamelCase (relatedName ++ "_id"))
           formatdef.TypeString ]
  else [].

Definition unionTypeName (for_ : list string) : string :=
  "Union["
  ++ strings.Join (map (fun forModel => "'" ++ forModel ++ "'") for_) ", "
  ++ "]".

(** Body of the loop "Add navigation properties". *)
Definition navigationField (r : registry.Registry) (model : yaml.Model)
    (relatedName : string) : formatdef.Field :=
  let relation :=
    GoMap.get yaml.zeroRelation (yaml.Related model) relatedName in
  let relationType := yaml.Type_ relation in
  let targetModelName :=
    yamlops.GetRelationTargetName relatedName (yaml.Aliased relation) in
  let navType :=
    if yamlops.IsRelationPoly relationType
    then match yaml.For relation with
         | _ :: _ => formatdef.BasicType (unionTypeName (yaml.For relation))
         | [] =>
             if negb (String.eqb (yaml.Through relation) "")
             then match resolvePolymorphicThrough (yaml.Through relation) r with
                  | Err _ => formatdef.TypeAny
                  | Ok throughModel => formatdef.BasicType throughModel
                  end
             else formatdef.TypeAny
         end
    else formatdef.BasicType targetModelName in
  let navType :=
    if yamlops.IsRelationMany relationType
    then formatdef.ArrayType navType
    else navType in
  formatdef.mkField ("_nav_" ++ relatedName) navType.

Definition CompileModel (model : yaml.Model) (r : registry.Registry)
    : result formatdef.Struct :=
  let fieldNames := sort.Strings (GoMap.keys (yaml.Fields model)) in
  let fields := map (dataField model) fieldNames in
  let fields :=
    match yaml.Related model with
    | [] => fields
    | _ :: _ =>
        let relatedNames := sort.Strings (GoMap.keys (yaml.Related model)) in
        let fields :=
          fold_left (fun acc relatedName =>
                       (acc ++ foreignKeyFields model relatedName)%list)
            relatedNames fields in
        fold_left (fun acc relatedName =>
                     (acc ++ [navigationField r model relatedName])%list)
          relatedNames fields
    end in
  Ok (formatdef.mkStruct (yaml.Name model) fields).

End Compile.

(** ** import_tracker.go *)

Record ImportTracker : Type := mkImportTracker {
  pydantic : list string;
  typing : list string;
  datetime : bool;
  enums : GoMap.t bool;
  models : GoMap.t bool;
  registry_ : registry.Registry
}.

Definition NewImportTracker (r : registry.Registry) : ImportTracker :=
  {| pydantic := []; typing := []; datetime := false;
     enums := []; models := []; registry_ := r |}.

Fixpoint containsString (slice : list string) (item : string) : bool :=
  match slice with
  | [] => false
  | s :: rest => if String.eqb s item then true else containsString rest item
  end.

Definition isBasicType (typeName : string) : bool :=
  containsString ["str"; "int"; "float"; "bool"; "datetime"; "Any"; "None"]
    typeName.

Definition dquote : string := String (ascii_of_nat 34) EmptyString.
Definition quoteCutset : string := "'" ++ dquote.

Definition extractAllInnerTypes (typeName : string) : list string :=
  let cleaned := typeName in
  let cleaned := strings.ReplaceAll cleaned "["%char " "%char in
  let cleaned := strings.ReplaceAll cleaned "]"%char " "%char in
  let cleaned := strings.ReplaceAll cleaned ","%char " "%char in
  let parts := strings.Fields cleaned in
  filter (fun part => negb (String.eqb part "")
                      && negb (strings.Contains part "|"))
    (map (fun part => strings.Trim part quoteCutset) parts).

Definition addOne (slice : list string) (imp : string) : list string :=
  if containsString slice imp then slice else (slice ++ [imp])%list.

Definition AddPydantic (it : ImportTracker) (imports : list string)
    : ImportTracker :=
  {| pydantic := fold_left addOne imports (pydantic it);
     typing := typing it; datetime := datetime it;
     enums := enums it; models := models it; registry_ := registry_ it |}.

Definition AddTyping (it : ImportTracker) (imports : list string)
    : ImportTracker :=
  {| pydantic := pydantic it;
     typing := fold_left addOne imports (typing it);
     datetime := datetime it;
     enums := enums it; models := models it; registry_ := registry_ it |}.

Definition setDatetime (it : ImportTracker) : ImportTracker :=
  {| pydantic := pydantic it; typing := typing it; datetime := true;
     enums := enums it; models := models it; registry_ := registry_ it |}.

Definition setEnum (it : ImportTracker) (name : string) : ImportTracker :=
  {| pydantic := pydantic it; typing := typing it; datetime := datetime it;
     enums := GoMap.set (enums it) name true;
     models := models it; registry_ := registry_ it |}.

Definition setModel (it : ImportTracker) (name : string) : ImportTracker :=
  {| pydantic := pydantic it; typing := typing it; datetime := datetime it;
     enums := enums it;
     models := GoMap.set (models it) name true; registry_ := registry_ it |}.

Definition withTyping (it : ImportTracker) (l : list string) : ImportTracker :=
  {| pydantic := pydantic it; typing := l; datetime := datetime it;
     enums := enums it; models := models it; registry_ := registry_ it |}.

Section Tracker.

Context {H : Helpers}.

Definition trackIf (cond : bool) (imp : string) (it : ImportTracker)
    : ImportTracker :=
  if cond then AddTyping it [imp] else it.

(** Body of the loop over the inner types. *)
Definition trackInner (it : ImportTracker) (innerType : string)
    : ImportTracker :=
  if negb (String.eqb innerType "") && negb (isBasicType innerType)
  then
    let kind := resolveFieldType innerType (registry_ it) in
    if String.eqb kind "enum" then setEnum it innerType
    else if String.eqb kind "model"
         then AddTyping (setModel it innerType) ["TYPE_CHECKING"]
         else it
  else it.

Definition TrackFieldType (it : ImportTracker) (typeName : string)
    : ImportTracker :=
  let it := trackIf (strings.Contains typeName "Optional[") "Optional" it in
  let it := trackIf (strings.Contains typeName "List[") "List" it in
  let it := trackIf (strings.Contains typeName "Union[") "Union" it in
  let it := trackIf (strings.Contains typeName "Dict[") "Dict" it in
  let it := trackIf (strings.Contains typeName "Any") "Any" it in
  let it := trackIf (strings.Contains typeName "Literal[") "Literal" it in
  let it :=
    if String.eqb typeName "datetime" || strings.Contains typeName "datetime"
    then setDatetime it else it in
  fold_left trackInner (extractAllInnerTypes typeName) it.

Definition enumImportLine (enumName : string) : string :=
  "from ..enums." ++ ToSnakeCase enumName ++ " import " ++ enumName.

Definition modelImportLine (modelName : string) : string :=
  "from ." ++ ToSnakeCase modelName ++ " import " ++ modelName.

Definition emitAll (texts : list string) (cb : formatdef.ContentBuilder)
    : formatdef.ContentBuilder :=
  fold_left formatdef.Line texts cb.

(** [Generate] sorts [it.typing] in place, so the tracker is returned
    together with the builder. *)
Definition Generate (it : ImportTracker) (cb : formatdef.ContentBuilder)
    : ImportTracker * formatdef.ContentBuilder :=
  let cb :=
    match pydantic it with
    | [] => cb
    | _ :: _ =>
        formatdef.Line cb
          ("from pydantic import " ++ strings.Join (pydantic it) ", ")
    end in
  let (it, cb) :=
    match typing it with
    | [] => (it, cb)
    | _ :: _ =>
        let sorted := sort.Strings (typing it) in
        (withTyping it sorted,
         formatdef.Line cb
           ("from typing import " ++ strings.Join sorted ", "))
    end in
  let cb :=
    if datetime it
    then formatdef.Line cb "from datetime import datetime"
    else cb in
  let cb :=
    match enums it with
    | [] => cb
    | _ :: _ =>
        let enumNames := sort.Strings (GoMap.keys (enums it)) in
        emitAll (map enumImportLine enumNames) cb
    end in
  let cb := formatdef.Line cb "" in
  let cb :=
    match models it with
    | [] => cb
    | _ :: _ =>
        let cb := formatdef.Line cb "if TYPE_CHECKING:" in
        let cb := formatdef.Indent cb in
        let modelNames := sort.Strings (GoMap.keys (models it)) in
        let cb := emitAll (map modelImportLine modelNames) cb in
        formatdef.Dedent cb
    end in
  (it, cb).

End Tracker.

(** ** The elementary updates of the tracker

    [TrackFieldType] is a sequence of updates of four kinds; each of them
    only ever adds to the tracker. *)

Inductive trackerOp : Type :=
| OpTyping (imp : string)
| OpDatetime
| OpEnum (name : string)
| OpModel (name : string).

Definition applyOp (it : ImportTracker) (op : trackerOp) : ImportTracker :=
  match op with
  | OpTyping imp => AddTyping it [imp]
  | OpDatetime => setDatetime it
  | OpEnum name => setEnum it name
  | OpModel name => setModel it name
  end.

(** The update has been made already. *)
Definition satisfied (op : trackerOp) (it : ImportTracker) : Prop :=
  match op with
  | OpTyping imp => containsString (typing it) imp = true
  | OpDatetime => datetime it = true
  | OpEnum name => GoMap.lookup (enums it) name = Some true
  | OpModel name => GoMap.lookup (models it) name = Some true
  end.

Section TrackerOps.

Context {H : Helpers}.

Definition typingOp (cond : bool) (imp : string) : list trackerOp :=
  if cond then [OpTyping imp] else [].

Definition innerOps (r : registry.Registry) (innerType : string)
    : list trackerOp :=
  if negb (String.eqb innerType "") && negb (isBasicType innerType)
  then
    let kind := resolveFieldType innerType r in
    if String.eqb kind "enum" then [OpEnum innerType]
    else if String.eqb kind "model"
         then [OpModel innerType; OpTyping "TYPE_CHECKING"]
         else []
  else [].

(** The updates [TrackFieldType] makes for a type name. *)
Definition trackOps (r : registry.Registry) (typeName : string)
    : list trackerOp :=
  (typingOp (strings.Contains typeName "Optional[") "Optional"
   ++ typingOp (strings.Contains typeName "List[") "List"
   ++ typingOp (strings.Contains typeName "Union[") "Union"
   ++ typingOp (strings.Contains typeName "Dict[") "Dict"
   ++ typingOp (strings.Contains typeName "Any") "Any"
   ++ typingOp (strings.Contains typeName "Literal[") "Literal"
   ++ (if String.eqb typeName "datetime"
          || strings.Contains typeName "datetime"
       then [OpDatetime] else [])
   ++ flat_map (innerOps r) (extractAllInnerTypes typeName))%list.

Definition pydanticImportText (pyd : list string) : string :=
  "from pydantic import " ++ strings.Join pyd ", ".

Definition typingImportText (tys : list string) : string :=
  "from typing import " ++ strings.Join tys ", ".

(** The import section [Generate] writes for given name lists: the
    pydantic line, the typing line, the datetime line, one line per enum,
    an empty line, the guarded model imports. *)
Definition importSectionLines (cb : formatdef.ContentBuilder)
    (pyd tys : list string) (dt : bool) (ens mds : list string)
    : list string :=
  (formatdef.lines cb
   ++ map (formatdef.indented cb)
        (match pyd with
         | [] => []
         | _ :: _ => [pydanticImportText pyd]
         end
         ++ match tys with
            | [] => []
            | _ :: _ => [typingImportText tys]
            end
         ++ (if dt then ["from datetime import datetime"] else [])
         ++ map enumImportLine ens
         ++ [EmptyString])
   ++ match mds with
      | [] => []
      | _ :: _ =>
          formatdef.indented cb "if TYPE_CHECKING:"
          :: map (formatdef.indented (formatdef.Indent cb))
               (map modelImportLine mds)
      end)%list.

End TrackerOps.

(** ** Configuration (morphe_compile_config.go and package [cfg]) *)

Record PydanticConfig : Type := mkPydanticConfig {
  PydanticV2 : bool;
  AddTypeHints : bool;
  GenerateInit : bool;
  IndentSize : nat;
  PythonVersion : string
}.

(** Modelled from the spec: package [cfg] is not part of the sources at
    hand.  Of the per-kind options the model generator reads whether to
    use the [Field] wrapper. *)
Module cfg.
Record ModelConfig : Type := mkModelConfig { UseField : bool }.
Record MorpheConfig : Type := mkMorpheConfig { Models : ModelConfig }.
End cfg.

(** The formatted texts [class %s(BaseModel):] and the documentation
    string. *)
Definition classLine (name : string) : string :=
  "class " ++ name ++ "(BaseModel):".

Definition docText (name what : string) : string :=
  dquote ++ dquote ++ dquote ++ name ++ what ++ dquote ++ dquote ++ dquote.

(** ** generateModelContent (compile_models.go) *)

Section Generate.

Context {H : Helpers}.

Definition isNav (field : formatdef.Field) : bool :=
  strings.HasPrefix (formatdef.Name field) "_nav_".

Record scanState : Type := mkScan {
  imports : ImportTracker;
  needsModelConfig : bool;
  hasPolymorphicTypeField : bool;
  polymorphicTypeToNavMap : GoMap.t string
}.

(** "Check if this field is an enum" *)
Definition isEnumField (r : registry.Registry) (field : formatdef.Field)
    : bool :=
  match formatdef.Type_ field with
  | formatdef.BasicType name =>
      let innerType := extractInnerType name in
      negb (String.eqb innerType "")
      && String.eqb (resolveFieldType innerType r) "enum"
  | formatdef.ArrayType _ => false
  end.

(** "Check for polymorphic type fields" *)
Definition isPolyTypeField (field : formatdef.Field) : bool :=
  strings.HasSuffix (formatdef.Name field) "_type"
  && String.eqb (formatdef.GetName (formatdef.Type_ field)) "str".

(** Body of the loop "Scan all fields to determine imports". *)
Definition scanField (r : registry.Registry) (st : scanState)
    (field : formatdef.Field) : scanState :=
  if isNav field then st
  else
    let typeName := formatdef.GetName (formatdef.Type_ field) in
    let tracked := TrackFieldType (imports st) typeName in
    let needs := if isEnumField r field then true else needsModelConfig st in
    if isPolyTypeField field
    then
      let navFieldName :=
        "_nav_" ++ strings.TrimSuffix (formatdef.Name field) "_type" in
      {| imports := tracked;
         needsModelConfig := needs;
         hasPolymorphicTypeField := true;
         polymorphicTypeToNavMap :=
           GoMap.set (polymorphicTypeToNavMap st) (formatdef.Name field)
             navFieldName |}
    else
      {| imports := tracked;
         needsModelConfig := needs;
         hasPolymorphicTypeField := hasPolymorphicTypeField st;
         polymorphicTypeToNavMap := polymorphicTypeToNavMap st |}.

(** Body of the loop "Scan navigation properties". *)
Definition scanNav (it : ImportTracker) (field : formatdef.Field)
    : ImportTracker :=
  if isNav field
  then TrackFieldType it (formatdef.GetName (formatdef.Type_ field))
  else it.

(** The allowed types of a polymorphic type field: the members of the
    [Union[...]] of the first field called [navFieldName]. *)
Definition allowedTypes (model : formatdef.Struct) (navFieldName : string)
    : list string :=
  match find (fun navField =>
                String.eqb (formatdef.Name navField) navFieldName)
          (formatdef.Fields model) with
  | Some navField =>
      let unionType := formatdef.GetName (formatdef.Type_ navField) in
      if strings.HasPrefix unionType "Union["
         && strings.HasSuffix unionType "]"
      then
        let unionContent :=
          String.substring 6 (String.length unionType - 1 - 6) unionType in
        map (fun t => dquote ++ strings.Trim t quoteCutset ++ dquote)
          (strings.Split unionContent ", ")
      else []
  | None => []
  end.

(** "Make foreign keys and type fields optional by default": the test on
    the rendered name. *)
Definition isForeignKeyName (fieldName : string) : bool :=
  Nat.ltb 3 (String.length fieldName)
  && (String.eqb
        (String.substring (String.length fieldName - 3) 3 fieldName) "_id"
      || strings.HasSuffix fieldName "_type").

(** The text of the line a data field is rendered as. *)
Definition dataFieldText (config : PydanticConfig)
    (model : formatdef.Struct) (polyMap : GoMap.t string)
    (field : formatdef.Field) : string :=
  let fieldName :=
    SanitizePythonIdentifier (ToSnakeCase (formatdef.Name field)) in
  let fieldType := formatdef.GetName (formatdef.Type_ field) in
  if AddTypeHints config
  then
    match GoMap.lookup polyMap (formatdef.Name field) with
    | Some navFieldName =>
        match allowedTypes model navFieldName with
        | (_ :: _) as allowed =>
            fieldName ++ ": Literal[" ++ strings.Join allowed ", " ++ "]"
        | [] => fieldName ++ ": str"
        end
    | None =>
        if isForeignKeyName fieldName
        then fieldName ++ ": Optional[" ++ fieldType ++ "] = None"
        else fieldName ++ ": " ++ fieldType
    end
  else fieldName ++ " = None".

Definition emitDataField (config : PydanticConfig)
    (model : formatdef.Struct) (polyMap : GoMap.t string)
    (cb : formatdef.ContentBuilder) (field : formatdef.Field)
    : formatdef.ContentBuilder :=
  if isNav field then cb
  else formatdef.Line cb (dataFieldText config model polyMap field).

Definition hasPolyFields (model : formatdef.Struct) (relName : string)
    : bool :=
  existsb (fun f =>
             String.eqb (formatdef.Name f) (relName ++ "_type")
             || String.eqb (formatdef.Name f) (relName ++ "_id"))
    (formatdef.Fields model).

Definition navFieldText (field : formatdef.Field) : string :=
  let relName := strings.TrimPrefix (formatdef.Name field) "_nav_" in
  let fieldName := SanitizePythonIdentifier (ToSnakeCase relName) in
  let fieldType := formatdef.GetName (formatdef.Type_ field) in
  if strings.HasPrefix fieldType "List["
  then fieldName ++ ": Optional[" ++ fieldType ++ "] = None"
  else if strings.Contains fieldType "Union["
  then fieldName ++ ": Optional[" ++ fieldType ++ "] = None"
  else fieldName ++ ": Optional['" ++ fieldType ++ "'] = None".

Definition emitNavField (model : formatdef.Struct)
    (cb : formatdef.ContentBuilder) (field : formatdef.Field)
    : formatdef.ContentBuilder :=
  if negb (isNav field) then cb
  else
    let relName := strings.TrimPrefix (formatdef.Name field) "_nav_" in
    if hasPolyFields model relName then cb
    else formatdef.Line cb (navFieldText field).

Definition emitModelConfig (config : PydanticConfig) (needs : bool)
    (cb : formatdef.ContentBuilder) : formatdef.ContentBuilder :=
  if PydanticV2 config && needs then
    let cb := formatdef.Line cb "" in
    let cb := formatdef.Line cb "model_config = {" in
    let cb := formatdef.Indent cb in
    let cb := formatdef.Line cb (dquote ++ "validate_assignment" ++ dquote ++ ": True,") in
    let cb := formatdef.Line cb (dquote ++ "use_enum_values" ++ dquote ++ ": True,") in
    let cb := formatdef.Dedent cb in
    formatdef.Line cb "}"
  else if negb (PydanticV2 config) && needs then
    let cb := formatdef.Line cb "" in
    let cb := formatdef.Line cb "class Config:" in
    let cb := formatdef.Indent cb in
    let cb := formatdef.Line cb "validate_assignment = True" in
    let cb := formatdef.Line cb "use_enum_values = True" in
    formatdef.Dedent cb
  else cb.

Definition scanModel (model : formatdef.Struct) (config : PydanticConfig)
    (morpheConfig : cfg.MorpheConfig) (r : registry.Registry) : scanState :=
  let it := NewImportTracker r in
  let it := AddPydantic it ["BaseModel"] in
  let it :=
    if cfg.UseField (cfg.Models morpheConfig)
    then AddPydantic it ["Field"] else it in
  let st :=
    fold_left (scanField r) (formatdef.Fields model)
      {| imports := it; needsModelConfig := false;
         hasPolymorphicTypeField := false;
         polymorphicTypeToNavMap := [] |} in
  let it := fold_left scanNav (formatdef.Fields model) (imports st) in
  let it :=
    if AddTypeHints config then AddTyping it ["Optional"]
    else it in
  let it :=
    if hasPolymorphicTypeField st then AddTyping it ["Literal"]
    else it in
  {| imports := it;
     needsModelConfig := needsModelConfig st;
     hasPolymorphicTypeField := hasPolymorphicTypeField st;
     polymorphicTypeToNavMap := polymorphicTypeToNavMap st |}.

(** The builder at the end of [generateModelContent], before [Build]. *)
Definition generateModelBuilder (model : formatdef.Struct)
    (config : PydanticConfig) (morpheConfig : cfg.MorpheConfig)
    (r : registry.Registry) : formatdef.ContentBuilder :=
  let cb := formatdef.NewContentBuilder "    " in
  let st := scanModel model config morpheConfig r in
  let cb := snd (Generate (imports st) cb) in
  let cb := formatdef.Line cb "" in
  let cb := formatdef.Line cb (classLine (formatdef.StructName model)) in
  let cb := formatdef.Indent cb in
  let cb :=
    formatdef.Line cb (docText (formatdef.StructName model) " model.") in
  let cb :=
    match formatdef.Fields model with
    | [] => formatdef.Line cb "pass"
    | _ :: _ =>
        let cb :=
          fold_left
            (emitDataField config model (polymorphicTypeToNavMap st))
            (formatdef.Fields model) cb in
        let cb := fold_left (emitNavField model) (formatdef.Fields model) cb in
        emitModelConfig config (needsModelConfig st) cb
    end in
  formatdef.Dedent cb.

Definition generateModelLines (model : formatdef.Struct)
    (config : PydanticConfig) (morpheConfig : cfg.MorpheConfig)
    (r : registry.Registry) : list string :=
  formatdef.lines (generateModelBuilder model config morpheConfig r).

Definition generateModelContent (model : formatdef.Struct)
    (config : PydanticConfig) (morpheConfig : cfg.MorpheConfig)
    (r : registry.Registry) : string :=
  formatdef.Build (generateModelBuilder model config morpheConfig r).

(** [CompileAllModels], up to the hand-over to the writer: the map from
    model names to contents. *)
Definition compileOne (config : PydanticConfig)
    (morpheConfig : cfg.MorpheConfig) (r : registry.Registry)
    (model : yaml.Model) : result string :=
  match CompileModel model r with
  | Err msg => Err msg
  | Ok compiledModel =>
      Ok (generateModelContent compiledModel config morpheConfig r)
  end.

Fixpoint compileModels (config : PydanticConfig)
    (morpheConfig : cfg.MorpheConfig) (r : registry.Registry)
    (ms : GoMap.t yaml.Model) (modelContents : GoMap.t string)
    : result (GoMap.t string) :=
  match ms with
  | [] => Ok modelContents
  | (modelName, model) :: rest =>
      match compileOne config morpheConfig r model with
      | Err msg =>
          Err ("failed to compile model " ++ modelName ++ ": " ++ msg)
      | Ok content =>
          compileModels config morpheConfig r rest
            (GoMap.set modelContents modelName content)
      end
  end.

Definition CompileAllModels (config : PydanticConfig)
    (morpheConfig : cfg.MorpheConfig) (r : registry.Registry)
    : result (GoMap.t string) :=
  compileModels config morpheConfig r (registry.GetAllModels r) [].

End Generate.

(** ** generateStructureContent *)

Section GenerateStructure.

Context {H : Helpers}.

Record structImports : Type := mkStructImports {
  hasDate : bool;
  hasDict : bool;
  hasList : bool
}.

(** Body of the loop "Check if we need additional imports". *)
Definition scanStructField (st : structImports) (field : formatdef.Field)
    : structImports :=
  let typeName := formatdef.GetName (formatdef.Type_ field) in
  if String.eqb typeName "datetime"
  then {| hasDate := true; hasDict := hasDict st; hasList := hasList st |}
  else if String.eqb typeName "Dict[str, Any]"
  then {| hasDate := hasDate st; hasDict := true; hasList := hasList st |}
  else if Nat.ltb 5 (String.length typeName)
          && String.eqb (String.substring 0 5 typeName) "List["
  then {| hasDate := hasDate st; hasDict := hasDict st; hasList := true |}
  else st.

(** "Check if it's an enum": the test of the structure generator, which
    does not consult the registry. *)
Definition looksLikeEnum (field : formatdef.Field) : bool :=
  formatdef.isBasicType (formatdef.Type_ field)
  && let typeName := formatdef.GetName (formatdef.Type_ field) in
     negb (String.eqb typeName "str")
     && negb (String.eqb typeName "int")
     && negb (String.eqb typeName "float")
     && negb (String.eqb typeName "bool")
     && negb (String.eqb typeName "datetime")
     && negb (String.eqb typeName "Dict[str, Any]")
     && negb (strings.Contains typeName "[").

Definition structFieldText (field : formatdef.Field) : string :=
  SanitizePythonIdentifier (ToSnakeCase (formatdef.Name field))
  ++ ": " ++ formatdef.GetName (formatdef.Type_ field).

Definition structNeedsConfig (structure : formatdef.Struct)
    (config : PydanticConfig) : bool :=
  PydanticV2 config && existsb looksLikeEnum (formatdef.Fields structure).

Definition generateStructureBuilder (structure : formatdef.Struct)
    (config : PydanticConfig) : formatdef.ContentBuilder :=
  let cb := formatdef.NewContentBuilder "    " in
  let cb :=
    if PydanticV2 config
    then formatdef.Line cb "from pydantic import BaseModel, Field"
    else formatdef.Line cb "from pydantic import BaseModel" in
  let cb :=
    if AddTypeHints config
    then
      let st :=
        fold_left scanStructField (formatdef.Fields structure)
          {| hasDate := false; hasDict := false; hasList := false |} in
      let imports := ["Optional"] in
      let imports :=
        if hasDict st then (imports ++ ["Dict"; "Any"])%list else imports in
      let imports :=
        if hasList st then (imports ++ ["List"])%list else imports in
      let cb :=
        match imports with
        | [] => cb
        | _ :: _ =>
            formatdef.Line cb
              ("from typing import " ++ formatdef.FormatList imports ", ")
        end in
      if hasDate st
      then formatdef.Line cb "from datetime import datetime"
      else cb
    else cb in
  let cb := formatdef.Line cb "" in
  let cb := formatdef.Line cb "" in
  let cb := formatdef.Line cb (classLine (formatdef.StructName structure)) in
  let cb := formatdef.Indent cb in
  let cb :=
    formatdef.Line cb
      (docText (formatdef.StructName structure) " data transfer object.") in
  let cb :=
    fold_left (fun cb field => formatdef.Line cb (structFieldText field))
      (formatdef.Fields structure) cb in
  let cb :=
    if PydanticV2 config
    then
      if existsb looksLikeEnum (formatdef.Fields structure)
      then
        let cb := formatdef.Line cb "" in
        let cb := formatdef.Line cb "model_config = {" in
        let cb := formatdef.Indent cb in
        let cb := formatdef.Line cb (dquote ++ "validate_assignment" ++ dquote ++ ": True,") in
        let cb := formatdef.Line cb (dquote ++ "use_enum_values" ++ dquote ++ ": True,") in
        let cb := formatdef.Dedent cb in
        formatdef.Line cb "}"
      else cb
    else cb in
  formatdef.Dedent cb.

Definition generateStructureLines (structure : formatdef.Struct)
    (config : PydanticConfig) : list string :=
  formatdef.lines (generateStructureBuilder structure config).

Definition generateStructureContent (structure : formatdef.Struct)
    (config : PydanticConfig) : string :=
  formatdef.Build (generateStructureBuilder structure config).

End GenerateStructure.

(** The model declares a polymorphic relation called [through]: the test
    of the inner loop of [resolvePolymorphicThrough]. *)
Definition declares (through : string) (m : yaml.Model) : bool :=
  existsb (isPolyRelation through) (yaml.Related m).

(** The field list [CompileModel] builds: own fields, foreign keys,
    navigation properties, each group in the sorted order of its keys. *)
Definition compiledFields {H : Helpers} (model : yaml.Model)
    (r : registry.Registry) : list formatdef.Field :=
  (map (dataField model) (sort.Strings (GoMap.keys (yaml.Fields model)))
   ++ flat_map (foreignKeyFields model)
        (sort.Strings (GoMap.keys (yaml.Related model)))
   ++ map (navigationField r model)
        (sort.Strings (GoMap.keys (yaml.Related model))))%list.

(** ** The rendered declaration, line by line

    The vocabulary in which the theorems describe the generated text. *)

Section Rendered.

Context {H : Helpers}.

(** The lines of the data fields: one per field that is not a navigation
    property, in the order of the struct. *)
Definition renderedDataLines (config : PydanticConfig)
    (model : formatdef.Struct) (polyMap : GoMap.t string) : list string :=
  map (fun f => "    " ++ dataFieldText config model polyMap f)
    (filter (fun f => negb (isNav f)) (formatdef.Fields model)).

(** A navigation property is rendered unless a field called
    [<relation>_type] or [<relation>_id] exists. *)
Definition isRenderedNav (model : formatdef.Struct) (f : formatdef.Field)
    : bool :=
  isNav f
  && negb (hasPolyFields model
             (strings.TrimPrefix (formatdef.Name f) "_nav_")).

Definition renderedNavLines (model : formatdef.Struct) : list string :=
  map (fun f => "    " ++ navFieldText f)
    (filter (isRenderedNav model) (formatdef.Fields model)).

(** The lines of the fields of a structure. *)
Definition renderedStructLines (structure : formatdef.Struct)
    : list string :=
  map (fun f => "    " ++ structFieldText f) (formatdef.Fields structure).

(** The configuration block as it stands in the text, without the empty
    line before it. *)
Definition configBlockV2 : list string :=
  [ "    model_config = {";
    "        " ++ dquote ++ "validate_assignment" ++ dquote ++ ": True,";
    "        " ++ dquote ++ "use_enum_values" ++ dquote ++ ": True,";
    "    }" ].

Definition configBlockV1 : list string :=
  [ "    class Config:";
    "        validate_assignment = True";
    "        use_enum_values = True" ].

Definition configBlock (config : PydanticConfig) : list string :=
  if PydanticV2 config then configBlockV2 else configBlockV1.

(** The empty line and the block, when the block is needed. *)
Definition configLines (config : PydanticConfig) (needs : bool)
    : list string :=
  if needs then "    " :: configBlock config else [].

Definition docLine (name what : string) : string :=
  "    " ++ docText name what.

(** Everything up to and including the documentation string of a model:
    the import section, an empty line, the class line. *)
Definition headerLines (model : formatdef.Struct) (config : PydanticConfig)
    (morpheConfig : cfg.MorpheConfig) (r : registry.Registry) : list string :=
  (formatdef.lines
     (snd (Generate (imports (scanModel model config morpheConfig r))
             (formatdef.NewContentBuilder "    ")))
   ++ [ EmptyString;
        classLine (formatdef.StructName model);
        docLine (formatdef.StructName model) " model." ])%list.

(** A list of lines ends with the configuration block. *)
Definition endsWithConfigBlock (config : PydanticConfig)
    (text : list string) : Prop :=
  exists before, text = (before ++ configBlock config)%list.

(** Some data field of the struct is enum-valued, as the model generator
    decides it. *)
Definition hasEnumField (r : registry.Registry) (model : formatdef.Struct)
    : bool :=
  existsb (fun f => negb (isNav f) && isEnumField r f)
    (formatdef.Fields model).

(** [name] is a key of [polymorphicTypeToNavMap]: some data field of that
    name ends in [_type] and has the type [str]. *)
Definition isPolymorphicTypeName (model : formatdef.Struct) (name : string)
    : bool :=
  existsb (fun f => negb (isNav f) && isPolyTypeField f
                    && String.eqb (formatdef.Name f) name)
    (formatdef.Fields model).

End Rendered.

(** A colon somewhere in the text: every typed field line has one. *)
Fixpoint hasColon (s : string) : bool :=
  match s with
  | EmptyString => false
  | String c s' => Ascii.eqb c ":"%char || hasColon s'
  end.

(** The last lines of the two forms of the block. *)
Definition isBlockEnd (line : string) : Prop :=
  line = "    }" \/ line = "        use_enum_values = True".

(** A text contains a block of consecutive lines. *)
Definition containsLines (block text : list string) : Prop :=
  exists before after, text = (before ++ block ++ after)%list.

(** A text contains the configuration block, in the one syntax or the
    other. *)
Definition containsConfigBlock (text : list string) : Prop :=
  containsLines configBlockV2 text \/ containsLines configBlockV1 text.


(** ** An implementation of the helper interface *)

Module SpecHelpers.

Definition isUpper (c : ascii) : bool :=
  let n := nat_of_ascii c in Nat.leb 65 n && Nat.leb n 90.

Definition isLower (c : ascii) : bool :=
  let n := nat_of_ascii c in Nat.leb 97 n && Nat.leb n 122.

Definition toLower (c : ascii) : ascii :=
  if isUpper c then ascii_of_nat (nat_of_ascii c + 32) else c.

Definition toUpper (c : ascii) : ascii :=
  if isLower c then ascii_of_nat (nat_of_ascii c - 32) else c.

Definition startsLower (s : string) : bool :=
  match s with
  | EmptyString => false
  | String c _ => isLower c
  end.

Fixpoint snakeAux (prev : option ascii) (s : string) : string :=
  match s with
  | EmptyString => EmptyString
  | String c s' =>
      let boundary :=
        match prev with
        | None => false
        | Some p => isUpper c && (isLower p || startsLower s')
        end in
      (if boundary then "_" else "")
      ++ String (toLower c) (snakeAux (Some c) s')
  end.

(** Modelled from the spec: [formatdef.ToSnakeCase] is not part of the
    sources at hand.  Field identifiers are put into the identifier case
    convention of the target language: lower case, with an underscore at
    every word boundary, where a run of capitals counts as one word
    ([TaxID] becomes [tax_id], [ID] becomes [id]). *)
Definition ToSnakeCase (s : string) : string := snakeAux None s.

Definition capitalize (s : string) : string :=
  match s with
  | EmptyString => EmptyString
  | String c s' => String (toUpper c) s'
  end.

Definition uncapitalize (s : string) : string :=
  match s with
  | EmptyString => EmptyString
  | String c s' => String (toLower c) s'
  end.

(** Modelled from the spec: [formatdef.ToCamelCase] is not part of the
    sources at hand.  The words between underscores are joined, each but
    the first with a capital initial, and the first letter is put in lower
    case ([Person_id] becomes [personId]); the README's rendering of a
    polymorphic model agrees with this reading. *)
Definition ToCamelCase (s : string) : string :=
  match strings.Split s "_" with
  | [] => EmptyString
  | first :: rest =>
      uncapitalize first ++ String.concat EmptyString (map capitalize rest)
  end.

Definition pythonReserved : list string :=
  [ "False"; "None"; "True"; "and"; "as"; "assert"; "async"; "await";
    "break"; "class"; "continue"; "def"; "del"; "elif"; "else"; "except";
    "finally"; "for"; "from"; "global"; "if"; "import"; "in"; "is";
    "lambda"; "nonlocal"; "not"; "or"; "pass"; "raise"; "return"; "try";
    "while"; "with"; "yield" ].

(** Modelled from the spec: [SanitizePythonIdentifier] is not part of the
    sources at hand.  Identifiers are checked against a fixed list of
    reserved words; a colliding name gets the suffix [_]. *)
Definition SanitizePythonIdentifier (name : string) : string :=
  if containsString pythonReserved name then name ++ "_" else name.

(** Modelled from the spec: [typemap.GetFieldType] is not part of the
    sources at hand.  It is total: the schema scalars map to the scalars
    of the target language, and any other name is a reference to a
    Definition of that name. *)
Definition GetFieldType (fieldType : string) : formatdef.Typ :=
  if String.eqb fieldType "String" then formatdef.BasicType "str"
  else if String.eqb fieldType "UUID" then formatdef.BasicType "str"
  else if String.eqb fieldType "AutoIncrement" then formatdef.BasicType "int"
  else if String.eqb fieldType "Integer" then formatdef.BasicType "int"
  else if String.eqb fieldType "Float" then formatdef.BasicType "float"
  else if String.eqb fieldType "Boolean" then formatdef.BasicType "bool"
  else if String.eqb fieldType "Time" then formatdef.BasicType "datetime"
  else if String.eqb fieldType "Date" then formatdef.BasicType "datetime"
  else formatdef.BasicType fieldType.

Fixpoint afterBracket (s : string) : option string :=
  match s with
  | EmptyString => None
  | String c s' => if Ascii.eqb c "["%char then Some s' else afterBracket s'
  end.

(** Modelled from the spec: [extractInnerType] is not part of the sources
    at hand.  It yields the name of the Definition a type expression
    refers to: the argument of a wrapper such as [Optional[...]], or the
    name itself. *)
Definition extractInnerType (typeName : string) : string :=
  match afterBracket typeName with
  | Some inner => strings.TrimSuffix inner "]"
  | None => typeName
  end.

(** Modelled from the spec: [resolveFieldType] is not part of the sources
    at hand.  The category of a name is determined by where the name
    exists in the registry. *)
Definition resolveFieldType (name : string) (r : registry.Registry)
    : string :=
  if containsString (registry.enums r) name then "enum"
  else if containsString (GoMap.keys (registry.models r)) name then "model"
  else if containsString (registry.structures r) name then "structure"
  else if containsString (registry.entities r) name then "entity"
  else EmptyString.

Definition helpers : Helpers :=
  Build_Helpers ToCamelCase ToSnakeCase SanitizePythonIdentifier
    GetFieldType extractInnerType resolveFieldType.

End SpecHelpers.

(** ** The schema files at hand *)

Definition Company : yaml.Model :=
  {| yaml.Name := "Company";
     yaml.Fields :=
       [ ("ID", yaml.mkModelField "AutoIncrement");
         ("Name", yaml.mkModelField "String");
         ("TaxID", yaml.mkModelField "String") ];
     yaml.Related :=
       [ ("Person", yaml.mkModelRelation "HasMany" [] "" "") ] |}.

Definition ContactInfo : yaml.Model :=
  {| yaml.Name := "ContactInfo";
     yaml.Fields :=
       [ ("ID", yaml.mkModelField "AutoIncrement");
         ("Email", yaml.mkModelField "String") ];
     yaml.Related :=
       [ ("Person", yaml.mkModelRelation "ForOne" [] "" "") ] |}.

Definition defaultConfig : PydanticConfig :=
  {| PydanticV2 := true; AddTypeHints := true; GenerateInit := true;
     IndentSize := 4; PythonVersion := "3.8" |}.

Definition emptyMorpheConfig : cfg.MorpheConfig :=
  cfg.mkMorpheConfig (cfg.mkModelConfig false).

(** The model [Person] as the README renders it: four fields, one of them
    enum-valued, a plain [ForOne] relation to [Company]. *)
Definition Person : yaml.Model :=
  {| yaml.Name := "Person";
     yaml.Fields :=
       [ ("FirstName", yaml.mkModelField "String");
         ("ID", yaml.mkModelField "AutoIncrement");
         ("LastName", yaml.mkModelField "String");
         ("Nationality", yaml.mkModelField "Nationality") ];
     yaml.Related :=
       [ ("Company", yaml.mkModelRelation "ForOne" [] "" "") ] |}.

Definition exampleRegistry : registry.Registry :=
  {| registry.models :=
       [ ("Company", Company); ("ContactInfo", ContactInfo);
         ("Person", Person) ];
     registry.enums := ["Nationality"];
     registry.structures := [];
     registry.entities := [] |}.

(** A model whose polymorphic relation names a "through" relation that no
    model of [exampleRegistry] declares. *)
Definition Article : yaml.Model :=
  {| yaml.Name := "Article";
     yaml.Fields := [ ("ID", yaml.mkModelField "AutoIncrement") ];
     yaml.Related :=
       [ ("Comment",
          yaml.mkModelRelation "HasManyPoly" [] "Commentable" "") ] |}.

(** The same relation with a "for" list next to the "through" reference. *)
Definition Gallery : yaml.Model :=
  {| yaml.Name := "Gallery";
     yaml.Fields := [ ("ID", yaml.mkModelField "AutoIncrement") ];
     yaml.Related :=
       [ ("Comment",
          yaml.mkModelRelation "HasManyPoly" ["Post"] "Commentable" "") ] |}.

(** A model with a field whose schema name ends in [_type]. *)
Definition Item : yaml.Model :=
  {| yaml.Name := "Item";
     yaml.Fields :=
       [ ("ID", yaml.mkModelField "AutoIncrement");
         ("item_type", yaml.mkModelField "String") ];
     yaml.Related := [] |}.

Definition Ticket : yaml.Model :=
  {| yaml.Name := "Ticket";
     yaml.Fields :=
       [ ("ID", yaml.mkModelField "AutoIncrement");
         ("status_type", yaml.mkModelField "String") ];
     yaml.Related := [] |}.

(** The structs [CompileModel] returns for the models above. *)
Definition companyStruct : formatdef.Struct :=
  formatdef.mkStruct "Company"
    [ formatdef.mkField "ID" (formatdef.BasicType "int");
      formatdef.mkField "Name" (formatdef.BasicType "str");
      formatdef.mkField "TaxID" (formatdef.BasicType "str");
      formatdef.mkField "_nav_Person"
        (formatdef.ArrayType (formatdef.BasicType "Person")) ].

Definition contactInfoStruct : formatdef.Struct :=
  formatdef.mkStruct "ContactInfo"
    [ formatdef.mkField "Email" (formatdef.BasicType "str");
      formatdef.mkField "ID" (formatdef.BasicType "int");
      formatdef.mkField "personId" (formatdef.BasicType "str");
      formatdef.mkField "_nav_Person" (formatdef.BasicType "Person") ].

Definition personStruct : formatdef.Struct :=
  formatdef.mkStruct "Person"
    [ formatdef.mkField "FirstName" (formatdef.BasicType "str");
      formatdef.mkField "ID" (formatdef.BasicType "int");
      formatdef.mkField "LastName" (formatdef.BasicType "str");
      formatdef.mkField "Nationality" (formatdef.BasicType "Nationality");
      formatdef.mkField "companyId" (formatdef.BasicType "str");
      formatdef.mkField "_nav_Company" (formatdef.BasicType "Company") ].

Definition itemStruct : formatdef.Struct :=
  formatdef.mkStruct "Item"
    [ formatdef.mkField "ID" (formatdef.BasicType "int");
      formatdef.mkField "item_type" (formatdef.BasicType "str") ].

Definition ticketStruct : formatdef.Struct :=
  formatdef.mkStruct "Ticket"
    [ formatdef.mkField "ID" (formatdef.BasicType "int");
      formatdef.mkField "status_type" (formatdef.BasicType "str") ].

(** Two structures: one refers to another structure, one to an enum. *)
Definition profileStruct : formatdef.Struct :=
  formatdef.mkStruct "Profile"
    [ formatdef.mkField "Home" (formatdef.BasicType "Address") ].

Definition passportStruct : formatdef.Struct :=
  formatdef.mkStruct "Passport"
    [ formatdef.mkField "Nationality" (formatdef.BasicType "Nationality") ].

Definition structureRegistry : registry.Registry :=
  {| registry.models := [];
     registry.enums := ["Nationality"];
     registry.structures := ["Address"; "Profile"; "Passport"];
     registry.entities := [] |}.

Definition v1Config : PydanticConfig :=
  {| PydanticV2 := false; AddTypeHints := true; GenerateInit := true;
     IndentSize := 4; PythonVersion := "3.8" |}.

Definition noHintsConfig : PydanticConfig :=
  {| PydanticV2 := true; AddTypeHints := false; GenerateInit := true;
     IndentSize := 4; PythonVersion := "3.8" |}.

(** Two trackers that hold the same imports, found in different orders. *)
Definition trackerA : ImportTracker :=
  {| pydantic := ["BaseModel"];
     typing := ["Optional"; "TYPE_CHECKING"; "List"];
     datetime := true;
     enums := [("Status", true); ("Nationality", true)];
     models := [("Person", true); ("Company", true)];
     registry_ := exampleRegistry |}.

Definition trackerB : ImportTracker :=
  {| pydantic := ["BaseModel"];
     typing := ["List"; "Optional"; "TYPE_CHECKING"];
     datetime := true;
     enums := [("Nationality", true); ("Status", true)];
     models := [("Company", true); ("Person", true)];
     registry_ := exampleRegistry |}.

(** Two models that each declare a polymorphic relation [Commentable], and
    a model that refers through it. *)
Definition Comment : yaml.Model :=
  {| yaml.Name := "Comment";
     yaml.Fields := [ ("ID", yaml.mkModelField "AutoIncrement") ];
     yaml.Related :=
       [ ("Commentable",
          yaml.mkModelRelation "ForOnePoly" ["Author"] "" "") ] |}.

Definition Review : yaml.Model :=
  {| yaml.Name := "Review";
     yaml.Fields := [ ("ID", yaml.mkModelField "AutoIncrement") ];
     yaml.Related :=
       [ ("Commentable",
          yaml.mkModelRelation "ForOnePoly" ["Author"] "" "") ] |}.

Definition Author : yaml.Model :=
  {| yaml.Name := "Author";
     yaml.Fields := [ ("ID", yaml.mkModelField "AutoIncrement") ];
     yaml.Related :=
       [ ("Note",
          yaml.mkModelRelation "HasManyPoly" [] "Commentable" "") ] |}.

(** One registry, enumerated by the runtime in two orders. *)
Definition registryOrder1 : registry.Registry :=
  {| registry.models :=
       [ ("Comment", Comment); ("Review", Review); ("Author", Author) ];
     registry.enums := [];
     registry.structures := [];
     registry.entities := [] |}.

Definition registryOrder2 : registry.Registry :=
  {| registry.models :=
       [ ("Review", Review); ("Comment", Comment); ("Author", Author) ];
     registry.enums := [];
     registry.structures := [];
     registry.entities := [] |}.

(** ** CompileStructure and the two batch compilers

    [typemap.MorpheStructureFieldToFormatType] is called by
    [CompileStructure] but defined elsewhere; it is a parameter
    [mapFieldType] of the functions below. *)

(** Modelled from the spec: morphe-go's [yaml.Structure] is not part of the
    sources at hand; a structure has a name and a mapping from field names
    to field types, and [CompileStructure] reads exactly these. *)
Record StructureField : Type :=
  mkStructureField { StructureFieldType : string }.

Record Structure : Type := mkStructure {
  StructureName : string;
  StructureFields : GoMap.t StructureField
}.

Definition zeroStructureField : StructureField :=
  {| StructureFieldType := "" |}.

Section CompileStructures.

Context {H : Helpers}.

Variable mapFieldType :
  string -> string -> registry.Registry -> result formatdef.Typ.

(** The loop "Add fields from the structure definition in sorted order":
    it returns at the first field whose type does not map. *)
Fixpoint compileStructureFields (structure : Structure)
    (r : registry.Registry) (fieldNames : list string)
    (fields : list formatdef.Field) : result (list formatdef.Field) :=
  match fieldNames with
  | [] => Ok fields
  | fieldName :: rest =>
      let field :=
        GoMap.get zeroStructureField (StructureFields structure) fieldName in
      match mapFieldType (StructureFieldType field) fieldName r with
      | Err err =>
          Err ("failed to map field type for " ++ fieldName ++ ": " ++ err)
      | Ok fieldType =>
          compileStructureFields structure r rest
            (fields ++ [formatdef.mkField fieldName fieldType])%list
      end
  end.

Definition CompileStructure (structure : Structure) (r : registry.Registry)
    : result formatdef.Struct :=
  let fieldNames := sort.Strings (GoMap.keys (StructureFields structure)) in
  match compileStructureFields structure r fieldNames [] with
  | Err err => Err err
  | Ok fields => Ok (formatdef.mkStruct (StructureName structure) fields)
  end.

(** [CompileAllStructures], up to the hand-over to the writer.  The
    structures come as the map [r.GetAllStructures()] yields them. *)
Fixpoint compileStructures (config : PydanticConfig) (r : registry.Registry)
    (ss : GoMap.t Structure) (structureContents : GoMap.t string)
    : result (GoMap.t string) :=
  match ss with
  | [] => Ok structureContents
  | (structureName, structure) :: rest =>
      match CompileStructure structure r with
      | Err err =>
          Err ("failed to compile structure " ++ structureName ++ ": " ++ err)
      | Ok compiledStructure =>
          compileStructures config r rest
            (GoMap.set structureContents structureName
               (generateStructureContent compiledStructure config))
      end
  end.

Definition CompileAllStructures (config : PydanticConfig)
    (r : registry.Registry) (allStructures : GoMap.t Structure)
    : result (GoMap.t string) :=
  compileStructures config r allStructures [].

End CompileStructures.

(** The type name of the schema field [k] of a structure. *)
Definition schemaType (structure : Structure) (k : string) : string :=
  StructureFieldType
    (GoMap.get zeroStructureField (StructureFields structure) k).

(** ** Vocabulary of the further properties *)

(** Whenever the tracker holds a model import, it holds the typing import
    [TYPE_CHECKING] that guards it. *)
Definition modelsGuarded (it : ImportTracker) : Prop :=
  models it <> [] -> containsString (typing it) "TYPE_CHECKING" = true.

(** The typing imports of a structure: [Optional] always, [Dict] and [Any]
    for a field of type [Dict[str, Any]], [List] for a field whose type
    starts with [List[]. *)
Definition isDictField (f : formatdef.Field) : bool :=
  String.eqb (formatdef.GetName (formatdef.Type_ f)) "Dict[str, Any]".

Definition isDatetimeField (f : formatdef.Field) : bool :=
  String.eqb (formatdef.GetName (formatdef.Type_ f)) "datetime".

Definition isListField (f : formatdef.Field) : bool :=
  Nat.ltb 5 (String.length (formatdef.GetName (formatdef.Type_ f)))
  && String.eqb
       (String.substring 0 5 (formatdef.GetName (formatdef.Type_ f)))
       "List[".

Definition structTypingImports (structure : formatdef.Struct)
    : list string :=
  (["Optional"]
   ++ (if existsb isDictField (formatdef.Fields structure)
       then ["Dict"; "Any"] else [])
   ++ (if existsb isListField (formatdef.Fields structure)
       then ["List"] else []))%list.

(** The lines of a structure before the documentation string. *)
Definition structHeaderLines (structure : formatdef.Struct)
    (config : PydanticConfig) : list string :=
  ([ if PydanticV2 config
     then "from pydantic import BaseModel, Field"
     else "from pydantic import BaseModel" ]
   ++ (if AddTypeHints config
       then typingImportText (structTypingImports structure)
            :: (if existsb isDatetimeField (formatdef.Fields structure)
                then ["from datetime import datetime"] else [])
       else [])
   ++ [ EmptyString; EmptyString;
        classLine (formatdef.StructName structure) ])%list.

(** The type inside [Optional[...]] of a navigation line: the type name
    for a list or a union, the quoted type name otherwise. *)
Definition navTypeText (field : formatdef.Field) : string :=
  let fieldType := formatdef.GetName (formatdef.Type_ field) in
  if strings.HasPrefix fieldType "List["
     || strings.Contains fieldType "Union["
  then fieldType
  else "'" ++ fieldType ++ "'".

(** A name without brackets, commas, ASCII white space, quotes or bars. *)
Definition isPlainChar (c : ascii) : bool :=
  negb (Ascii.eqb c "["%char) && negb (Ascii.eqb c "]"%char)
  && negb (Ascii.eqb c ","%char) && negb (strings.isSpace c)
  && negb (strings.inCutset c quoteCutset) && negb (Ascii.eqb c "|"%char).

Fixpoint isPlainName (s : string) : bool :=
  match s with
  | EmptyString => true
  | String c s' => isPlainChar c && isPlainName s'
  end.

(** White space, as [strings.Fields] sees it, somewhere in the name. *)
Fixpoint hasWhiteSpace (s : string) : bool :=
  match s with
  | EmptyString => false
  | String _ s' =>
      negb (Nat.eqb (strings.spaceWidth s) 0) || hasWhiteSpace s'
  end.

(** A name between single quotes, as [CompileModel] writes the members of
    a union. *)
Definition squote (f : string) : string := "'" ++ f ++ "'".

(** A struct with a polymorphic type field beside the navigation field of
    its relation, whose type is the union [CompileModel] writes for the
    "for" list [Author, Post]. *)
Definition commentStruct : formatdef.Struct :=
  formatdef.mkStruct "Comment"
    [ formatdef.mkField "ID" (formatdef.BasicType "int");
      formatdef.mkField "commentable_id" (formatdef.BasicType "str");
      formatdef.mkField "commentable_type" (formatdef.BasicType "str");
      formatdef.mkField "_nav_commentable"
        (formatdef.BasicType (unionTypeName ["Author"; "Post"])) ].

(** Modelled from the spec: [typemap.MorpheStructureFieldToFormatType] is
    not part of the sources at hand.  For the examples: the scalar types
    [String] and [Integer] map to [str] and [int], a name the mapper does
    not know is a hard error. *)
Definition exampleMapFieldType (fieldType fieldName : string)
    (r : registry.Registry) : result formatdef.Typ :=
  if String.eqb fieldType "String" then Ok (formatdef.BasicType "str")
  else if String.eqb fieldType "Integer" then Ok (formatdef.BasicType "int")
  else Err ("unsupported type " ++ fieldType).

Definition addressStructure : Structure :=
  {| StructureName := "Address";
     StructureFields :=
       [ ("Street", mkStructureField "String");
         ("HouseNumber", mkStructureField "Integer") ] |}.

Definition pointStructure : Structure :=
  {| StructureName := "Point";
     StructureFields :=
       [ ("X", mkStructureField "Integer");
         ("Y", mkStructureField "Integer") ] |}.

Definition exampleStructures : GoMap.t Structure :=
  [ ("Address", addressStructure); ("Point", pointStructure) ].

(** Modelled from the spec: [typemap.MorpheStructureFieldToFormatType] is
    not part of the sources at hand.  The type mapper recognises the
    schema scalars and takes any other name for a reference to a
    Definition of the registry; here it maps a structure field as
    [typemap.GetFieldType] maps a model field, and a field without a type
    is a hard error. *)
Definition specMapFieldType (fieldType fieldName : string)
    (r : registry.Registry) : result formatdef.Typ :=
  if String.eqb fieldType ""
  then Err ("field " ++ fieldName ++ " has no type")
  else Ok (SpecHelpers.GetFieldType fieldType).

(** The schema structures behind [profileStruct] and [passportStruct]. *)
Definition profileStructure : Structure :=
  {| StructureName := "Profile";
     StructureFields := [ ("Home", mkStructureField "Address") ] |}.

Definition passportStructure : Structure :=
  {| StructureName := "Passport";
     StructureFields :=
       [ ("Nationality", mkStructureField "Nationality") ] |}.

(** Modelled from the spec: "alphabetical" order, read as the order of a
    dictionary, compares names letter by letter without regard to case. *)
Fixpoint foldCase (s : string) : string :=
  match s with
  | EmptyString => EmptyString
  | String c s' => String (SpecHelpers.toLower c) (foldCase s')
  end.

Definition alphabeticalLe (a b : string) : bool :=
  String.leb (foldCase a) (foldCase b).

(** A tracker whose enum and model names start with an acronym. *)
Definition acronymTracker : ImportTracker :=
  {| pydantic := ["BaseModel"];
     typing := ["TYPE_CHECKING"];
     datetime := false;
     enums := [("Identity", true); ("IPAddress", true)];
     models := [("Invoice", true); ("IPRange", true)];
     registry_ := exampleRegistry |}.

(** * Properties *)

(** ** The order of [sort.Strings] *)

Lemma sle_cases (a b : string) : sle a b <-> a = b \/ String_as_OT.lt a b.
Proof.
  unfold sle, String.leb. split.
  - destruct (String.compare a b) eqn:E; intros Hc; try discriminate.
    + left. now apply String.compare_eq_iff.
    + right. now apply String_as_OT.cmp_lt.
  - intros [-> | Hlt].
    + assert (E : String.compare b b = Eq)
        by (apply String_as_OT.cmp_eq; reflexivity).
      now rewrite E.
    + apply String_as_OT.cmp_lt in Hlt. unfold String_as_OT.cmp in Hlt.
      now rewrite Hlt.
Qed.

Lemma sle_trans : Transitive sle.
Proof.
  intros a b c Hab Hbc. apply sle_cases in Hab, Hbc. apply sle_cases.
  destruct Hab as [-> | Hab]; [assumption|].
  destruct Hbc as [<- | Hbc]; [now right|].
  right. eapply String_as_OT.lt_trans; eassumption.
Qed.

Lemma sle_antisym (a b : string) : sle a b -> sle b a -> a = b.
Proof. apply String.leb_antisym. Qed.

(** Two sorted lists with the same elements are the same list. *)
Lemma sorted_perm_unique (l1 l2 : list string) :
  StronglySorted sle l1 -> StronglySorted sle l2 -> Permutation l1 l2 ->
  l1 = l2.
Proof.
  revert l2. induction l1 as [|a l1 IH]; intros l2 S1 S2 P.
  - apply Permutation_nil in P. now subst.
  - destruct l2 as [|b l2].
    + apply Permutation_sym, Permutation_nil in P. discriminate.
    + apply StronglySorted_inv in S1 as [S1 F1].
      apply StronglySorted_inv in S2 as [S2 F2].
      assert (a = b) as ->.
      { assert (Ia : In a (b :: l2))
          by (eapply Permutation_in; [exact P | now left]).
        assert (Ib : In b (a :: l1))
          by (eapply Permutation_in;
              [apply Permutation_sym; exact P | now left]).
        destruct Ia as [<- | Ia]; [reflexivity|].
        destruct Ib as [<- | Ib]; [reflexivity|].
        rewrite Forall_forall in F1, F2.
        apply sle_antisym; auto. }
      f_equal. apply IH; auto. eapply Permutation_cons_inv; exact P.
Qed.

Lemma sort_Strings_sorted (l : list string) :
  StronglySorted sle (sort.Strings l).
Proof.
  unfold sort.Strings.
  pose proof (StringSort.StronglySorted_sort l) as Hs.
  assert (T : Transitive (fun x y => is_true (StringOrder.leb x y))).
  { intros a b c. apply sle_trans. }
  specialize (Hs T).
  induction Hs; constructor; auto.
Qed.

Lemma sort_Strings_perm (l : list string) : Permutation l (sort.Strings l).
Proof. apply StringSort.Permuted_sort. Qed.

Lemma sort_Strings_permutation_invariant (l1 l2 : list string) :
  Permutation l1 l2 -> sort.Strings l1 = sort.Strings l2.
Proof.
  intros P. apply sorted_perm_unique; try apply sort_Strings_sorted.
  eapply Permutation_trans; [apply Permutation_sym, sort_Strings_perm|].
  eapply Permutation_trans; [exact P | apply sort_Strings_perm].
Qed.

(** ** The content builder *)

Section BuilderFacts.

Context {H : Helpers}.

Lemma emitAll_spec (texts : list string) (cb : formatdef.ContentBuilder) :
  formatdef.lines (emitAll texts cb)
  = (formatdef.lines cb ++ map (formatdef.indented cb) texts)%list
  /\ formatdef.level (emitAll texts cb) = formatdef.level cb
  /\ formatdef.indentStr (emitAll texts cb) = formatdef.indentStr cb.
Proof.
  unfold emitAll. revert cb. induction texts as [|t ts IH]; intros cb; simpl.
  - now rewrite app_nil_r.
  - destruct (IH (formatdef.Line cb t)) as (L & V & I). rewrite L, V, I.
    simpl. rewrite <- app_assoc. auto.
Qed.

Lemma Generate_frame (it : ImportTracker) (cb : formatdef.ContentBuilder) :
  formatdef.level (snd (Generate it cb)) = formatdef.level cb
  /\ formatdef.indentStr (snd (Generate it cb)) = formatdef.indentStr cb.
Proof.
  unfold Generate. destruct it as [p t d e m r]; simpl.
  destruct p; destruct t; destruct d; destruct e; destruct m; simpl.
  all: repeat match goal with
    | |- context [emitAll ?t ?c] =>
        let L := fresh in let V := fresh in let I := fresh in
        destruct (emitAll_spec t c) as (L & V & I);
        rewrite ?V, ?I; simpl; clear L V I
    end.
  all: auto.
Qed.

(** A loop that writes one line for each element it keeps. *)
Lemma fold_emit_step (A : Type)
    (step : formatdef.ContentBuilder -> A -> formatdef.ContentBuilder)
    (keep : A -> bool) (text : A -> string) :
  (forall cb x,
      step cb x = if keep x then formatdef.Line cb (text x) else cb) ->
  forall (l : list A) (cb : formatdef.ContentBuilder),
  formatdef.lines (fold_left step l cb)
  = (formatdef.lines cb
     ++ map (fun x => formatdef.indented cb (text x)) (filter keep l))%list
  /\ formatdef.level (fold_left step l cb) = formatdef.level cb
  /\ formatdef.indentStr (fold_left step l cb) = formatdef.indentStr cb.
Proof.
  intros Hstep l. induction l as [|x l IH]; intros cb; simpl.
  - now rewrite app_nil_r.
  - rewrite Hstep. destruct (keep x); simpl.
    + destruct (IH (formatdef.Line cb (text x))) as (L & V & I).
      rewrite L, V, I. simpl. rewrite <- app_assoc. auto.
    + apply IH.
Qed.

End BuilderFacts.

(** ** CompileModel *)

Lemma fold_left_app_flat (A B : Type) (f : A -> list B) (l : list A)
    (init : list B) :
  fold_left (fun acc x => (acc ++ f x)%list) l init
  = (init ++ flat_map f l)%list.
Proof.
  revert init. induction l as [|x l IH]; intros init; simpl.
  - now rewrite app_nil_r.
  - rewrite IH. now rewrite app_assoc.
Qed.

Lemma fold_left_app_single (A B : Type) (f : A -> B) (l : list A)
    (init : list B) :
  fold_left (fun acc x => (acc ++ [f x])%list) l init
  = (init ++ map f l)%list.
Proof.
  revert init. induction l as [|x l IH]; intros init; simpl.
  - now rewrite app_nil_r.
  - rewrite IH. now rewrite <- app_assoc.
Qed.

Lemma lookup_In_keys (V : Type) (m : GoMap.t V) (k : string) (v : V) :
  GoMap.lookup m k = Some v -> In k (GoMap.keys m).
Proof.
  induction m as [|[k' v'] m IH]; simpl; [discriminate|].
  destruct (String.eqb_spec k' k); [now left | right; auto].
Qed.

Section CompileFacts.

Context {H : Helpers}.

(** The struct [CompileModel] returns: the schema's own fields, then the
    foreign keys, then the navigation properties. *)
Lemma CompileModel_fields (model : yaml.Model) (r : registry.Registry) :
  CompileModel model r
  = Ok (formatdef.mkStruct (yaml.Name model) (compiledFields model r)).
Proof.
  unfold CompileModel, compiledFields. do 2 f_equal.
  destruct (yaml.Related model) as [|e rest] eqn:E.
  - simpl. now rewrite app_nil_r.
  - rewrite fold_left_app_single, fold_left_app_flat.
    now rewrite <- app_assoc.
Qed.

Lemma resolveIn_not_found (through : string) (ms : GoMap.t yaml.Model) :
  (forall modelName m relName rel,
      In (modelName, m) ms -> In (relName, rel) (yaml.Related m) ->
      yamlops.IsRelationPoly (yaml.Type_ rel) = true -> relName <> through) ->
  resolveIn through ms
  = Err ("polymorphic relationship " ++ through ++ " not found").
Proof.
  induction ms as [|[modelName m] ms IH]; intros Hno; simpl; [reflexivity|].
  destruct (existsb (isPolyRelation through) (yaml.Related m)) eqn:E.
  - apply existsb_exists in E as [[relName rel] [Hin Hp]].
    unfold isPolyRelation in Hp. apply andb_true_iff in Hp as [Hn Hp].
    apply String.eqb_eq in Hn. exfalso.
    eapply Hno; [now left | exact Hin | exact Hp | exact Hn].
  - apply IH. intros mn m' rn rel Hin. apply (Hno mn). now right.
Qed.

(** C4.  For a relation [relatedName] of a model, [CompileModel] returns the
    struct whose fields are the own fields, the foreign keys of the
    relations in sorted order and the navigation properties; the foreign
    keys of [relatedName] are: for kind [ForOne] the one field
    [ToCamelCase(relatedName_id)] of type string; for kind [ForOnePoly] the
    two fields [ToCamelCase(relatedName_type)] and
    [ToCamelCase(relatedName_id)] of type string; for each of the six other
    kinds none. *)
Theorem foreign_key_contribution (model : yaml.Model) (r : registry.Registry)
    (relatedName : string) (rel : yaml.ModelRelation) :
  GoMap.lookup (yaml.Related model) relatedName = Some rel ->
  exists s,
    CompileModel model r = Ok s
    /\ formatdef.Fields s
       = (map (dataField model)
            (sort.Strings (GoMap.keys (yaml.Fields model)))
          ++ flat_map (foreignKeyFields model)
               (sort.Strings (GoMap.keys (yaml.Related model)))
          ++ map (navigationField r model)
               (sort.Strings (GoMap.keys (yaml.Related model))))%list
    /\ In relatedName (sort.Strings (GoMap.keys (yaml.Related model)))
    /\ (yaml.Type_ rel = "ForOne" ->
        foreignKeyFields model relatedName
        = [formatdef.mkField (ToCamelCase (relatedName ++ "_id"))
             formatdef.TypeString])
    /\ (yaml.Type_ rel = "ForOnePoly" ->
        foreignKeyFields model relatedName
        = [formatdef.mkField (ToCamelCase (relatedName ++ "_type"))
             formatdef.TypeString;
           formatdef.mkField (ToCamelCase (relatedName ++ "_id"))
             formatdef.TypeString])
    /\ (In (yaml.Type_ rel)
          ["HasOne"; "HasMany"; "ForMany";
           "HasOnePoly"; "HasManyPoly"; "ForManyPoly"] ->
        foreignKeyFields model relatedName = []).
Proof.
  intros Hl. eexists. split; [apply CompileModel_fields|]. simpl.
  split; [reflexivity|]. split.
  { eapply Permutation_in; [apply sort_Strings_perm|].
    eapply lookup_In_keys; exact Hl. }
  unfold foreignKeyFields, GoMap.get. rewrite Hl.
  repeat split.
  - intros ->. reflexivity.
  - intros ->. reflexivity.
  - intros Hin. simpl in Hin.
    repeat (destruct Hin as [<- | Hin]; [reflexivity|]). contradiction.
Qed.

(** C3, amended.  A polymorphic relation with an empty "for" list and a
    non-empty "through" reference that no polymorphic relation of any model
    in the registry is called by: [CompileModel] succeeds, and the
    navigation property of the relation has the type [Any], inside an array
    when the relation is to many. *)
Theorem through_fallback (model : yaml.Model) (r : registry.Registry)
    (relatedName : string) (rel : yaml.ModelRelation) :
  GoMap.lookup (yaml.Related model) relatedName = Some rel ->
  yamlops.IsRelationPoly (yaml.Type_ rel) = true ->
  yaml.For rel = [] ->
  yaml.Through rel <> "" ->
  (forall modelName m relName rel',
      In (modelName, m) (registry.GetAllModels r) ->
      In (relName, rel') (yaml.Related m) ->
      yamlops.IsRelationPoly (yaml.Type_ rel') = true ->
      relName <> yaml.Through rel) ->
  exists s,
    CompileModel model r = Ok s
    /\ navigationField r model relatedName
       = formatdef.mkField ("_nav_" ++ relatedName)
           (if yamlops.IsRelationMany (yaml.Type_ rel)
            then formatdef.ArrayType formatdef.TypeAny
            else formatdef.TypeAny)
    /\ In (navigationField r model relatedName) (formatdef.Fields s).
Proof.
  intros Hl Hp Hf Ht Hno. eexists. split; [apply CompileModel_fields|].
  assert (Hnav : navigationField r model relatedName
       = formatdef.mkField ("_nav_" ++ relatedName)
           (if yamlops.IsRelationMany (yaml.Type_ rel)
            then formatdef.ArrayType formatdef.TypeAny
            else formatdef.TypeAny)).
  { unfold navigationField, GoMap.get. rewrite Hl, Hp, Hf.
    apply String.eqb_neq in Ht. rewrite Ht. simpl negb. cbv iota.
    unfold resolvePolymorphicThrough.
    rewrite (@resolveIn_not_found _ _ Hno). reflexivity. }
  split; [exact Hnav|].
  simpl. unfold compiledFields. apply in_or_app. right. apply in_or_app.
  right. apply in_map. eapply Permutation_in; [apply sort_Strings_perm|].
  eapply lookup_In_keys; exact Hl.
Qed.

End CompileFacts.

(** The relation [Person] of [ContactInfo] is a plain [ForOne]. *)
Lemma foreign_key_contribution_witness :
  exists s,
    @CompileModel SpecHelpers.helpers ContactInfo exampleRegistry = Ok s
    /\ In (formatdef.mkField "personId" formatdef.TypeString)
         (formatdef.Fields s).
Proof.
  destruct (@foreign_key_contribution SpecHelpers.helpers ContactInfo
              exampleRegistry "Person"
              (yaml.mkModelRelation "ForOne" [] "" "") eq_refl)
    as (s & Hs & Hf & _ & _).
  exists s. split; [exact Hs|]. rewrite Hf. vm_compute. auto.
Defined.

(** [Article] refers through [Commentable], which [exampleRegistry] lacks. *)
Lemma through_fallback_witness :
  exists s,
    @CompileModel SpecHelpers.helpers Article exampleRegistry = Ok s
    /\ In (formatdef.mkField "_nav_Comment"
             (formatdef.ArrayType formatdef.TypeAny))
         (formatdef.Fields s).
Proof.
  assert (Hno : forall modelName m relName rel',
      In (modelName, m) (registry.GetAllModels exampleRegistry) ->
      In (relName, rel') (yaml.Related m) ->
      yamlops.IsRelationPoly (yaml.Type_ rel') = true ->
      relName <> "Commentable").
  { intros mn m rn rel' Hm Hr Hp. simpl in Hm.
    destruct Hm as [E | [E | [E | []]]]; inversion E; subst m; simpl in Hr;
      destruct Hr as [E' | []]; inversion E'; subst; discriminate. }
  assert (Hne : "Commentable" <> "") by discriminate.
  destruct (@through_fallback SpecHelpers.helpers Article exampleRegistry
              "Comment"
              (yaml.mkModelRelation "HasManyPoly" [] "Commentable" "")
              eq_refl eq_refl eq_refl Hne Hno)
    as (s & Hs & Hn & Hin).
  exists s. split; [exact Hs|]. rewrite Hn in Hin. exact Hin.
Defined.

(** C3 as stated fails when the relation also lists "for" targets: the
    navigation property of [Gallery] is an array of the union, not of
    [Any], though nothing in the registry is called [Commentable]. *)
Lemma through_with_for_list_is_union :
  @CompileModel SpecHelpers.helpers Gallery exampleRegistry
  = Ok (formatdef.mkStruct "Gallery"
          [ formatdef.mkField "ID" (formatdef.BasicType "int");
            formatdef.mkField "_nav_Comment"
              (formatdef.ArrayType (formatdef.BasicType "Union['Post']")) ])
  /\ @resolvePolymorphicThrough "Commentable" exampleRegistry
     = Err "polymorphic relationship Commentable not found"
  /\ formatdef.ArrayType (formatdef.BasicType "Union['Post']")
     <> formatdef.ArrayType formatdef.TypeAny.
Proof.
  split; [vm_compute; reflexivity|]. split; [vm_compute; reflexivity|].
  discriminate.
Qed.

(** ** generateModelContent: the shape of the output *)

Section GenerateFacts.
Context {H : Helpers}.

Lemma emitModelConfig_lines (config : PydanticConfig) (needs : bool)
    (cb : formatdef.ContentBuilder) :
  formatdef.level cb = 1 -> formatdef.indentStr cb = "    " ->
  formatdef.lines (emitModelConfig config needs cb)
  = (formatdef.lines cb ++ configLines config needs)%list.
Proof.
  destruct cb as [i l ls]. simpl. intros -> ->.
  unfold emitModelConfig, configLines, configBlock.
  destruct (PydanticV2 config), needs; simpl;
    rewrite <- ?app_assoc; simpl; try reflexivity.
  all: try now rewrite app_nil_r.
Qed.

Lemma emitNavField_step (model : formatdef.Struct)
    (cb : formatdef.ContentBuilder) (x : formatdef.Field) :
  emitNavField model cb x
  = if isRenderedNav model x then formatdef.Line cb (navFieldText x) else cb.
Proof.
  unfold emitNavField, isRenderedNav.
  destruct (isNav x); simpl; [|reflexivity].
  now destruct (hasPolyFields model _).
Qed.

Lemma emitDataField_step (config : PydanticConfig) (model : formatdef.Struct)
    (polyMap : GoMap.t string) (cb : formatdef.ContentBuilder)
    (x : formatdef.Field) :
  emitDataField config model polyMap cb x
  = if negb (isNav x)
    then formatdef.Line cb (dataFieldText config model polyMap x)
    else cb.
Proof. unfold emitDataField. now destruct (isNav x). Qed.

(** The class body written to a builder that stands at level 1. *)
Lemma body_lines (model : formatdef.Struct) (config : PydanticConfig)
    (polyMap : GoMap.t string) (needs : bool)
    (cb : formatdef.ContentBuilder) :
  formatdef.level cb = 1 -> formatdef.indentStr cb = "    " ->
  formatdef.lines
    (emitModelConfig config needs
       (fold_left (emitNavField model) (formatdef.Fields model)
          (fold_left (emitDataField config model polyMap)
             (formatdef.Fields model) cb)))
  = (formatdef.lines cb
     ++ renderedDataLines config model polyMap
     ++ renderedNavLines model
     ++ configLines config needs)%list.
Proof.
  intros Hl Hi.
  destruct (@fold_emit_step _ _ _ _ (emitDataField_step config model polyMap)
              (formatdef.Fields model) cb) as (Ld & Vd & Id).
  destruct (@fold_emit_step _ _ _ _ (emitNavField_step model)
              (formatdef.Fields model)
              (fold_left (emitDataField config model polyMap)
                 (formatdef.Fields model) cb)) as (Ln & Vn & In_).
  rewrite emitModelConfig_lines by congruence.
  rewrite Ln, Ld, <- !app_assoc. unfold renderedDataLines, renderedNavLines.
  do 2 f_equal.
  - apply map_ext. intros a. unfold formatdef.indented. now rewrite Hl, Hi.
  - f_equal. apply map_ext. intros a. unfold formatdef.indented.
    now rewrite Vd, Id, Hl, Hi.
Qed.

Lemma generateModelLines_shape (model : formatdef.Struct)
    (config : PydanticConfig) (morpheConfig : cfg.MorpheConfig)
    (r : registry.Registry) :
  generateModelLines model config morpheConfig r
  = (headerLines model config morpheConfig r
     ++ match formatdef.Fields model with
        | [] => ["    pass"]
        | _ :: _ =>
            renderedDataLines config model
              (polymorphicTypeToNavMap (scanModel model config morpheConfig r))
            ++ renderedNavLines model
            ++ configLines config
                 (needsModelConfig (scanModel model config morpheConfig r))
        end)%list.
Proof.
  unfold generateModelLines, generateModelBuilder, headerLines.
  set (st := scanModel model config morpheConfig r).
  destruct (Generate_frame (imports st) (formatdef.NewContentBuilder "    "))
    as [Hlv Hind].
  destruct (snd (Generate (imports st) (formatdef.NewContentBuilder "    ")))
    as [i l ls].
  cbn [formatdef.level formatdef.indentStr formatdef.NewContentBuilder] in Hlv, Hind.
  subst i l. cbv zeta.
  destruct (formatdef.Fields model) as [|f fs] eqn:Ef.
  - cbn [formatdef.lines formatdef.level formatdef.indentStr formatdef.Line
         formatdef.Indent formatdef.Dedent formatdef.indented
         formatdef.indentation]. unfold docLine.
    rewrite <- !app_assoc. reflexivity.
  - rewrite <- Ef.
    match goal with
    | |- formatdef.lines (formatdef.Dedent ?c) = _ =>
        change (formatdef.lines (formatdef.Dedent c)) with (formatdef.lines c)
    end.
    rewrite body_lines by reflexivity.
    cbn [formatdef.lines formatdef.level formatdef.indentStr formatdef.Line
         formatdef.Indent formatdef.Dedent formatdef.indented
         formatdef.indentation]. unfold docLine.
    rewrite <- !app_assoc. reflexivity.
Qed.

Lemma set_lookup (V : Type) (m : GoMap.t V) (k k' : string) (v : V) :
  GoMap.lookup (GoMap.set m k v) k'
  = if String.eqb k k' then Some v else GoMap.lookup m k'.
Proof.
  induction m as [|[k0 v0] m IH]; simpl.
  - reflexivity.
  - destruct (String.eqb_spec k0 k) as [-> | Hne]; simpl.
    + now destruct (String.eqb k k').
    + rewrite IH. destruct (String.eqb_spec k0 k') as [-> | Hne'].
      * destruct (String.eqb_spec k k'); [congruence | reflexivity].
      * reflexivity.
Qed.

(** A name is a key of the map the scan builds only if a data field of
    that name is a polymorphic type field. *)
Lemma scan_polyMap_none (r : registry.Registry) (name : string)
    (fields : list formatdef.Field) (st : scanState) :
  GoMap.lookup (polymorphicTypeToNavMap st) name = None ->
  existsb (fun f => negb (isNav f) && isPolyTypeField f
                    && String.eqb (formatdef.Name f) name) fields = false ->
  GoMap.lookup
    (polymorphicTypeToNavMap (fold_left (scanField r) fields st)) name
  = None.
Proof.
  revert st. induction fields as [|f fs IH]; intros st Hst Hex; simpl.
  - exact Hst.
  - simpl in Hex. apply orb_false_iff in Hex as [Hf Hfs].
    apply IH; [|exact Hfs].
    unfold scanField. destruct (isNav f); [exact Hst|].
    destruct (isPolyTypeField f); simpl; [|exact Hst].
    simpl in Hf. rewrite set_lookup, Hf. exact Hst.
Qed.

Lemma scan_needs (r : registry.Registry) (fields : list formatdef.Field)
    (st : scanState) :
  needsModelConfig (fold_left (scanField r) fields st)
  = needsModelConfig st
    || existsb (fun f => negb (isNav f) && isEnumField r f) fields.
Proof.
  revert st. induction fields as [|f fs IH]; intros st; simpl.
  - now rewrite orb_false_r.
  - rewrite IH. unfold scanField.
    destruct (isNav f); simpl; [reflexivity|].
    destruct (isPolyTypeField f), (isEnumField r f); simpl;
      rewrite ?orb_true_r, ?orb_false_r; reflexivity.
Qed.

Lemma scanModel_polyMap_none (model : formatdef.Struct)
    (config : PydanticConfig) (morpheConfig : cfg.MorpheConfig)
    (r : registry.Registry) (name : string) :
  isPolymorphicTypeName model name = false ->
  GoMap.lookup
    (polymorphicTypeToNavMap (scanModel model config morpheConfig r)) name
  = None.
Proof.
  intros Hn. unfold scanModel. cbv zeta.
  cbn [polymorphicTypeToNavMap].
  apply scan_polyMap_none; [reflexivity | exact Hn].
Qed.

Lemma scanModel_needs (model : formatdef.Struct)
    (config : PydanticConfig) (morpheConfig : cfg.MorpheConfig)
    (r : registry.Registry) :
  needsModelConfig (scanModel model config morpheConfig r)
  = hasEnumField r model.
Proof.
  unfold scanModel. cbv zeta. cbn [needsModelConfig].
  rewrite scan_needs. reflexivity.
Qed.

(** Every data field of the struct has its line in the output. *)
Lemma data_line_in_output (model : formatdef.Struct)
    (config : PydanticConfig) (morpheConfig : cfg.MorpheConfig)
    (r : registry.Registry) (field : formatdef.Field) :
  In field (formatdef.Fields model) -> isNav field = false ->
  In ("    "
      ++ dataFieldText config model
           (polymorphicTypeToNavMap (scanModel model config morpheConfig r))
           field)
    (generateModelLines model config morpheConfig r).
Proof.
  intros Hin Hnav. rewrite generateModelLines_shape.
  apply in_or_app. right.
  destruct (formatdef.Fields model) as [|f fs] eqn:Ef; [contradiction|].
  rewrite <- Ef in *. apply in_or_app. left.
  unfold renderedDataLines.
  apply (in_map (fun f0 => "    " ++ dataFieldText config model _ f0)).
  apply filter_In. split; [exact Hin | now rewrite Hnav].
Qed.

(** C1, amended.  A data field of the struct is rendered, when type hints
    are off, as [name = None]; when type hints are on, its rendered name is
    longer than three characters and ends in [_id] or [_type], and no data
    field of its name is a polymorphic type field (a name ending in [_type]
    with the type [str]), as [name: Optional[T] = None]. *)
Theorem foreign_key_fields_optional (model : formatdef.Struct)
    (config : PydanticConfig) (morpheConfig : cfg.MorpheConfig)
    (r : registry.Registry) (field : formatdef.Field) :
  In field (formatdef.Fields model) ->
  isNav field = false ->
  (AddTypeHints config = false ->
   In ("    "
       ++ SanitizePythonIdentifier (ToSnakeCase (formatdef.Name field))
       ++ " = None")
     (generateModelLines model config morpheConfig r))
  /\ (AddTypeHints config = true ->
      isForeignKeyName
        (SanitizePythonIdentifier (ToSnakeCase (formatdef.Name field)))
      = true ->
      isPolymorphicTypeName model (formatdef.Name field) = false ->
      In ("    "
          ++ SanitizePythonIdentifier (ToSnakeCase (formatdef.Name field))
          ++ ": Optional[" ++ formatdef.GetName (formatdef.Type_ field)
          ++ "] = None")
        (generateModelLines model config morpheConfig r)).
Proof.
  intros Hin Hnav.
  pose proof (data_line_in_output model config morpheConfig r field Hin Hnav)
    as Hline.
  split.
  - intros Hh. unfold dataFieldText in Hline. rewrite Hh in Hline.
    exact Hline.
  - intros Hh Hfk Hpoly. unfold dataFieldText in Hline.
    rewrite Hh, (scanModel_polyMap_none model config morpheConfig r _ Hpoly),
      Hfk in Hline.
    exact Hline.
Qed.

(** C10, amended.  With type hints on, a field of the Definition's own
    field list whose rendered name is longer than three characters and ends
    in [_id] or [_type] is rendered as [name: Optional[T] = None], provided
    no data field of its name is a polymorphic type field (a name ending in
    [_type] with the type [str]). *)
Theorem own_field_rendered_optional (model : yaml.Model)
    (r : registry.Registry) (config : PydanticConfig)
    (morpheConfig : cfg.MorpheConfig) (fieldName : string) :
  AddTypeHints config = true ->
  In fieldName (GoMap.keys (yaml.Fields model)) ->
  strings.HasPrefix fieldName "_nav_" = false ->
  isForeignKeyName (SanitizePythonIdentifier (ToSnakeCase fieldName)) = true ->
  isPolymorphicTypeName
    (formatdef.mkStruct (yaml.Name model) (compiledFields model r)) fieldName
  = false ->
  exists s,
    CompileModel model r = Ok s
    /\ In (formatdef.mkField fieldName
             (GetFieldType
                (yaml.FieldType
                   (GoMap.get yaml.zeroField (yaml.Fields model) fieldName))))
         (formatdef.Fields s)
    /\ In ("    " ++ SanitizePythonIdentifier (ToSnakeCase fieldName)
           ++ ": Optional["
           ++ formatdef.GetName
                (GetFieldType
                   (yaml.FieldType
                      (GoMap.get yaml.zeroField (yaml.Fields model)
                         fieldName)))
           ++ "] = None")
         (generateModelLines s config morpheConfig r).
Proof.
  intros Hh Hin Hnav Hfk Hpoly. eexists.
  split; [apply CompileModel_fields|].
  assert (Hf : In (dataField model fieldName)
                 (formatdef.Fields
                    (formatdef.mkStruct (yaml.Name model)
                       (compiledFields model r)))).
  { simpl. unfold compiledFields. apply in_or_app. left. apply in_map.
    eapply Permutation_in; [apply sort_Strings_perm | exact Hin]. }
  split; [exact Hf|].
  pose proof (data_line_in_output _ config morpheConfig r _ Hf Hnav) as Hline.
  unfold dataFieldText in Hline.
  cbn [dataField formatdef.Name formatdef.Type_] in Hline.
  rewrite Hh, (scanModel_polyMap_none _ config morpheConfig r _ Hpoly), Hfk
    in Hline.
  exact Hline.
Qed.
End GenerateFacts.

Section PolymorphicTypeFields.

Context {H : Helpers}.

Lemma scan_polyMap_some (r : registry.Registry) (name : string)
    (fields : list formatdef.Field) (st : scanState) :
  GoMap.lookup (polymorphicTypeToNavMap st) name <> None
  \/ existsb (fun f => negb (isNav f) && isPolyTypeField f
                       && String.eqb (formatdef.Name f) name) fields = true ->
  GoMap.lookup
    (polymorphicTypeToNavMap (fold_left (scanField r) fields st)) name
  <> None.
Proof.
  revert st. induction fields as [|f fs IH]; intros st Hor; simpl.
  - destruct Hor as [Hst | Hex]; [exact Hst | discriminate Hex].
  - apply IH. simpl in Hor.
    unfold scanField. destruct (isNav f) eqn:En; simpl in Hor.
    { destruct Hor as [Hst | Hex]; [now left | now right]. }
    destruct (isPolyTypeField f) eqn:Ep; simpl in Hor |- *.
    + rewrite set_lookup.
      destruct (String.eqb (formatdef.Name f) name) eqn:Ee; simpl in Hor.
      * left. discriminate.
      * destruct Hor as [Hst | Hex]; [now left | now right].
    + destruct Hor as [Hst | Hex]; [now left | now right].
Qed.

(** With type hints on, a data field that is a polymorphic type field (a
    name ending in [_type], the type [str]) is rendered as a mandatory
    [str] or [Literal[...]], whatever the helper functions are. *)
Lemma polymorphic_type_field_rendering (model : formatdef.Struct)
    (config : PydanticConfig) (morpheConfig : cfg.MorpheConfig)
    (r : registry.Registry) (field : formatdef.Field) :
  In field (formatdef.Fields model) ->
  isNav field = false ->
  isPolyTypeField field = true ->
  AddTypeHints config = true ->
  exists type_,
    In ("    "
        ++ SanitizePythonIdentifier (ToSnakeCase (formatdef.Name field))
        ++ ": " ++ type_)
      (generateModelLines model config morpheConfig r)
    /\ (type_ = "str"
        \/ exists allowed,
             type_ = "Literal[" ++ strings.Join allowed ", " ++ "]").
Proof.
  intros Hin Hnav Hpoly Hh.
  pose proof (data_line_in_output model config morpheConfig r field Hin Hnav)
    as Hline.
  unfold dataFieldText in Hline. rewrite Hh in Hline.
  assert (Hkey : GoMap.lookup
                   (polymorphicTypeToNavMap
                      (scanModel model config morpheConfig r))
                   (formatdef.Name field) <> None).
  { unfold scanModel. cbv zeta. cbn [polymorphicTypeToNavMap].
    apply scan_polyMap_some. right. apply existsb_exists.
    exists field. split; [exact Hin|].
    now rewrite Hnav, Hpoly, String.eqb_refl. }
  destruct (GoMap.lookup _ (formatdef.Name field)) as [nav|];
    [|contradiction].
  destruct (allowedTypes model nav) as [|a rest].
  - exists "str". split; [exact Hline | now left].
  - eexists. split; [exact Hline|]. right. eexists. reflexivity.
Qed.

(** The name of a navigation field is computed from the relation name
    alone: the cardinality of the relation has no part in it. *)
Lemma navigation_field_name (field : formatdef.Field) :
  exists rest,
    navFieldText field
    = SanitizePythonIdentifier
        (ToSnakeCase (strings.TrimPrefix (formatdef.Name field) "_nav_"))
      ++ ": Optional[" ++ rest.
Proof.
  unfold navFieldText.
  destruct (strings.HasPrefix _ "List[");
    [|destruct (strings.Contains _ "Union[")]; eexists; reflexivity.
Qed.

End PolymorphicTypeFields.

(** ** Telling the lines of the configuration block from field lines *)

Lemma hasColon_app (a b : string) :
  hasColon (a ++ b) = hasColon a || hasColon b.
Proof.
  induction a as [|c a IH]; simpl; [reflexivity|].
  rewrite IH. now rewrite orb_assoc.
Qed.

Lemma list_ascii_app (a b : string) :
  list_ascii_of_string (a ++ b)
  = (list_ascii_of_string a ++ list_ascii_of_string b)%list.
Proof. induction a as [|c a IH]; simpl; [reflexivity | now rewrite IH]. Qed.

Lemma colon_not_block_end (text : string) :
  hasColon text = true -> ~ isBlockEnd ("    " ++ text).
Proof.
  intros Hc [E | E]; simpl in E; injection E as E; subst text;
    discriminate Hc.
Qed.

Lemma none_not_block_end (name : string) :
  ~ isBlockEnd ("    " ++ name ++ " = None").
Proof.
  intros [E | E]; simpl in E; injection E as E;
    apply (f_equal list_ascii_of_string) in E;
    rewrite list_ascii_app in E;
    apply (f_equal (@List.rev ascii)) in E;
    rewrite rev_app_distr in E; simpl in E; discriminate E.
Qed.

Lemma last_app_nonempty (A : Type) (l1 l2 : list A) (d : A) :
  l2 <> [] -> last (l1 ++ l2) d = last l2 d.
Proof.
  intros Hne. induction l1 as [|x l1 IH]; simpl; [reflexivity|].
  destruct (l1 ++ l2)%list eqn:E; [|exact IH].
  apply app_eq_nil in E as [_ E]. contradiction.
Qed.

Lemma last_Forall (A : Type) (P : A -> Prop) (l : list A) (d : A) :
  l <> [] -> Forall P l -> P (last l d).
Proof.
  intros Hne HF. induction HF as [|x l Hx HF IH]; [contradiction|].
  destruct l as [|y l]; simpl; [exact Hx|]. apply IH. discriminate.
Qed.

Lemma configBlock_end (config : PydanticConfig) :
  configBlock config <> [] /\ isBlockEnd (last (configBlock config) "").
Proof.
  unfold configBlock, isBlockEnd.
  destruct (PydanticV2 config); simpl; split; auto; discriminate.
Qed.

(** A text that ends with the block ends with one of its last lines. *)
Lemma endsWithConfigBlock_last (config : PydanticConfig)
    (text : list string) :
  endsWithConfigBlock config text -> isBlockEnd (last text "").
Proof.
  intros [before ->]. destruct (configBlock_end config) as [Hne He].
  now rewrite last_app_nonempty.
Qed.

Section ConfigFacts.
Context {H : Helpers}.

Lemma docLine_not_block_end (name what : string) :
  ~ isBlockEnd (docLine name what).
Proof.
  unfold docLine, docText. intros [E | E]; simpl in E; discriminate E.
Qed.

Lemma dataFieldText_not_block_end (config : PydanticConfig)
    (model : formatdef.Struct) (polyMap : GoMap.t string)
    (f : formatdef.Field) :
  ~ isBlockEnd ("    " ++ dataFieldText config model polyMap f).
Proof.
  unfold dataFieldText.
  destruct (AddTypeHints config); [|apply none_not_block_end].
  apply colon_not_block_end.
  destruct (GoMap.lookup polyMap (formatdef.Name f)).
  - destruct (allowedTypes model s); rewrite hasColon_app; simpl;
      now rewrite orb_true_r.
  - destruct (isForeignKeyName _); rewrite hasColon_app; simpl;
      now rewrite orb_true_r.
Qed.

Lemma navFieldText_not_block_end (f : formatdef.Field) :
  ~ isBlockEnd ("    " ++ navFieldText f).
Proof.
  apply colon_not_block_end. unfold navFieldText.
  destruct (strings.HasPrefix _ _); [|destruct (strings.Contains _ _)];
    rewrite hasColon_app; simpl; now rewrite orb_true_r.
Qed.

Lemma structFieldText_not_block_end (f : formatdef.Field) :
  ~ isBlockEnd ("    " ++ structFieldText f).
Proof.
  apply colon_not_block_end. unfold structFieldText.
  rewrite hasColon_app. simpl. now rewrite orb_true_r.
Qed.

Theorem model_config_block_iff (model : formatdef.Struct)
    (config : PydanticConfig) (morpheConfig : cfg.MorpheConfig)
    (r : registry.Registry) :
  endsWithConfigBlock config (generateModelLines model config morpheConfig r)
  <-> hasEnumField r model = true.
Proof.
  rewrite generateModelLines_shape, scanModel_needs. split.
  - intros Hend. apply endsWithConfigBlock_last in Hend.
    destruct (hasEnumField r model) eqn:En; [reflexivity|]. exfalso.
    revert Hend. unfold headerLines.
    rewrite <- app_assoc.
    set (body := match formatdef.Fields model with
                 | [] => ["    pass"]
                 | _ :: _ => _
                 end).
    rewrite last_app_nonempty.
    2:{ simpl. discriminate. }
    change ([EmptyString; classLine (formatdef.StructName model);
             docLine (formatdef.StructName model) " model."] ++ body)%list
      with ([EmptyString; classLine (formatdef.StructName model)]
            ++ (docLine (formatdef.StructName model) " model." :: body))%list.
    rewrite last_app_nonempty by discriminate.
    apply (@last_Forall _ (fun l => ~ isBlockEnd l)); [discriminate|].
    constructor; [apply docLine_not_block_end|].
    subst body. destruct (formatdef.Fields model) as [|f fs].
    + constructor; [|constructor]. intros [E | E]; discriminate E.
    + unfold configLines. rewrite app_nil_r. apply Forall_app. split.
      * unfold renderedDataLines. apply Forall_map, Forall_forall.
        intros x _. apply dataFieldText_not_block_end.
      * unfold renderedNavLines. apply Forall_map, Forall_forall.
        intros x _. apply navFieldText_not_block_end.
  - intros En. rewrite En.
    destruct (formatdef.Fields model) as [|f fs] eqn:Ef.
    + unfold hasEnumField in En. rewrite Ef in En. discriminate En.
    + unfold configLines, endsWithConfigBlock.
      match goal with
      | |- exists b, (?h ++ ?d ++ ?n ++ ?s :: ?c)%list = _ =>
          exists (h ++ d ++ n ++ [s])%list
      end.
      rewrite <- !app_assoc. reflexivity.
Qed.
End ConfigFacts.

Section StructureFacts.
Context {H : Helpers}.

Lemma filter_all (A : Type) (l : list A) : filter (fun _ => true) l = l.
Proof. induction l as [|x l IH]; simpl; [reflexivity | now rewrite IH]. Qed.

Lemma struct_fields_lines (fields : list formatdef.Field)
    (cb : formatdef.ContentBuilder) :
  formatdef.level cb = 1 -> formatdef.indentStr cb = "    " ->
  let cb' :=
    fold_left (fun cb field => formatdef.Line cb (structFieldText field))
      fields cb in
  formatdef.lines cb'
  = (formatdef.lines cb
     ++ renderedStructLines (formatdef.mkStruct EmptyString fields))%list
  /\ formatdef.level cb' = 1 /\ formatdef.indentStr cb' = "    ".
Proof.
  intros Hl Hi.
  destruct (@fold_emit_step _
              (fun cb field => formatdef.Line cb (structFieldText field))
              (fun _ => true) structFieldText
              (fun cb x => eq_refl) fields cb) as (L & V & I).
  cbv zeta. rewrite L, V, I, filter_all.
  split; [|split; assumption].
  f_equal. unfold renderedStructLines. apply map_ext. intros a.
  unfold formatdef.indented. rewrite Hl, Hi. reflexivity.
Qed.

(** The output of the structure generator: the import section and the
    class line, then the documentation string, the field lines and, when
    needed, the configuration block. *)
Lemma generateStructureLines_shape (structure : formatdef.Struct)
    (config : PydanticConfig) :
  exists before,
    generateStructureLines structure config
    = (before
       ++ docLine (formatdef.StructName structure) " data transfer object."
          :: renderedStructLines structure
       ++ (if structNeedsConfig structure config
           then "    " :: configBlockV2 else []))%list.
Proof.
  unfold generateStructureLines, generateStructureBuilder, structNeedsConfig.
  set (st := fold_left scanStructField (formatdef.Fields structure) _).
  cbv zeta.
  match goal with
  | |- context [fold_left _ (formatdef.Fields structure) ?c] => set (cb1 := c)
  end.
  assert (Hcb1 : formatdef.level cb1 = 1 /\ formatdef.indentStr cb1 = "    "
                 /\ exists before,
                      formatdef.lines cb1
                      = (before
                         ++ [docLine (formatdef.StructName structure)
                               " data transfer object."])%list).
  { subst cb1.
    match goal with
    | |- context [formatdef.Line (formatdef.Line ?c EmptyString) EmptyString] =>
        set (cbI := c)
    end.
    assert (HI : formatdef.level cbI = 0 /\ formatdef.indentStr cbI = "    ").
    { subst cbI.
      destruct (PydanticV2 config), (AddTypeHints config), (hasDict st),
        (hasList st), (hasDate st); split; reflexivity. }
    destruct HI as [HIl HIi].
    cbn [formatdef.level formatdef.indentStr formatdef.Line formatdef.Indent].
    rewrite HIl, HIi. split; [reflexivity|]. split; [reflexivity|].
    cbn [formatdef.lines formatdef.Line formatdef.Indent].
    eexists. f_equal. f_equal. unfold formatdef.indented, docLine.
    cbn [formatdef.level formatdef.indentStr formatdef.Line formatdef.Indent].
    rewrite HIl, HIi. reflexivity. }
  destruct Hcb1 as (Hl & Hi & before & Hb).
  destruct (struct_fields_lines (formatdef.Fields structure) cb1 Hl Hi)
    as (Lf & Vf & If_).
  cbv zeta in Lf, Vf, If_.
  set (cb2 := fold_left _ (formatdef.Fields structure) cb1) in *.
  exists before.
  destruct (PydanticV2 config); simpl andb; cbv iota.
  - destruct (existsb looksLikeEnum (formatdef.Fields structure)).
    + destruct cb2 as [i l ls]. simpl in *. subst i l.
      rewrite Lf, Hb. simpl. rewrite <- !app_assoc. simpl.
      rewrite <- ?app_assoc. reflexivity.
    + change (formatdef.lines (formatdef.Dedent cb2))
        with (formatdef.lines cb2).
      rewrite Lf, Hb, <- !app_assoc, app_nil_r. reflexivity.
  - change (formatdef.lines (formatdef.Dedent cb2))
      with (formatdef.lines cb2).
    rewrite Lf, Hb, <- !app_assoc, app_nil_r. reflexivity.
Qed.

Lemma structure_config_block_iff (structure : formatdef.Struct)
    (config : PydanticConfig) :
  endsWithConfigBlock config (generateStructureLines structure config)
  <-> structNeedsConfig structure config = true.
Proof.
  destruct (generateStructureLines_shape structure config) as [before Hs].
  rewrite Hs. split.
  - intros Hend. apply endsWithConfigBlock_last in Hend.
    destruct (structNeedsConfig structure config); [reflexivity|]. exfalso.
    revert Hend. rewrite last_app_nonempty by discriminate.
    apply (@last_Forall _ (fun l => ~ isBlockEnd l)); [discriminate|].
    constructor; [apply docLine_not_block_end|].
    rewrite app_nil_r. unfold renderedStructLines.
    apply Forall_map, Forall_forall.
    intros x _. apply structFieldText_not_block_end.
  - intros En. rewrite En. unfold endsWithConfigBlock, configBlock.
    unfold structNeedsConfig in En. apply andb_true_iff in En as [-> _].
    match goal with
    | |- exists b, (?h ++ ?d :: ?n ++ ?s :: ?c)%list = _ =>
        exists (h ++ d :: n ++ [s])%list
    end.
    rewrite <- !app_assoc. simpl. rewrite <- !app_assoc. reflexivity.
Qed.

End StructureFacts.

(** ** The declarations generated for the example models *)

Lemma CompileModel_examples :
  @CompileModel SpecHelpers.helpers ContactInfo exampleRegistry
  = Ok contactInfoStruct
  /\ @CompileModel SpecHelpers.helpers Person exampleRegistry
     = Ok personStruct
  /\ @CompileModel SpecHelpers.helpers Item exampleRegistry = Ok itemStruct
  /\ @CompileModel SpecHelpers.helpers Ticket exampleRegistry
     = Ok ticketStruct.
Proof. repeat split; vm_compute; reflexivity. Qed.

(** The foreign key of [ContactInfo], with and without type hints. *)
Lemma foreign_key_fields_optional_witness :
  In "    person_id = None"
    (@generateModelLines SpecHelpers.helpers contactInfoStruct noHintsConfig
       emptyMorpheConfig exampleRegistry)
  /\ In "    person_id: Optional[str] = None"
       (@generateModelLines SpecHelpers.helpers contactInfoStruct
          defaultConfig emptyMorpheConfig exampleRegistry).
Proof.
  assert (Hin : In (formatdef.mkField "personId" (formatdef.BasicType "str"))
                  (formatdef.Fields contactInfoStruct)).
  { simpl. right. right. left. reflexivity. }
  split.
  - exact (proj1 (@foreign_key_fields_optional SpecHelpers.helpers
                    contactInfoStruct noHintsConfig emptyMorpheConfig
                    exampleRegistry _ Hin eq_refl) eq_refl).
  - exact (proj2 (@foreign_key_fields_optional SpecHelpers.helpers
                    contactInfoStruct defaultConfig emptyMorpheConfig
                    exampleRegistry _ Hin eq_refl) eq_refl eq_refl eq_refl).
Defined.

(** C1 as stated fails: the field [item_type] of [Item] has a name ending
    in [_type], and with type hints on it is rendered as a mandatory
    [str]. *)
Lemma type_field_rendered_mandatory :
  @generateModelLines SpecHelpers.helpers itemStruct defaultConfig
    emptyMorpheConfig exampleRegistry
  = [ "from pydantic import BaseModel";
      "from typing import Literal, Optional";
      EmptyString;
      EmptyString;
      "class Item(BaseModel):";
      docLine "Item" " model.";
      "    id: int";
      "    item_type: str" ]
  /\ isForeignKeyName "item_type" = true.
Proof. split; vm_compute; reflexivity. Qed.

(** The field [TaxID] of [Company]. *)
Lemma own_field_rendered_optional_witness :
  exists s,
    @CompileModel SpecHelpers.helpers Company exampleRegistry = Ok s
    /\ In "    tax_id: Optional[str] = None"
         (@generateModelLines SpecHelpers.helpers s defaultConfig
            emptyMorpheConfig exampleRegistry).
Proof.
  assert (Hin : In "TaxID" (GoMap.keys (yaml.Fields Company))).
  { simpl. right. right. left. reflexivity. }
  destruct (@own_field_rendered_optional SpecHelpers.helpers Company
              exampleRegistry defaultConfig emptyMorpheConfig "TaxID"
              eq_refl Hin eq_refl eq_refl eq_refl)
    as (s & Hs & _ & Hline).
  exists s. split; [exact Hs | exact Hline].
Defined.

(** C10 as stated fails: the own field [status_type] of [Ticket] has a
    rendered name longer than three characters that ends in [_type], and
    is rendered without [Optional] and without a default. *)
Lemma own_type_field_rendered_mandatory :
  @generateModelLines SpecHelpers.helpers ticketStruct defaultConfig
    emptyMorpheConfig exampleRegistry
  = [ "from pydantic import BaseModel";
      "from typing import Literal, Optional";
      EmptyString;
      EmptyString;
      "class Ticket(BaseModel):";
      docLine "Ticket" " model.";
      "    id: int";
      "    status_type: str" ]
  /\ isForeignKeyName
       (SpecHelpers.SanitizePythonIdentifier
          (SpecHelpers.ToSnakeCase "status_type")) = true.
Proof. split; vm_compute; reflexivity. Qed.

(** C6 as stated fails for structures.  [Profile] and [Passport] compile
    to [profileStruct] and [passportStruct].  [Profile] has no enum-valued
    field, only a reference to the structure [Address], and its
    declaration ends with the configuration block; [Passport] has an
    enum-valued field, and under Pydantic v1 its declaration has no
    configuration block. *)
Lemma structure_config_block_not_by_enum :
  CompileStructure specMapFieldType profileStructure structureRegistry
  = Ok profileStruct
  /\ @hasEnumField SpecHelpers.helpers structureRegistry profileStruct
     = false
  /\ @generateStructureLines SpecHelpers.helpers profileStruct defaultConfig
     = ([ "from pydantic import BaseModel, Field";
          "from typing import Optional";
          EmptyString;
          EmptyString;
          "class Profile(BaseModel):";
          docLine "Profile" " data transfer object.";
          "    home: Address";
          "    " ] ++ configBlockV2)%list
  /\ CompileStructure specMapFieldType passportStructure structureRegistry
     = Ok passportStruct
  /\ @hasEnumField SpecHelpers.helpers structureRegistry passportStruct
     = true
  /\ @generateStructureLines SpecHelpers.helpers passportStruct v1Config
     = [ "from pydantic import BaseModel";
         "from typing import Optional";
         EmptyString;
         EmptyString;
         "class Passport(BaseModel):";
         docLine "Passport" " data transfer object.";
         "    nationality: Nationality" ].
Proof. repeat split; vm_compute; reflexivity. Qed.

(** C2, amended.  [Company] compiles, against any registry, to the struct
    with the three data fields [ID], [Name], [TaxID] and the one navigation
    property of the relation [Person], an array of [Person], and no foreign
    key; the declaration has the data fields [id], [name], [tax_id] and the
    navigation field [person] of type [Optional[List[Person]]]. *)
Theorem company_declaration :
  (forall r : registry.Registry,
      @CompileModel SpecHelpers.helpers Company r = Ok companyStruct)
  /\ @foreignKeyFields SpecHelpers.helpers Company "Person" = []
  /\ @generateModelLines SpecHelpers.helpers companyStruct defaultConfig
       emptyMorpheConfig exampleRegistry
     = [ "from pydantic import BaseModel";
         "from typing import List, Optional, TYPE_CHECKING";
         EmptyString;
         "if TYPE_CHECKING:";
         "    from .person import Person";
         EmptyString;
         "class Company(BaseModel):";
         docLine "Company" " model.";
         "    id: int";
         "    name: str";
         "    tax_id: Optional[str] = None";
         "    person: Optional[List[Person]] = None" ].
Proof.
  split; [|split].
  - intros r. rewrite CompileModel_fields. reflexivity.
  - reflexivity.
  - vm_compute. reflexivity.
Qed.

(** C2 as stated fails: the navigation field of [Company] is called
    [person]; no line declares a field [persons]. *)
Lemma company_navigation_field_is_person :
  In "    person: Optional[List[Person]] = None"
    (@generateModelLines SpecHelpers.helpers companyStruct defaultConfig
       emptyMorpheConfig exampleRegistry)
  /\ existsb (fun line => strings.HasPrefix line "    persons")
       (@generateModelLines SpecHelpers.helpers companyStruct defaultConfig
          emptyMorpheConfig exampleRegistry)
     = false.
Proof.
  split; [|vm_compute; reflexivity].
  vm_compute. do 11 right. left. reflexivity.
Qed.


Section OrderFacts.

Context {H : Helpers}.


End OrderFacts.

(** ** The import tracker adds, and adds once *)

Lemma containsString_In (l : list string) (x : string) :
  containsString l x = true <-> In x l.
Proof.
  induction l as [|y l IH]; simpl; [split; [discriminate | contradiction]|].
  destruct (String.eqb_spec y x) as [-> | Hne].
  - split; auto.
  - rewrite IH. split; [auto | intros [E | E]; [contradiction | exact E]].
Qed.

Lemma addOne_present (l : list string) (x : string) :
  containsString l x = true -> addOne l x = l.
Proof. unfold addOne. now intros ->. Qed.

Lemma addOne_contains (l : list string) (x : string) :
  containsString (addOne l x) x = true.
Proof.
  unfold addOne. destruct (containsString l x) eqn:E; [exact E|].
  apply containsString_In, in_or_app. right. now left.
Qed.

Lemma addOne_keeps (l : list string) (x y : string) :
  containsString l y = true -> containsString (addOne l x) y = true.
Proof.
  unfold addOne. intros Hy. destruct (containsString l x); [exact Hy|].
  apply containsString_In, in_or_app. left. now apply containsString_In.
Qed.

Lemma fold_addOne_keeps (imports l : list string) (y : string) :
  containsString l y = true ->
  containsString (fold_left addOne imports l) y = true.
Proof.
  revert l. induction imports as [|x xs IH]; intros l Hy; simpl; [exact Hy|].
  apply IH. now apply addOne_keeps.
Qed.

Lemma fold_addOne_present (imports l : list string) :
  Forall (fun x => containsString l x = true) imports ->
  fold_left addOne imports l = l.
Proof.
  revert l. induction imports as [|x xs IH]; intros l HF; simpl;
    [reflexivity|].
  inversion HF as [|? ? Hx Hxs]; subst.
  rewrite (addOne_present _ _ Hx). now apply IH.
Qed.

Lemma fold_addOne_contains (imports l : list string) :
  Forall (fun x => containsString (fold_left addOne imports l) x = true)
    imports.
Proof.
  revert l. induction imports as [|x xs IH]; intros l; simpl; constructor.
  - apply fold_addOne_keeps, addOne_contains.
  - apply IH.
Qed.

Lemma fold_addOne_idempotent (imports l : list string) :
  fold_left addOne imports (fold_left addOne imports l)
  = fold_left addOne imports l.
Proof. apply fold_addOne_present, fold_addOne_contains. Qed.

Lemma containsString_count (l : list string) (x : string) :
  containsString l x = false -> count_occ string_dec l x = 0.
Proof.
  intros Hc. apply count_occ_not_In. intros Hin.
  apply containsString_In in Hin. congruence.
Qed.

Lemma addOne_count (l : list string) (x y : string) :
  count_occ string_dec (addOne l x) y
  <= Nat.max 1 (count_occ string_dec l y).
Proof.
  unfold addOne. destruct (containsString l x) eqn:E;
    [apply Nat.le_max_r|].
  rewrite count_occ_app. cbn [count_occ].
  destruct (string_dec x y) as [-> | Hne].
  - rewrite (containsString_count _ _ E). simpl. apply le_n.
  - rewrite Nat.add_0_r. apply Nat.le_max_r.
Qed.

Lemma fold_addOne_count (imports l : list string) (y : string) :
  count_occ string_dec (fold_left addOne imports l) y
  <= Nat.max 1 (count_occ string_dec l y).
Proof.
  revert l. induction imports as [|x xs IH]; intros l; cbn [fold_left];
    [apply Nat.le_max_r|].
  etransitivity; [apply IH|].
  apply Nat.max_lub; [apply Nat.le_max_l | apply addOne_count].
Qed.

Lemma set_same (V : Type) (m : GoMap.t V) (k : string) (v : V) :
  GoMap.lookup m k = Some v -> GoMap.set m k v = m.
Proof.
  induction m as [|[k0 v0] m IH]; simpl; [discriminate|].
  destruct (String.eqb k0 k); intros E.
  - now inversion E.
  - now rewrite IH.
Qed.

Lemma applyOp_registry (it : ImportTracker) (op : trackerOp) :
  registry_ (applyOp it op) = registry_ it.
Proof. destruct op; reflexivity. Qed.

Lemma satisfied_fix (op : trackerOp) (it : ImportTracker) :
  satisfied op it -> applyOp it op = it.
Proof.
  destruct it as [p t d e m r]. destruct op; simpl; intros Hs.
  - unfold AddTyping. simpl. now rewrite (addOne_present _ _ Hs).
  - unfold setDatetime. simpl. now subst d.
  - unfold setEnum. simpl. now rewrite (set_same _ _ Hs).
  - unfold setModel. simpl. now rewrite (set_same _ _ Hs).
Qed.

Lemma satisfied_apply (op : trackerOp) (it : ImportTracker) :
  satisfied op (applyOp it op).
Proof.
  destruct op;
    cbn [satisfied applyOp setEnum setModel setDatetime AddTyping
         typing datetime enums models fold_left].
  - apply addOne_contains.
  - reflexivity.
  - now rewrite set_lookup, String.eqb_refl.
  - now rewrite set_lookup, String.eqb_refl.
Qed.

Lemma satisfied_mono (op q : trackerOp) (it : ImportTracker) :
  satisfied op it -> satisfied op (applyOp it q).
Proof.
  destruct op, q;
    cbn [satisfied applyOp setEnum setModel setDatetime AddTyping
         typing datetime enums models fold_left];
    intros Hs; try exact Hs.
  - now apply addOne_keeps.
  - reflexivity.
  - rewrite set_lookup. now destruct (String.eqb name0 name).
  - rewrite set_lookup. now destruct (String.eqb name0 name).
Qed.

Lemma satisfied_fold (op : trackerOp) (ops : list trackerOp)
    (it : ImportTracker) :
  satisfied op it -> satisfied op (fold_left applyOp ops it).
Proof.
  revert it. induction ops as [|q ops IH]; intros it Hs; simpl; [exact Hs|].
  apply IH. now apply satisfied_mono.
Qed.

Lemma applyOps_satisfied (ops : list trackerOp) (it : ImportTracker) :
  Forall (fun op => satisfied op (fold_left applyOp ops it)) ops.
Proof.
  revert it. induction ops as [|q ops IH]; intros it; simpl; constructor.
  - apply satisfied_fold, satisfied_apply.
  - apply IH.
Qed.

Lemma applyOps_fix (ops : list trackerOp) (it : ImportTracker) :
  Forall (fun op => satisfied op it) ops -> fold_left applyOp ops it = it.
Proof.
  induction ops as [|q ops IH]; intros HF; simpl; [reflexivity|].
  inversion HF as [|? ? Hq Hops]; subst.
  rewrite (satisfied_fix _ _ Hq). now apply IH.
Qed.

Lemma applyOps_registry (ops : list trackerOp) (it : ImportTracker) :
  registry_ (fold_left applyOp ops it) = registry_ it.
Proof.
  revert it. induction ops as [|q ops IH]; intros it; simpl; [reflexivity|].
  now rewrite IH, applyOp_registry.
Qed.

Section TrackerFacts.

Context {H : Helpers}.

Lemma trackIf_ops (cond : bool) (imp : string) (it : ImportTracker) :
  trackIf cond imp it = fold_left applyOp (typingOp cond imp) it.
Proof. now destruct cond. Qed.

Lemma trackInner_ops (it : ImportTracker) (innerType : string) :
  trackInner it innerType
  = fold_left applyOp (innerOps (registry_ it) innerType) it.
Proof.
  unfold trackInner, innerOps.
  destruct (negb (String.eqb innerType "") && negb (isBasicType innerType));
    [|reflexivity].
  cbv zeta. destruct (String.eqb _ "enum"); [reflexivity|].
  destruct (String.eqb _ "model"); reflexivity.
Qed.

Lemma fold_trackInner_ops (inner : list string) (it : ImportTracker) :
  fold_left trackInner inner it
  = fold_left applyOp (flat_map (innerOps (registry_ it)) inner) it.
Proof.
  revert it. induction inner as [|x xs IH]; intros it; simpl; [reflexivity|].
  rewrite fold_left_app, IH, trackInner_ops, applyOps_registry. reflexivity.
Qed.

(** [TrackFieldType] is the sequence of its elementary updates. *)
Lemma TrackFieldType_ops (it : ImportTracker) (typeName : string) :
  TrackFieldType it typeName
  = fold_left applyOp (trackOps (registry_ it) typeName) it.
Proof.
  unfold TrackFieldType, trackOps. cbv zeta.
  rewrite !fold_left_app, fold_trackInner_ops, !trackIf_ops.
  f_equal.
  - f_equal.
    destruct (String.eqb typeName "datetime"
              || strings.Contains typeName "datetime");
      simpl; rewrite !applyOps_registry; reflexivity.
  - destruct (String.eqb typeName "datetime"
              || strings.Contains typeName "datetime"); reflexivity.
Qed.

(** C8.  Tracking a type name a second time leaves the tracker as the
    first time left it; adding imports a second time changes nothing; and
    [AddTyping] and [AddPydantic] never raise the number of entries of an
    import above one unless it was above one before. *)
Theorem import_tracker_idempotent (it : ImportTracker) (typeName : string)
    (imports : list string) :
  TrackFieldType (TrackFieldType it typeName) typeName
  = TrackFieldType it typeName
  /\ AddTyping (AddTyping it imports) imports = AddTyping it imports
  /\ AddPydantic (AddPydantic it imports) imports = AddPydantic it imports
  /\ (forall imp,
         count_occ string_dec (typing (AddTyping it imports)) imp
         <= Nat.max 1 (count_occ string_dec (typing it) imp))
  /\ (forall imp,
         count_occ string_dec (pydantic (AddPydantic it imports)) imp
         <= Nat.max 1 (count_occ string_dec (pydantic it) imp)).
Proof.
  split; [|split; [|split; [|split]]].
  - rewrite (TrackFieldType_ops (TrackFieldType it typeName)).
    rewrite !TrackFieldType_ops, applyOps_registry.
    apply applyOps_fix, applyOps_satisfied.
  - unfold AddTyping. simpl. now rewrite fold_addOne_idempotent.
  - unfold AddPydantic. simpl. now rewrite fold_addOne_idempotent.
  - intros imp. apply fold_addOne_count.
  - intros imp. apply fold_addOne_count.
Qed.

End TrackerFacts.

(** ** The import section *)

Lemma sort_Strings_nil : sort.Strings [] = [].
Proof. reflexivity. Qed.

Lemma sort_Strings_nonempty (x : string) (l : list string) :
  sort.Strings (x :: l) <> [].
Proof.
  intros E. pose proof (sort_Strings_perm (x :: l)) as P. rewrite E in P.
  apply Permutation_sym, Permutation_nil in P. discriminate.
Qed.

Section ImportFacts.

Context {H : Helpers}.

Lemma lines_Line (cb : formatdef.ContentBuilder) (t : string) :
  formatdef.lines (formatdef.Line cb t)
  = (formatdef.lines cb ++ [formatdef.indented cb t])%list.
Proof. reflexivity. Qed.

Lemma lines_emitAll (texts : list string) (cb : formatdef.ContentBuilder) :
  formatdef.lines (emitAll texts cb)
  = (formatdef.lines cb ++ map (formatdef.indented cb) texts)%list.
Proof. apply emitAll_spec. Qed.

Lemma level_emitAll (texts : list string) (cb : formatdef.ContentBuilder) :
  formatdef.level (emitAll texts cb) = formatdef.level cb.
Proof. apply emitAll_spec. Qed.

Lemma indentStr_emitAll (texts : list string)
    (cb : formatdef.ContentBuilder) :
  formatdef.indentStr (emitAll texts cb) = formatdef.indentStr cb.
Proof. apply emitAll_spec. Qed.

Ltac builder_normalise :=
  repeat (rewrite ?lines_Line, ?lines_emitAll, ?level_emitAll,
            ?indentStr_emitAll;
          cbn [formatdef.lines formatdef.level formatdef.indentStr
               formatdef.Indent formatdef.Dedent formatdef.Line pred snd]);
  unfold formatdef.indented;
  repeat (rewrite ?level_emitAll, ?indentStr_emitAll;
          cbn [formatdef.lines formatdef.level formatdef.indentStr
               formatdef.Indent formatdef.Dedent formatdef.Line pred snd]).

(** The text [Generate] writes, section by section. *)
Lemma Generate_lines (it : ImportTracker) (cb : formatdef.ContentBuilder) :
  formatdef.lines (snd (Generate it cb))
  = importSectionLines cb (pydantic it) (sort.Strings (typing it))
      (datetime it) (sort.Strings (GoMap.keys (enums it)))
      (sort.Strings (GoMap.keys (models it))).
Proof.
  destruct it as [p t d e m r]. unfold Generate, importSectionLines.
  cbn [pydantic typing datetime enums models withTyping].
  destruct p as [|p0 p]; destruct t as [|t0 t]; destruct d;
    destruct e as [|e0 e]; destruct m as [|m0 m];
    cbn [pydantic typing datetime enums models withTyping GoMap.keys map];
    rewrite ?sort_Strings_nil;
    repeat match goal with
      | |- context [sort.Strings (?x :: ?l)] =>
          let E := fresh "E" in
          pose proof (@sort_Strings_nonempty x l) as E;
          destruct (sort.Strings (x :: l)); [contradiction|]; clear E
      end;
    builder_normalise;
    rewrite ?map_app, <- ?app_assoc; cbn [map app];
    rewrite <- ?app_assoc; reflexivity.
Qed.

End ImportFacts.

Section ImportOrder.

Context {H : Helpers}.

(** C9, amended.  [Generate] writes, after the lines already in the
    builder: the line [from pydantic import ...] with the names in the order
    they were added; the line [from typing import ...] with the names in
    ascending byte order; the line [from datetime import datetime]; one
    line [from ..enums.<snake name> import <name>] per enum, in ascending
    byte order of the names; an empty line; and [if TYPE_CHECKING:]
    followed, one step further in, by one line
    [from .<snake name> import <name>] per model, in ascending byte order.
    Each part is written only when the tracker holds something for it, the
    empty line always.  A tracker that holds the same imports, found or
    enumerated in another order, yields the same text. *)
Theorem Generate_fixed_order (it it' : ImportTracker)
    (cb : formatdef.ContentBuilder) :
  pydantic it' = pydantic it ->
  Permutation (typing it) (typing it') ->
  datetime it' = datetime it ->
  Permutation (GoMap.keys (enums it)) (GoMap.keys (enums it')) ->
  Permutation (GoMap.keys (models it)) (GoMap.keys (models it')) ->
  exists tys ens mds,
    Permutation (typing it) tys
    /\ StronglySorted (fun a b => String.leb a b = true) tys
    /\ Permutation (GoMap.keys (enums it)) ens
    /\ StronglySorted (fun a b => String.leb a b = true) ens
    /\ Permutation (GoMap.keys (models it)) mds
    /\ StronglySorted (fun a b => String.leb a b = true) mds
    /\ formatdef.lines (snd (Generate it cb))
       = (formatdef.lines cb
          ++ map (formatdef.indented cb)
               (match pydantic it with
                | [] => []
                | _ :: _ =>
                    [String.append "from pydantic import "
                       (String.concat ", " (pydantic it))]
                end
                ++ match tys with
                   | [] => []
                   | _ :: _ =>
                       [String.append "from typing import "
                          (String.concat ", " tys)]
                   end
                ++ (if datetime it
                    then ["from datetime import datetime"] else [])
                ++ map (fun enumName =>
                          String.append "from ..enums."
                            (String.append (ToSnakeCase enumName)
                               (String.append " import " enumName)))
                     ens
                ++ [EmptyString])
          ++ match mds with
             | [] => []
             | _ :: _ =>
                 formatdef.indented cb "if TYPE_CHECKING:"
                 :: map (formatdef.indented (formatdef.Indent cb))
                      (map (fun modelName =>
                              String.append "from ."
                                (String.append (ToSnakeCase modelName)
                                   (String.append " import " modelName)))
                         mds)
             end)%list
    /\ formatdef.lines (snd (Generate it' cb))
       = formatdef.lines (snd (Generate it cb)).
Proof.
  intros Hp Ht Hd He Hm.
  exists (sort.Strings (typing it)),
    (sort.Strings (GoMap.keys (enums it))),
    (sort.Strings (GoMap.keys (models it))).
  split; [apply sort_Strings_perm|].
  split; [apply sort_Strings_sorted|].
  split; [apply sort_Strings_perm|].
  split; [apply sort_Strings_sorted|].
  split; [apply sort_Strings_perm|].
  split; [apply sort_Strings_sorted|].
  split; [apply Generate_lines|].
  rewrite !Generate_lines, Hp, Hd.
  rewrite <- (sort_Strings_permutation_invariant Ht).
  rewrite <- (sort_Strings_permutation_invariant He).
  rewrite <- (sort_Strings_permutation_invariant Hm).
  reflexivity.
Qed.

End ImportOrder.

(** [trackerA] and [trackerB] hold the same imports in different orders;
    both render the import section below. *)
Lemma Generate_fixed_order_witness :
  formatdef.lines
    (snd (@Generate SpecHelpers.helpers trackerA
            (formatdef.NewContentBuilder "    ")))
  = [ "from pydantic import BaseModel";
      "from typing import List, Optional, TYPE_CHECKING";
      "from datetime import datetime";
      "from ..enums.nationality import Nationality";
      "from ..enums.status import Status";
      EmptyString;
      "if TYPE_CHECKING:";
      "    from .company import Company";
      "    from .person import Person" ]
  /\ formatdef.lines
       (snd (@Generate SpecHelpers.helpers trackerB
               (formatdef.NewContentBuilder "    ")))
     = formatdef.lines
         (snd (@Generate SpecHelpers.helpers trackerA
                 (formatdef.NewContentBuilder "    "))).
Proof.
  assert (Ht : Permutation (typing trackerA) (typing trackerB)).
  { simpl. apply Permutation_sym, (Permutation_cons_app [_; _] []).
    simpl. apply Permutation_refl. }
  assert (He : Permutation (GoMap.keys (enums trackerA))
                 (GoMap.keys (enums trackerB))).
  { simpl. apply perm_swap. }
  assert (Hm : Permutation (GoMap.keys (models trackerA))
                 (GoMap.keys (models trackerB))).
  { simpl. apply perm_swap. }
  destruct (@Generate_fixed_order SpecHelpers.helpers trackerA trackerB
              (formatdef.NewContentBuilder "    ")
              eq_refl Ht eq_refl He Hm)
    as (tys & ens & mds & _ & _ & _ & _ & _ & _ & _ & Hb).
  split; [reflexivity | exact Hb].
Defined.

(** C9 as stated fails where byte order and alphabetical order part: every
    capital letter precedes every small letter, so [IPAddress] is imported
    before [Identity] and [IPRange] before [Invoice], against the order of
    a dictionary. *)
Lemma Generate_order_is_bytewise :
  formatdef.lines
    (snd (@Generate SpecHelpers.helpers acronymTracker
            (formatdef.NewContentBuilder "    ")))
  = [ "from pydantic import BaseModel";
      "from typing import TYPE_CHECKING";
      "from ..enums.ip_address import IPAddress";
      "from ..enums.identity import Identity";
      EmptyString;
      "if TYPE_CHECKING:";
      "    from .ip_range import IPRange";
      "    from .invoice import Invoice" ]
  /\ alphabeticalLe "IPAddress" "Identity" = false
  /\ alphabeticalLe "Identity" "IPAddress" = true
  /\ alphabeticalLe "IPRange" "Invoice" = false
  /\ alphabeticalLe "Invoice" "IPRange" = true.
Proof. repeat split; vm_compute; reflexivity. Qed.

(** ** The configuration block, present or absent *)

Lemma containsLines_In (block text : list string) (line : string) :
  containsLines block text -> In line block -> In line text.
Proof.
  intros (before & after & ->) Hin.
  apply in_or_app. right. apply in_or_app. now left.
Qed.

(** A text without a closing line of the block holds the block in neither
    syntax. *)
Lemma no_block_end_no_block (text : list string) :
  Forall (fun line => ~ isBlockEnd line) text -> ~ containsConfigBlock text.
Proof.
  intros HF [Hc | Hc]; rewrite Forall_forall in HF.
  - apply (HF "    }"); [|now left].
    eapply containsLines_In; [exact Hc|].
    unfold configBlockV2. simpl. tauto.
  - apply (HF "        use_enum_values = True"); [|now right].
    eapply containsLines_In; [exact Hc|].
    unfold configBlockV1. simpl. tauto.
Qed.

Lemma endsWith_contains (config : PydanticConfig) (text : list string) :
  endsWithConfigBlock config text -> containsConfigBlock text.
Proof.
  intros [before ->]. unfold containsConfigBlock, configBlock.
  destruct (PydanticV2 config); [left | right];
    exists before, []; now rewrite app_nil_r.
Qed.

Lemma from_not_block_end (rest : string) :
  ~ isBlockEnd (String "f" rest).
Proof. intros [E | E]; discriminate E. Qed.

Lemma indented_from_not_block_end (rest : string) :
  ~ isBlockEnd ("    " ++ String "f" rest).
Proof. intros [E | E]; discriminate E. Qed.

Lemma classLine_not_block_end (name : string) : ~ isBlockEnd (classLine name).
Proof. intros [E | E]; discriminate E. Qed.

Section ConfigBlockPresence.

Context {H : Helpers}.

Lemma importLines_not_block_end (it : ImportTracker) :
  Forall (fun line => ~ isBlockEnd line)
    (formatdef.lines (snd (Generate it (formatdef.NewContentBuilder "    ")))).
Proof.
  rewrite Generate_lines. unfold importSectionLines.
  cbn [formatdef.lines formatdef.NewContentBuilder app].
  apply Forall_app. split.
  - apply Forall_map. repeat (apply Forall_app; split).
    + destruct (pydantic it); constructor; [|constructor].
      apply from_not_block_end.
    + destruct (sort.Strings (typing it)); constructor; [|constructor].
      apply from_not_block_end.
    + destruct (datetime it); constructor; [|constructor].
      apply from_not_block_end.
    + apply Forall_map, Forall_forall. intros x _. apply from_not_block_end.
    + constructor; [|constructor]. intros [E | E]; discriminate E.
  - destruct (sort.Strings (GoMap.keys (models it))); constructor.
    + intros [E | E]; discriminate E.
    + apply Forall_map, Forall_map, Forall_forall. intros x _.
      apply indented_from_not_block_end.
Qed.

Lemma model_lines_without_block (model : formatdef.Struct)
    (config : PydanticConfig) (morpheConfig : cfg.MorpheConfig)
    (r : registry.Registry) :
  hasEnumField r model = false ->
  Forall (fun line => ~ isBlockEnd line)
    (generateModelLines model config morpheConfig r).
Proof.
  intros En. rewrite generateModelLines_shape, scanModel_needs, En.
  unfold headerLines. repeat (apply Forall_app; split).
  - apply importLines_not_block_end.
  - constructor; [intros [E | E]; discriminate E|].
    constructor; [apply classLine_not_block_end|].
    constructor; [apply docLine_not_block_end | constructor].
  - destruct (formatdef.Fields model) as [|f fs].
    + constructor; [|constructor]. intros [E | E]; discriminate E.
    + unfold configLines. rewrite app_nil_r. apply Forall_app. split.
      * unfold renderedDataLines. apply Forall_map, Forall_forall.
        intros x _. apply dataFieldText_not_block_end.
      * unfold renderedNavLines. apply Forall_map, Forall_forall.
        intros x _. apply navFieldText_not_block_end.
Qed.

(** The lines of a structure before the documentation string close no
    configuration block. *)
Lemma generateStructureLines_parts (structure : formatdef.Struct)
    (config : PydanticConfig) :
  exists before,
    generateStructureLines structure config
    = (before
       ++ docLine (formatdef.StructName structure) " data transfer object."
          :: renderedStructLines structure
       ++ (if structNeedsConfig structure config
           then "    " :: configBlockV2 else []))%list
    /\ Forall (fun line => ~ isBlockEnd line) before.
Proof.
  unfold generateStructureLines, generateStructureBuilder, structNeedsConfig.
  set (st := fold_left scanStructField (formatdef.Fields structure) _).
  cbv zeta.
  match goal with
  | |- context [fold_left _ (formatdef.Fields structure) ?c] => set (cb1 := c)
  end.
  assert (Hcb1 : formatdef.level cb1 = 1 /\ formatdef.indentStr cb1 = "    "
                 /\ exists before,
                      formatdef.lines cb1
                      = (before
                         ++ [docLine (formatdef.StructName structure)
                               " data transfer object."])%list
                      /\ Forall (fun line => ~ isBlockEnd line) before).
  { subst cb1. unfold formatdef.FormatList, strings.Join.
    destruct (PydanticV2 config), (AddTypeHints config), (hasDict st),
      (hasList st), (hasDate st);
      (split; [reflexivity|]; split; [reflexivity|];
       eexists; split; [reflexivity|];
       repeat (constructor;
               [first [ apply from_not_block_end
                      | apply classLine_not_block_end
                      | intros [E | E]; discriminate E ]|]);
       constructor). }
  destruct Hcb1 as (Hl & Hi & before & Hb & HF).
  destruct (struct_fields_lines (formatdef.Fields structure) cb1 Hl Hi)
    as (Lf & Vf & If_).
  cbv zeta in Lf, Vf, If_.
  set (cb2 := fold_left _ (formatdef.Fields structure) cb1) in *.
  exists before. split; [|exact HF].
  destruct (PydanticV2 config); simpl andb; cbv iota.
  - destruct (existsb looksLikeEnum (formatdef.Fields structure)).
    + destruct cb2 as [i l ls]. simpl in *. subst i l.
      rewrite Lf, Hb. simpl. rewrite <- !app_assoc. simpl.
      rewrite <- ?app_assoc. reflexivity.
    + change (formatdef.lines (formatdef.Dedent cb2))
        with (formatdef.lines cb2).
      rewrite Lf, Hb, <- !app_assoc, app_nil_r. reflexivity.
  - change (formatdef.lines (formatdef.Dedent cb2))
      with (formatdef.lines cb2).
    rewrite Lf, Hb, <- !app_assoc, app_nil_r. reflexivity.
Qed.

Lemma structure_lines_without_block (structure : formatdef.Struct)
    (config : PydanticConfig) :
  structNeedsConfig structure config = false ->
  Forall (fun line => ~ isBlockEnd line)
    (generateStructureLines structure config).
Proof.
  intros En.
  destruct (generateStructureLines_parts structure config)
    as (before & -> & HF).
  rewrite En, app_nil_r. apply Forall_app. split; [exact HF|].
  constructor; [apply docLine_not_block_end|].
  unfold renderedStructLines. apply Forall_map, Forall_forall.
  intros x _. apply structFieldText_not_block_end.
Qed.

(** C6.  The declaration of a model contains the configuration block, in
    whichever syntax, exactly when some data field of basic type has an
    inner type that the registry resolves as an enum; the block is then the
    end of the declaration, in the syntax of the configured Pydantic
    version.  The declaration of a structure contains the block exactly
    when Pydantic v2 is configured and some field of basic type has a name
    other than [str], [int], [float], [bool], [datetime], [Dict[str, Any]]
    and without a bracket: the structure generator does not ask the
    registry whether the name is an enum, and it writes no block under
    Pydantic v1. *)
Theorem config_block_iff (model structure : formatdef.Struct)
    (config : PydanticConfig) (morpheConfig : cfg.MorpheConfig)
    (r : registry.Registry) :
  ((containsConfigBlock (generateModelLines model config morpheConfig r)
    <-> existsb (fun f => negb (isNav f) && isEnumField r f)
          (formatdef.Fields model) = true)
   /\ (endsWithConfigBlock config
         (generateModelLines model config morpheConfig r)
       <-> existsb (fun f => negb (isNav f) && isEnumField r f)
             (formatdef.Fields model) = true))
  /\ ((containsConfigBlock (generateStructureLines structure config)
       <-> PydanticV2 config
           && existsb looksLikeEnum (formatdef.Fields structure) = true)
      /\ (endsWithConfigBlock config
            (generateStructureLines structure config)
          <-> PydanticV2 config
              && existsb looksLikeEnum (formatdef.Fields structure) = true)).
Proof.
  pose proof (model_config_block_iff model config morpheConfig r) as Hm.
  pose proof (structure_config_block_iff structure config) as Hs.
  unfold hasEnumField in Hm. unfold structNeedsConfig in Hs.
  split; (split; [|assumption]); split.
  - intros Hc.
    destruct (existsb _ (formatdef.Fields model)) eqn:En; [reflexivity|].
    exfalso. revert Hc. apply no_block_end_no_block.
    now apply model_lines_without_block.
  - intros En. apply (endsWith_contains (config := config)). now apply Hm.
  - intros Hc.
    destruct (PydanticV2 config
              && existsb looksLikeEnum (formatdef.Fields structure)) eqn:En;
      [reflexivity|].
    exfalso. revert Hc. apply no_block_end_no_block.
    now apply structure_lines_without_block.
  - intros En. apply (endsWith_contains (config := config)). now apply Hs.
Qed.

End ConfigBlockPresence.

(** ** Determinism *)

(** What the sorting does guarantee: the struct does not depend on the
    order in which the fields and relations of the model are enumerated,
    nor on the order of the models in the registry as long as no two
    models declare a polymorphic relation of the same name. *)

Lemma lookup_permutation (V : Type) (m1 m2 : GoMap.t V) :
  Permutation m1 m2 -> NoDup (GoMap.keys m1) ->
  forall k, GoMap.lookup m1 k = GoMap.lookup m2 k.
Proof.
  induction 1 as [| [k0 v0] l l' P IH | [k1 v1] [k2 v2] l | l l' l'' P1 IH1 P2 IH2];
    intros Hnd k.
  - reflexivity.
  - simpl. inversion Hnd; subst. rewrite IH by assumption. reflexivity.
  - simpl. destruct (String.eqb_spec k1 k) as [-> | N1];
      destruct (String.eqb_spec k2 k) as [-> | N2]; try reflexivity.
    simpl in Hnd. inversion Hnd as [|? ? Hnotin _]; subst.
    exfalso. apply Hnotin. now left.
  - rewrite IH1 by assumption. apply IH2.
    eapply Permutation_NoDup; [|exact Hnd].
    unfold GoMap.keys. now apply Permutation_map.
Qed.

Lemma resolveIn_permutation (through : string) (ms1 ms2 : GoMap.t yaml.Model) :
  Permutation ms1 ms2 ->
  (forall n1 m1 n2 m2,
      In (n1, m1) ms1 -> In (n2, m2) ms1 ->
      declares through m1 = true -> declares through m2 = true -> n1 = n2) ->
  resolveIn through ms1 = resolveIn through ms2.
Proof.
  induction 1 as [| [n0 m0] l l' P IH | [n1 m1] [n2 m2] l | l l' l'' P1 IH1 P2 IH2];
    intros Huniq.
  - reflexivity.
  - simpl. fold (declares through m0). destruct (declares through m0);
      [reflexivity|].
    apply IH. intros a b c d Ha Hc. apply Huniq; now right.
  - simpl. fold (declares through m1) (declares through m2).
    destruct (declares through m1) eqn:E1, (declares through m2) eqn:E2;
      try reflexivity.
    f_equal. apply (Huniq n2 m2 n1 m1); simpl; auto.
  - rewrite IH1 by assumption. apply IH2.
    intros a b c d Ha Hc. apply Huniq;
      eapply Permutation_in; try (apply Permutation_sym; exact P1);
      assumption.
Qed.

Section OrderIndependence.

Context {H : Helpers}.

Theorem CompileModel_order_independent (m1 m2 : yaml.Model)
    (r1 r2 : registry.Registry) :
  yaml.Name m1 = yaml.Name m2 ->
  Permutation (yaml.Fields m1) (yaml.Fields m2) ->
  NoDup (GoMap.keys (yaml.Fields m1)) ->
  Permutation (yaml.Related m1) (yaml.Related m2) ->
  NoDup (GoMap.keys (yaml.Related m1)) ->
  Permutation (registry.models r1) (registry.models r2) ->
  (forall through n m n' m',
      In (n, m) (registry.models r1) -> In (n', m') (registry.models r1) ->
      declares through m = true -> declares through m' = true -> n = n') ->
  CompileModel m1 r1 = CompileModel m2 r2.
Proof.
  intros Hn Hf Hfd Hr Hrd Hm Huniq.
  rewrite !CompileModel_fields, Hn. do 2 f_equal. unfold compiledFields.
  assert (Kf : sort.Strings (GoMap.keys (yaml.Fields m1))
               = sort.Strings (GoMap.keys (yaml.Fields m2))).
  { apply sort_Strings_permutation_invariant. unfold GoMap.keys.
    now apply Permutation_map. }
  assert (Kr : sort.Strings (GoMap.keys (yaml.Related m1))
               = sort.Strings (GoMap.keys (yaml.Related m2))).
  { apply sort_Strings_permutation_invariant. unfold GoMap.keys.
    now apply Permutation_map. }
  rewrite <- Kf, <- Kr.
  assert (Lf : forall k, GoMap.get yaml.zeroField (yaml.Fields m1) k
                         = GoMap.get yaml.zeroField (yaml.Fields m2) k).
  { intros k. unfold GoMap.get. now rewrite (lookup_permutation Hf Hfd). }
  assert (Lr : forall k, GoMap.get yaml.zeroRelation (yaml.Related m1) k
                         = GoMap.get yaml.zeroRelation (yaml.Related m2) k).
  { intros k. unfold GoMap.get. now rewrite (lookup_permutation Hr Hrd). }
  f_equal; [|f_equal].
  - apply map_ext. intros k. unfold dataField. now rewrite Lf.
  - apply flat_map_ext. intros k. unfold foreignKeyFields. now rewrite Lr.
  - apply map_ext. intros k. unfold navigationField. rewrite Lr.
    unfold resolvePolymorphicThrough, registry.GetAllModels.
    rewrite (@resolveIn_permutation
               (yaml.Through (GoMap.get yaml.zeroRelation (yaml.Related m2) k))
               _ _ Hm (Huniq _)).
    reflexivity.
Qed.

End OrderIndependence.


(** C7 fails on the code.  [registryOrder1] and [registryOrder2] are one
    registry enumerated in two orders; the declaration of [Author], whose
    relation [Note] refers through [Commentable], names [Comment] under the
    one order and [Review] under the other. *)
Theorem through_resolution_follows_map_order :
  Permutation (registry.models registryOrder1)
    (registry.models registryOrder2)
  /\ (exists s1 s2,
         @CompileModel SpecHelpers.helpers Author registryOrder1 = Ok s1
         /\ @CompileModel SpecHelpers.helpers Author registryOrder2 = Ok s2
         /\ In "    note: Optional[List[Comment]] = None"
              (@generateModelLines SpecHelpers.helpers s1 defaultConfig
                 emptyMorpheConfig registryOrder1)
         /\ In "    note: Optional[List[Review]] = None"
              (@generateModelLines SpecHelpers.helpers s2 defaultConfig
                 emptyMorpheConfig registryOrder2))
  /\ @compileOne SpecHelpers.helpers defaultConfig emptyMorpheConfig
       registryOrder1 Author
     <> @compileOne SpecHelpers.helpers defaultConfig emptyMorpheConfig
          registryOrder2 Author.
Proof.
  split; [apply perm_swap|]. split.
  - eexists. eexists.
    split; [vm_compute; reflexivity|]. split; [vm_compute; reflexivity|].
    split; vm_compute; do 9 right; left; reflexivity.
  - vm_compute. discriminate.
Qed.


(** * Further properties *)

(** ** resolvePolymorphicThrough *)

(** X1.  [resolvePolymorphicThrough] returns the name of a model of the
    registry that declares a polymorphic relation called [through]; it
    fails, with the message that names [through], exactly when no model
    declares one. *)
Theorem resolvePolymorphicThrough_sound_complete (through : string)
    (r : registry.Registry) :
  (forall modelName,
      resolvePolymorphicThrough through r = Ok modelName ->
      exists model,
        In (modelName, model) (registry.GetAllModels r)
        /\ declares through model = true)
  /\ ((forall modelName model,
          In (modelName, model) (registry.GetAllModels r) ->
          declares through model = false)
      <-> resolvePolymorphicThrough through r
          = Err ("polymorphic relationship " ++ through ++ " not found")).
Proof.
  unfold resolvePolymorphicThrough.
  induction (registry.GetAllModels r) as [|[n m] ms [IHs IHc]]; simpl.
  - split; [discriminate|]. split; [reflexivity | contradiction].
  - fold (declares through m). destruct (declares through m) eqn:E.
    + split.
      * intros modelName Hok. inversion Hok; subst. exists m. auto.
      * split; [|discriminate].
        intros Hno. rewrite (Hno n m) in E; [discriminate | now left].
    + split.
      * intros modelName Hok. destruct (IHs _ Hok) as (model & Hin & Hd).
        exists model. auto.
      * split.
        -- intros Hno. apply IHc. intros a b Hin. apply (Hno a). now right.
        -- intros Herr a b [Eq | Hin].
           ++ inversion Eq; subst. exact E.
           ++ apply (proj2 IHc Herr a). exact Hin.
Qed.

(** ** Models without relations *)

Lemma filter_none (A : Type) (p : A -> bool) (l : list A) :
  (forall x, In x l -> p x = false) -> filter p l = [].
Proof.
  induction l as [|x l IH]; intros Hp; simpl; [reflexivity|].
  rewrite (Hp x (or_introl eq_refl)). apply IH. intros y Hy. apply Hp.
  now right.
Qed.

Lemma filter_whole (A : Type) (p : A -> bool) (l : list A) :
  (forall x, In x l -> p x = true) -> filter p l = l.
Proof.
  induction l as [|x l IH]; intros Hp; simpl; [reflexivity|].
  rewrite (Hp x (or_introl eq_refl)). f_equal. apply IH. intros y Hy.
  apply Hp. now right.
Qed.

Section NoRelations.

Context {H : Helpers}.

(** X2.  A model without relations compiles to one field per own field,
    in sorted order of the names and under the schema names; when no own
    field name starts with [_nav_], the declaration has no navigation
    line: its body is the data lines and, when needed, the configuration
    block. *)
Theorem no_relations_no_navigation (model : yaml.Model)
    (r : registry.Registry) (config : PydanticConfig)
    (morpheConfig : cfg.MorpheConfig) :
  yaml.Related model = [] ->
  yaml.Fields model <> [] ->
  (forall k, In k (GoMap.keys (yaml.Fields model)) ->
             strings.HasPrefix k "_nav_" = false) ->
  exists s,
    CompileModel model r = Ok s
    /\ map formatdef.Name (formatdef.Fields s)
       = sort.Strings (GoMap.keys (yaml.Fields model))
    /\ List.length (formatdef.Fields s) = List.length (yaml.Fields model)
    /\ renderedNavLines s = []
    /\ generateModelLines s config morpheConfig r
       = (headerLines s config morpheConfig r
          ++ map (fun f =>
                    String.append "    "
                      (dataFieldText config s
                         (polymorphicTypeToNavMap
                            (scanModel s config morpheConfig r)) f))
               (formatdef.Fields s)
          ++ configLines config (hasEnumField r s))%list.
Proof.
  intros Hrel Hne Hnav. eexists. split; [apply CompileModel_fields|].
  set (s := formatdef.mkStruct _ _).
  assert (Hf : formatdef.Fields s
               = map (dataField model)
                   (sort.Strings (GoMap.keys (yaml.Fields model)))).
  { subst s. simpl. unfold compiledFields. rewrite Hrel. simpl.
    now rewrite app_nil_r. }
  assert (Hall : forall f, In f (formatdef.Fields s) -> isNav f = false).
  { intros f Hin. rewrite Hf in Hin. apply in_map_iff in Hin as (k & <- & Hk).
    apply Hnav. eapply Permutation_in;
      [apply Permutation_sym, sort_Strings_perm | exact Hk]. }
  assert (Hnone : renderedNavLines s = []).
  { unfold renderedNavLines. rewrite filter_none; [reflexivity|].
    intros f Hin. unfold isRenderedNav. now rewrite (Hall f Hin). }
  assert (Hlen : List.length (formatdef.Fields s)
                 = List.length (yaml.Fields model)).
  { rewrite Hf, length_map.
    rewrite <- (Permutation_length (sort_Strings_perm _)).
    unfold GoMap.keys. apply length_map. }
  split.
  { rewrite Hf, map_map. simpl. apply map_id. }
  split; [exact Hlen|].
  split; [exact Hnone|].
  rewrite generateModelLines_shape, Hnone, scanModel_needs.
  destruct (formatdef.Fields s) as [|f fs] eqn:Ef.
  - exfalso. apply Hne. simpl in Hlen.
    destruct (yaml.Fields model); [reflexivity | discriminate].
  - rewrite <- Ef in *. f_equal. simpl. f_equal.
    unfold renderedDataLines.
    rewrite filter_whole; [reflexivity|].
    intros x Hx. now rewrite (Hall x Hx).
Qed.

End NoRelations.

Lemma no_relations_no_navigation_witness :
  exists s,
    @CompileModel SpecHelpers.helpers Item exampleRegistry = Ok s
    /\ map formatdef.Name (formatdef.Fields s) = ["ID"; "item_type"]
    /\ @renderedNavLines SpecHelpers.helpers s = [].
Proof.
  assert (Hne : yaml.Fields Item <> []) by discriminate.
  assert (Hnav : forall k, In k (GoMap.keys (yaml.Fields Item)) ->
                           strings.HasPrefix k "_nav_" = false).
  { intros k [<- | [<- | []]]; reflexivity. }
  destruct (@no_relations_no_navigation SpecHelpers.helpers Item
              exampleRegistry defaultConfig emptyMorpheConfig
              eq_refl Hne Hnav)
    as (s & Hs & Hn & _ & Hr & _).
  exists s. split; [exact Hs|]. split; [|exact Hr].
  rewrite Hn. reflexivity.
Defined.

(** ** The import tracker: what an update leaves alone *)

Lemma fold_addOne_extends (imports l : list string) :
  exists added,
    fold_left addOne imports l = (l ++ added)%list
    /\ (forall x, In x added -> In x imports /\ ~ In x l).
Proof.
  revert l. induction imports as [|i imports IH]; intros l; simpl.
  - exists []. split; [now rewrite app_nil_r | contradiction].
  - destruct (IH (addOne l i)) as (added & Heq & Hadded).
    unfold addOne in *. destruct (containsString l i) eqn:E.
    + exists added. split; [exact Heq|].
      intros x Hx. destruct (Hadded x Hx). auto.
    + exists (i :: added). split.
      * rewrite Heq, <- app_assoc. reflexivity.
      * intros x [<- | Hx].
        -- split; [now left|]. intros Hin.
           apply containsString_In in Hin. congruence.
        -- destruct (Hadded x Hx) as [Hi Hn]. split; [now right|].
           intros Hin. apply Hn, in_or_app. now left.
Qed.

Lemma fold_addOne_NoDup (imports l : list string) :
  NoDup l -> NoDup (fold_left addOne imports l).
Proof.
  revert l. induction imports as [|i imports IH]; intros l Hnd; simpl;
    [exact Hnd|].
  apply IH. unfold addOne. destruct (containsString l i) eqn:E; [exact Hnd|].
  apply NoDup_app; [exact Hnd | repeat constructor; intros [] |].
  intros x Hx [<- | []]. apply containsString_In in Hx. congruence.
Qed.

Lemma fold_addOne_all (imports l : list string) (x : string) :
  In x imports -> In x (fold_left addOne imports l).
Proof.
  intros Hin. apply containsString_In.
  pose proof (fold_addOne_contains imports l) as HF.
  rewrite Forall_forall in HF. now apply HF.
Qed.

(** X3.  [AddTyping] and [AddPydantic] keep the entries that are there, in
    their places, and append, of the given imports, those that are not
    there yet: every given import is present afterwards, nothing else is
    added, and a list without duplicates stays without duplicates. *)
Theorem AddTyping_AddPydantic_append (it : ImportTracker)
    (imports : list string) :
  (exists added,
      typing (AddTyping it imports) = (typing it ++ added)%list
      /\ (forall x, In x added -> In x imports /\ ~ In x (typing it)))
  /\ (exists added,
         pydantic (AddPydantic it imports) = (pydantic it ++ added)%list
         /\ (forall x, In x added -> In x imports /\ ~ In x (pydantic it)))
  /\ (forall x, In x imports ->
                In x (typing (AddTyping it imports))
                /\ In x (pydantic (AddPydantic it imports)))
  /\ (NoDup (typing it) -> NoDup (typing (AddTyping it imports)))
  /\ (NoDup (pydantic it) -> NoDup (pydantic (AddPydantic it imports)))
  /\ pydantic (AddTyping it imports) = pydantic it
  /\ typing (AddPydantic it imports) = typing it.
Proof.
  unfold AddTyping, AddPydantic.
  cbn [typing pydantic].
  split; [apply fold_addOne_extends|].
  split; [apply fold_addOne_extends|].
  split; [intros x Hx; split; now apply fold_addOne_all|].
  split; [apply fold_addOne_NoDup|].
  split; [apply fold_addOne_NoDup|].
  split; reflexivity.
Qed.

Lemma applyOp_pydantic (it : ImportTracker) (op : trackerOp) :
  pydantic (applyOp it op) = pydantic it.
Proof. destruct op; reflexivity. Qed.

Lemma applyOps_pydantic (ops : list trackerOp) (it : ImportTracker) :
  pydantic (fold_left applyOp ops it) = pydantic it.
Proof.
  revert it. induction ops as [|q ops IH]; intros it; simpl; [reflexivity|].
  now rewrite IH, applyOp_pydantic.
Qed.

Section TrackerMonotone.

Context {H : Helpers}.

(** X4.  [TrackFieldType] only adds: the pydantic imports and the registry
    are untouched, every typing import, enum and model tracked before is
    tracked afterwards, and the datetime flag is never taken back. *)
Theorem TrackFieldType_only_adds (it : ImportTracker) (typeName : string) :
  pydantic (TrackFieldType it typeName) = pydantic it
  /\ registry_ (TrackFieldType it typeName) = registry_ it
  /\ (forall imp, In imp (typing it) ->
                  In imp (typing (TrackFieldType it typeName)))
  /\ (datetime it = true -> datetime (TrackFieldType it typeName) = true)
  /\ (forall name, GoMap.lookup (enums it) name = Some true ->
                   GoMap.lookup (enums (TrackFieldType it typeName)) name
                   = Some true)
  /\ (forall name, GoMap.lookup (models it) name = Some true ->
                   GoMap.lookup (models (TrackFieldType it typeName)) name
                   = Some true).
Proof.
  rewrite TrackFieldType_ops.
  split; [apply applyOps_pydantic|].
  split; [apply applyOps_registry|].
  split.
  { intros imp Hin. apply containsString_In.
    apply (@satisfied_fold (OpTyping imp)). now apply containsString_In. }
  split; [apply (@satisfied_fold OpDatetime)|].
  split.
  - intros name. apply (@satisfied_fold (OpEnum name)).
  - intros name. apply (@satisfied_fold (OpModel name)).
Qed.

End TrackerMonotone.

(** ** Generate and the tracker it leaves behind *)

Lemma sort_Strings_idempotent (l : list string) :
  sort.Strings (sort.Strings l) = sort.Strings l.
Proof.
  apply sort_Strings_permutation_invariant, Permutation_sym,
    sort_Strings_perm.
Qed.

Section GenerateTwice.

Context {H : Helpers}.

Lemma Generate_tracker (it : ImportTracker) (cb : formatdef.ContentBuilder) :
  fst (Generate it cb) = withTyping it (sort.Strings (typing it)).
Proof.
  unfold Generate. destruct it as [p t d e m r].
  cbn [pydantic typing datetime enums models].
  destruct p; destruct t; destruct d; destruct e; destruct m; reflexivity.
Qed.

(** X5.  [Generate] sorts the typing imports of the tracker in place and
    changes nothing else of it; a second [Generate] on the tracker it
    leaves behind writes the same import section. *)
Theorem Generate_sorts_in_place (it : ImportTracker)
    (cb cb' : formatdef.ContentBuilder) :
  typing (fst (Generate it cb)) = sort.Strings (typing it)
  /\ StronglySorted sle (typing (fst (Generate it cb)))
  /\ pydantic (fst (Generate it cb)) = pydantic it
  /\ datetime (fst (Generate it cb)) = datetime it
  /\ enums (fst (Generate it cb)) = enums it
  /\ models (fst (Generate it cb)) = models it
  /\ registry_ (fst (Generate it cb)) = registry_ it
  /\ formatdef.lines (snd (Generate (fst (Generate it cb)) cb'))
     = formatdef.lines (snd (Generate it cb')).
Proof.
  rewrite Generate_tracker. cbn [withTyping typing pydantic datetime enums
                                   models registry_].
  split; [reflexivity|]. split; [apply sort_Strings_sorted|].
  do 5 (split; [reflexivity|]).
  rewrite !Generate_lines.
  cbn [withTyping typing pydantic datetime enums models].
  now rewrite sort_Strings_idempotent.
Qed.

End GenerateTwice.

(** ** The guard of the model imports *)

Lemma addOne_guard (l : list string) (imports : list string) (x : string) :
  containsString l x = true ->
  containsString (fold_left addOne imports l) x = true.
Proof. apply fold_addOne_keeps. Qed.

Section Guard.

Context {H : Helpers}.

Lemma modelsGuarded_AddTyping (it : ImportTracker) (imports : list string) :
  modelsGuarded it -> modelsGuarded (AddTyping it imports).
Proof.
  unfold modelsGuarded, AddTyping. cbn [models typing].
  intros Hg Hm. apply fold_addOne_keeps. now apply Hg.
Qed.

Lemma modelsGuarded_trackInner (it : ImportTracker) (innerType : string) :
  modelsGuarded it -> modelsGuarded (trackInner it innerType).
Proof.
  intros Hg. unfold trackInner.
  destruct (negb (String.eqb innerType "") && negb (isBasicType innerType));
    [|exact Hg].
  cbv zeta. destruct (String.eqb _ "enum"); [exact Hg|].
  destruct (String.eqb _ "model"); [|exact Hg].
  intros _. unfold AddTyping. cbn [typing fold_left]. apply addOne_contains.
Qed.

Lemma modelsGuarded_fold_trackInner (inner : list string)
    (it : ImportTracker) :
  modelsGuarded it -> modelsGuarded (fold_left trackInner inner it).
Proof.
  revert it. induction inner as [|x xs IH]; intros it Hg; simpl; [exact Hg|].
  apply IH. now apply modelsGuarded_trackInner.
Qed.

Lemma modelsGuarded_trackIf (cond : bool) (imp : string)
    (it : ImportTracker) :
  modelsGuarded it -> modelsGuarded (trackIf cond imp it).
Proof.
  intros Hg. unfold trackIf. destruct cond; [|exact Hg].
  now apply modelsGuarded_AddTyping.
Qed.

Lemma modelsGuarded_TrackFieldType (it : ImportTracker)
    (typeName : string) :
  modelsGuarded it -> modelsGuarded (TrackFieldType it typeName).
Proof.
  intros Hg. unfold TrackFieldType. cbv zeta.
  apply modelsGuarded_fold_trackInner.
  match goal with
  | |- modelsGuarded (if ?c then setDatetime ?x else ?x) =>
      assert (Hx : modelsGuarded x);
      [|destruct c; [exact Hx | exact Hx]]
  end.
  repeat apply modelsGuarded_trackIf. exact Hg.
Qed.

(** X6.  [TrackFieldType], [AddTyping] and [AddPydantic] keep the guard:
    if every tracker that holds a model import also holds the typing
    import [TYPE_CHECKING], so does the tracker after the call; a new
    tracker holds no model import. *)
Theorem modelsGuarded_kept (it : ImportTracker) (typeName : string)
    (imports : list string) (r : registry.Registry) :
  modelsGuarded (NewImportTracker r)
  /\ (modelsGuarded it -> modelsGuarded (TrackFieldType it typeName))
  /\ (modelsGuarded it -> modelsGuarded (AddTyping it imports))
  /\ (modelsGuarded it -> modelsGuarded (AddPydantic it imports)).
Proof.
  split; [intros Hm; now contradiction Hm|].
  split; [apply modelsGuarded_TrackFieldType|].
  split; [apply modelsGuarded_AddTyping | intros Hg; exact Hg].
Qed.

Lemma modelsGuarded_scan (r : registry.Registry)
    (fields : list formatdef.Field) (st : scanState) :
  modelsGuarded (imports st) ->
  modelsGuarded (imports (fold_left (scanField r) fields st)).
Proof.
  revert st. induction fields as [|f fs IH]; intros st Hg; simpl; [exact Hg|].
  apply IH. unfold scanField. destruct (isNav f); [exact Hg|].
  destruct (isPolyTypeField f); cbn [imports];
    now apply modelsGuarded_TrackFieldType.
Qed.

Lemma modelsGuarded_scanNav (fields : list formatdef.Field)
    (it : ImportTracker) :
  modelsGuarded it -> modelsGuarded (fold_left scanNav fields it).
Proof.
  revert it. induction fields as [|f fs IH]; intros it Hg; simpl; [exact Hg|].
  apply IH. unfold scanNav. destruct (isNav f); [|exact Hg].
  now apply modelsGuarded_TrackFieldType.
Qed.

Lemma scanModel_guarded (model : formatdef.Struct) (config : PydanticConfig)
    (morpheConfig : cfg.MorpheConfig) (r : registry.Registry) :
  modelsGuarded (imports (scanModel model config morpheConfig r)).
Proof.
  unfold scanModel. cbv zeta. cbn [imports].
  assert (H0 : modelsGuarded
                 (fold_left scanNav (formatdef.Fields model)
                    (imports
                       (fold_left (scanField r) (formatdef.Fields model)
                          {| imports :=
                               if cfg.UseField (cfg.Models morpheConfig)
                               then AddPydantic
                                      (AddPydantic (NewImportTracker r)
                                         ["BaseModel"]) ["Field"]
                               else AddPydantic (NewImportTracker r)
                                      ["BaseModel"];
                             needsModelConfig := false;
                             hasPolymorphicTypeField := false;
                             polymorphicTypeToNavMap := [] |})))).
  { apply modelsGuarded_scanNav, modelsGuarded_scan. cbn [imports].
    destruct (cfg.UseField _); intros Hm; now contradiction Hm. }
  destruct (AddTypeHints config);
    destruct (hasPolymorphicTypeField _);
    repeat apply modelsGuarded_AddTyping; exact H0.
Qed.

(** X7.  Whenever the declaration of a model has the guarded block of
    model imports, its typing import line names [TYPE_CHECKING]: the block
    line and the typing line are both in the output, and the names of the
    typing line include [TYPE_CHECKING]. *)
Theorem type_checking_guard_imported (model : formatdef.Struct)
    (config : PydanticConfig) (morpheConfig : cfg.MorpheConfig)
    (r : registry.Registry) :
  models (imports (scanModel model config morpheConfig r)) <> [] ->
  In "TYPE_CHECKING"
    (sort.Strings (typing (imports (scanModel model config morpheConfig r))))
  /\ In (typingImportText
           (sort.Strings
              (typing (imports (scanModel model config morpheConfig r)))))
       (generateModelLines model config morpheConfig r)
  /\ In "if TYPE_CHECKING:"
       (generateModelLines model config morpheConfig r).
Proof.
  intros Hm.
  pose proof (scanModel_guarded model config morpheConfig r Hm) as Hg.
  apply containsString_In in Hg.
  set (it := imports (scanModel model config morpheConfig r)) in *.
  assert (Hs : In "TYPE_CHECKING" (sort.Strings (typing it))).
  { eapply Permutation_in; [apply sort_Strings_perm | exact Hg]. }
  split; [exact Hs|].
  rewrite generateModelLines_shape. unfold headerLines. fold it.
  rewrite Generate_lines. unfold importSectionLines.
  cbn [formatdef.lines formatdef.NewContentBuilder app].
  destruct (sort.Strings (typing it)) as [|t0 ts] eqn:Et; [contradiction|].
  destruct (sort.Strings (GoMap.keys (models it))) as [|m0 ms] eqn:Em.
  { exfalso. destruct (models it) as [|[k v] rest]; [now apply Hm|].
    revert Em. apply sort_Strings_nonempty. }
  split.
  - apply in_or_app. left. apply in_or_app. left. apply in_or_app. left.
    apply in_map_iff. exists (typingImportText (t0 :: ts)).
    split; [reflexivity|]. apply in_or_app. right. now left.
  - apply in_or_app. left. apply in_or_app. left. apply in_or_app. right.
    now left.
Qed.

End Guard.

Lemma type_checking_guard_imported_witness :
  In "if TYPE_CHECKING:"
    (@generateModelLines SpecHelpers.helpers companyStruct defaultConfig
       emptyMorpheConfig exampleRegistry).
Proof.
  assert (Hm : models
                 (imports
                    (@scanModel SpecHelpers.helpers companyStruct
                       defaultConfig emptyMorpheConfig exampleRegistry))
               <> []).
  { vm_compute. discriminate. }
  exact (proj2 (proj2 (@type_checking_guard_imported SpecHelpers.helpers
                         companyStruct defaultConfig emptyMorpheConfig
                         exampleRegistry Hm))).
Defined.

(** ** The first line, the empty declaration, the navigation lines *)

Section ModelOutput.

Context {H : Helpers}.

Lemma TrackFieldType_pydantic (it : ImportTracker) (typeName : string) :
  pydantic (TrackFieldType it typeName) = pydantic it.
Proof. rewrite TrackFieldType_ops. apply applyOps_pydantic. Qed.

Lemma scan_pydantic (r : registry.Registry) (fields : list formatdef.Field)
    (st : scanState) :
  pydantic (imports (fold_left (scanField r) fields st))
  = pydantic (imports st).
Proof.
  revert st. induction fields as [|f fs IH]; intros st; simpl; [reflexivity|].
  rewrite IH. unfold scanField. destruct (isNav f); [reflexivity|].
  destruct (isPolyTypeField f); cbn [imports]; apply TrackFieldType_pydantic.
Qed.

Lemma scanNav_pydantic (fields : list formatdef.Field) (it : ImportTracker) :
  pydantic (fold_left scanNav fields it) = pydantic it.
Proof.
  revert it. induction fields as [|f fs IH]; intros it; simpl; [reflexivity|].
  rewrite IH. unfold scanNav. destruct (isNav f); [|reflexivity].
  apply TrackFieldType_pydantic.
Qed.

Lemma scanModel_pydantic (model : formatdef.Struct) (config : PydanticConfig)
    (morpheConfig : cfg.MorpheConfig) (r : registry.Registry) :
  pydantic (imports (scanModel model config morpheConfig r))
  = if cfg.UseField (cfg.Models morpheConfig)
    then ["BaseModel"; "Field"] else ["BaseModel"].
Proof.
  unfold scanModel. cbv zeta. cbn [imports].
  assert (E : forall (it : ImportTracker) (b : bool) (imp : string),
             pydantic (if b then AddTyping it [imp] else it) = pydantic it).
  { intros it b imp. now destruct b. }
  rewrite !E, scanNav_pydantic, scan_pydantic. cbn [imports].
  now destruct (cfg.UseField _).
Qed.

(** X8.  The declaration of a model always starts with the pydantic
    import: of [BaseModel] alone, or of [BaseModel] and [Field] when the
    models are configured to use [Field]; no field type and no other
    option changes this line. *)
Theorem model_starts_with_pydantic_import (model : formatdef.Struct)
    (config : PydanticConfig) (morpheConfig : cfg.MorpheConfig)
    (r : registry.Registry) :
  exists rest,
    generateModelLines model config morpheConfig r
    = (if cfg.UseField (cfg.Models morpheConfig)
       then "from pydantic import BaseModel, Field"
       else "from pydantic import BaseModel") :: rest.
Proof.
  rewrite generateModelLines_shape. unfold headerLines.
  rewrite Generate_lines, scanModel_pydantic. unfold importSectionLines.
  cbn [formatdef.lines formatdef.NewContentBuilder app].
  destruct (cfg.UseField _); cbn [map app]; rewrite <- !app_assoc;
    cbn [app]; eexists; reflexivity.
Qed.

(** X9.  A struct without fields is rendered as a class whose body is the
    documentation string and [pass]: the pydantic import, the typing
    import of [Optional] when type hints are on, two empty lines, the
    class line, the documentation string, [pass]. *)
Theorem empty_model_body_is_pass (name : string) (config : PydanticConfig)
    (morpheConfig : cfg.MorpheConfig) (r : registry.Registry) :
  generateModelLines (formatdef.mkStruct name []) config morpheConfig r
  = ((if cfg.UseField (cfg.Models morpheConfig)
      then "from pydantic import BaseModel, Field"
      else "from pydantic import BaseModel")
     :: (if AddTypeHints config
         then ["from typing import Optional"] else [])
     ++ [ EmptyString; EmptyString; classLine name;
          docLine name " model."; "    pass" ])%list.
Proof.
  unfold generateModelLines, generateModelBuilder, scanModel.
  destruct morpheConfig as [[u]]. cbn [cfg.UseField cfg.Models].
  destruct (AddTypeHints config), u; reflexivity.
Qed.

Lemma nav_line_in_output (model : formatdef.Struct)
    (config : PydanticConfig) (morpheConfig : cfg.MorpheConfig)
    (r : registry.Registry) (field : formatdef.Field) :
  In field (formatdef.Fields model) ->
  isRenderedNav model field = true ->
  In (String.append "    " (navFieldText field))
    (generateModelLines model config morpheConfig r).
Proof.
  intros Hin Hr. rewrite generateModelLines_shape.
  apply in_or_app. right.
  destruct (formatdef.Fields model) as [|f fs] eqn:Ef; [contradiction|].
  rewrite <- Ef in *. apply in_or_app. right. apply in_or_app. left.
  unfold renderedNavLines.
  apply (in_map (fun f0 => String.append "    " (navFieldText f0))).
  apply filter_In. split; assumption.
Qed.

(** X10.  A navigation property for which no field [<relation>_type] or
    [<relation>_id] exists is rendered, whatever the configuration (also
    with type hints off), as [name: Optional[T] = None], where [T] is the
    type name for a list or a union and the quoted type name otherwise. *)
Theorem navigation_line_always_optional (model : formatdef.Struct)
    (config : PydanticConfig) (morpheConfig : cfg.MorpheConfig)
    (r : registry.Registry) (field : formatdef.Field) :
  In field (formatdef.Fields model) ->
  isNav field = true ->
  hasPolyFields model (strings.TrimPrefix (formatdef.Name field) "_nav_")
  = false ->
  In ("    "
      ++ SanitizePythonIdentifier
           (ToSnakeCase (strings.TrimPrefix (formatdef.Name field) "_nav_"))
      ++ ": Optional[" ++ navTypeText field ++ "] = None")
    (generateModelLines model config morpheConfig r).
Proof.
  intros Hin Hnav Hpoly.
  assert (Hr : isRenderedNav model field = true).
  { unfold isRenderedNav. now rewrite Hnav, Hpoly. }
  pose proof (nav_line_in_output model config morpheConfig r field Hin Hr)
    as Hline.
  unfold navFieldText in Hline. unfold navTypeText.
  destruct (strings.HasPrefix _ "List["); [exact Hline|].
  destruct (strings.Contains _ "Union["); [exact Hline|].
  cbn [orb].
  assert (A : forall a b c : string, (a ++ b) ++ c = a ++ b ++ c).
  { induction a as [|x a IH]; intros b c; simpl;
      [reflexivity | now rewrite IH]. }
  rewrite !A. exact Hline.
Qed.

End ModelOutput.

Lemma navigation_line_always_optional_witness :
  In "    person: Optional['Person'] = None"
    (@generateModelLines SpecHelpers.helpers contactInfoStruct noHintsConfig
       emptyMorpheConfig exampleRegistry).
Proof.
  assert (Hin : In (formatdef.mkField "_nav_Person"
                      (formatdef.BasicType "Person"))
                  (formatdef.Fields contactInfoStruct)).
  { simpl. do 3 right. left. reflexivity. }
  exact (@navigation_line_always_optional SpecHelpers.helpers
           contactInfoStruct noHintsConfig emptyMorpheConfig
           exampleRegistry _ Hin eq_refl eq_refl).
Defined.

(** ** The batch compilers *)

Section Batches.

Context {H : Helpers}.

Lemma compileModels_result (config : PydanticConfig)
    (morpheConfig : cfg.MorpheConfig) (r : registry.Registry)
    (ms : GoMap.t yaml.Model) (acc : GoMap.t string) :
  NoDup (GoMap.keys ms) ->
  exists out,
    compileModels config morpheConfig r ms acc = Ok out
    /\ (forall name model,
           In (name, model) ms ->
           exists s,
             CompileModel model r = Ok s
             /\ GoMap.lookup out name
                = Some (generateModelContent s config morpheConfig r))
    /\ (forall k, ~ In k (GoMap.keys ms) ->
                  GoMap.lookup out k = GoMap.lookup acc k).
Proof.
  revert acc. induction ms as [|[n m] ms IH]; intros acc Hnd.
  - exists acc. simpl. repeat split; auto. contradiction.
  - simpl in Hnd. inversion Hnd as [|? ? Hnotin Hnd']; subst.
    cbn [compileModels]. unfold compileOne.
    rewrite CompileModel_fields.
    set (s := formatdef.mkStruct (yaml.Name m) (compiledFields m r)).
    destruct (IH (GoMap.set acc n
                    (generateModelContent s config morpheConfig r)) Hnd')
      as (out & Hout & Hin & Hother).
    exists out. split; [exact Hout|]. split.
    + intros name model [E | Hm].
      * inversion E; subst. exists s.
        split; [apply CompileModel_fields|].
        rewrite (Hother name Hnotin), set_lookup, String.eqb_refl.
        reflexivity.
      * apply Hin. exact Hm.
    + intros k Hk. simpl in Hk.
      rewrite Hother by (intros Hin'; apply Hk; now right).
      rewrite set_lookup.
      destruct (String.eqb_spec n k) as [-> | Hne]; [|reflexivity].
      exfalso. apply Hk. now left.
Qed.

(** X11.  [CompileAllModels] never fails: for a registry whose model names
    are the keys of a map, it returns a content for every model, the text
    [generateModelContent] renders for the struct [CompileModel] returns,
    and for no other name. *)
Theorem CompileAllModels_contents (config : PydanticConfig)
    (morpheConfig : cfg.MorpheConfig) (r : registry.Registry) :
  NoDup (GoMap.keys (registry.GetAllModels r)) ->
  exists modelContents,
    CompileAllModels config morpheConfig r = Ok modelContents
    /\ (forall name model,
           In (name, model) (registry.GetAllModels r) ->
           exists s,
             CompileModel model r = Ok s
             /\ GoMap.lookup modelContents name
                = Some (generateModelContent s config morpheConfig r))
    /\ (forall name,
           GoMap.lookup modelContents name <> None ->
           In name (GoMap.keys (registry.GetAllModels r))).
Proof.
  intros Hnd. unfold CompileAllModels.
  destruct (compileModels_result config morpheConfig r
              (registry.GetAllModels r) [] Hnd)
    as (out & Hout & Hin & Hother).
  exists out. split; [exact Hout|]. split; [exact Hin|].
  intros name Hl.
  destruct (in_dec string_dec name (GoMap.keys (registry.GetAllModels r)))
    as [Hi | Hn]; [exact Hi|].
  rewrite (Hother name Hn) in Hl. now contradiction Hl.
Qed.

Variable mapFieldType :
  string -> string -> registry.Registry -> result formatdef.Typ.

Lemma compileStructureFields_result (structure : Structure)
    (r : registry.Registry) (fieldNames : list string)
    (fields : list formatdef.Field) :
  match compileStructureFields mapFieldType structure r fieldNames fields with
  | Ok out =>
      exists added,
        out = (fields ++ added)%list
        /\ map formatdef.Name added = fieldNames
        /\ (forall f, In f added ->
                      mapFieldType (schemaType structure (formatdef.Name f))
                        (formatdef.Name f) r
                      = Ok (formatdef.Type_ f))
  | Err msg =>
      exists before k after err,
        fieldNames = (before ++ k :: after)%list
        /\ (forall k', In k' before ->
                       exists t,
                         mapFieldType (schemaType structure k') k' r = Ok t)
        /\ mapFieldType (schemaType structure k) k r = Err err
        /\ msg = "failed to map field type for " ++ k ++ ": " ++ err
  end.
Proof.
  revert fields. induction fieldNames as [|k ks IH]; intros fields.
  - simpl. exists []. rewrite app_nil_r. repeat split. contradiction.
  - cbn [compileStructureFields].
    fold (schemaType structure k).
    destruct (mapFieldType (schemaType structure k) k r) as [t | err] eqn:Ek.
    + specialize (IH (fields ++ [formatdef.mkField k t])%list).
      destruct (compileStructureFields mapFieldType structure r ks _)
        as [out | msg].
      * destruct IH as (added & -> & Hn & Hok).
        exists (formatdef.mkField k t :: added).
        split; [now rewrite <- app_assoc|].
        split; [simpl; now rewrite Hn|].
        intros f [<- | Hf]; [exact Ek | now apply Hok].
      * destruct IH as (before & k0 & after & err & -> & Hb & Hk & ->).
        exists (k :: before), k0, after, err.
        split; [reflexivity|]. split; [|split; [exact Hk | reflexivity]].
        intros k' [<- | Hk']; [now exists t | now apply Hb].
    + exists [], k, ks, err. repeat split; auto. contradiction.
Qed.

(** X12.  [CompileStructure] succeeds with the fields in the sorted order
    of their names, each with the type the type mapper returns for it; it
    fails as soon as the mapper fails, with the message that names the
    first field, in sorted order, whose type does not map, followed by the
    mapper's error. *)
Theorem CompileStructure_result (structure : Structure)
    (r : registry.Registry) :
  match CompileStructure mapFieldType structure r with
  | Ok s =>
      formatdef.StructName s = StructureName structure
      /\ map formatdef.Name (formatdef.Fields s)
         = sort.Strings (GoMap.keys (StructureFields structure))
      /\ (forall f, In f (formatdef.Fields s) ->
                    mapFieldType (schemaType structure (formatdef.Name f))
                      (formatdef.Name f) r
                    = Ok (formatdef.Type_ f))
  | Err msg =>
      exists before k after err,
        sort.Strings (GoMap.keys (StructureFields structure))
        = (before ++ k :: after)%list
        /\ (forall k', In k' before ->
                       exists t,
                         mapFieldType (schemaType structure k') k' r = Ok t)
        /\ mapFieldType (schemaType structure k) k r = Err err
        /\ msg = "failed to map field type for " ++ k ++ ": " ++ err
  end.
Proof.
  unfold CompileStructure. cbv zeta.
  pose proof (compileStructureFields_result structure r
                (sort.Strings (GoMap.keys (StructureFields structure))) [])
    as Hr.
  destruct (compileStructureFields mapFieldType structure r _ [])
    as [out | msg].
  - destruct Hr as (added & -> & Hn & Hok). simpl. auto.
  - exact Hr.
Qed.

(** X13.  [CompileAllStructures] either returns, for every structure, the
    text [generateStructureContent] renders for its compiled struct, or
    fails with the name of a structure that does not compile and the error
    of [CompileStructure]; it returns no contents as soon as one structure
    fails. *)
Theorem CompileAllStructures_result (config : PydanticConfig)
    (r : registry.Registry) (allStructures : GoMap.t Structure) :
  NoDup (GoMap.keys allStructures) ->
  match CompileAllStructures mapFieldType config r allStructures with
  | Ok structureContents =>
      forall name structure,
        In (name, structure) allStructures ->
        exists s,
          CompileStructure mapFieldType structure r = Ok s
          /\ GoMap.lookup structureContents name
             = Some (generateStructureContent s config)
  | Err msg =>
      exists name structure err,
        In (name, structure) allStructures
        /\ CompileStructure mapFieldType structure r = Err err
        /\ msg = "failed to compile structure " ++ name ++ ": " ++ err
  end.
Proof.
  unfold CompileAllStructures. generalize (@nil (string * string)).
  induction allStructures as [|[n st] ss IH]; intros acc Hnd.
  - simpl. contradiction.
  - simpl in Hnd. inversion Hnd as [|? ? Hnotin Hnd']; subst.
    cbn [compileStructures].
    destruct (CompileStructure mapFieldType st r) as [cs | err] eqn:Ec.
    + assert (Hkeep : forall ss' acc' out,
                 ~ In n (GoMap.keys ss') ->
                 compileStructures mapFieldType config r ss' acc' = Ok out ->
                 GoMap.lookup out n = GoMap.lookup acc' n).
      { induction ss' as [|[n' st'] ss' IH']; intros acc' out Hn Hc.
        - simpl in Hc. now inversion Hc.
        - cbn [compileStructures] in Hc.
          destruct (CompileStructure mapFieldType st' r); [|discriminate].
          rewrite (IH' _ _ (fun Hi => Hn (or_intror Hi)) Hc), set_lookup.
          destruct (String.eqb_spec n' n) as [-> | Hne]; [|reflexivity].
          exfalso. apply Hn. now left. }
      specialize (IH (GoMap.set acc n (generateStructureContent cs config))
                    Hnd').
      destruct (compileStructures mapFieldType config r ss _)
        as [out | msg] eqn:Eo.
      * intros name structure [E | Hs].
        -- inversion E; subst. exists cs. split; [exact Ec|].
           rewrite (Hkeep _ _ _ Hnotin Eo), set_lookup, String.eqb_refl.
           reflexivity.
        -- now apply IH.
      * destruct IH as (name & structure & err & Hin & Hc & ->).
        exists name, structure, err. repeat split; auto. now right.
    + exists n, st, err. repeat split; auto. now left.
Qed.

End Batches.

Lemma CompileAllModels_contents_witness :
  exists modelContents,
    @CompileAllModels SpecHelpers.helpers defaultConfig emptyMorpheConfig
      exampleRegistry = Ok modelContents
    /\ GoMap.lookup modelContents "Company"
       = Some (@generateModelContent SpecHelpers.helpers companyStruct
                 defaultConfig emptyMorpheConfig exampleRegistry).
Proof.
  assert (Hnd : NoDup (GoMap.keys (registry.GetAllModels exampleRegistry))).
  { cbn. repeat constructor; cbn; intuition discriminate. }
  destruct (@CompileAllModels_contents SpecHelpers.helpers defaultConfig
              emptyMorpheConfig exampleRegistry Hnd)
    as (modelContents & Hok & Hall & _).
  exists modelContents. split; [exact Hok|].
  destruct (Hall "Company" Company (or_introl eq_refl)) as (s & Hs & Hl).
  rewrite Hl. f_equal. f_equal.
  assert (Hc : @CompileModel SpecHelpers.helpers Company exampleRegistry
               = Ok companyStruct) by reflexivity.
  rewrite Hc in Hs. now injection Hs as <-.
Defined.

Lemma CompileAllStructures_result_witness :
  match @CompileAllStructures SpecHelpers.helpers exampleMapFieldType
          defaultConfig structureRegistry exampleStructures with
  | Ok structureContents =>
      forall name structure,
        In (name, structure) exampleStructures ->
        exists s,
          CompileStructure exampleMapFieldType structure structureRegistry
          = Ok s
          /\ GoMap.lookup structureContents name
             = Some (@generateStructureContent SpecHelpers.helpers s
                       defaultConfig)
  | Err msg =>
      exists name structure err,
        In (name, structure) exampleStructures
        /\ CompileStructure exampleMapFieldType structure structureRegistry
           = Err err
        /\ msg = "failed to compile structure " ++ name ++ ": " ++ err
  end.
Proof.
  apply (@CompileAllStructures_result SpecHelpers.helpers
           exampleMapFieldType defaultConfig structureRegistry
           exampleStructures).
  cbn. repeat constructor; cbn; intuition discriminate.
Defined.

(** ** The whole text of a structure *)

Section StructureText.

Context {H : Helpers}.

Lemma scanStructField_flags (fields : list formatdef.Field)
    (st : structImports) :
  hasDate (fold_left scanStructField fields st)
  = hasDate st || existsb isDatetimeField fields
  /\ hasDict (fold_left scanStructField fields st)
     = hasDict st || existsb isDictField fields
  /\ hasList (fold_left scanStructField fields st)
     = hasList st || existsb isListField fields.
Proof.
  revert st. induction fields as [|f fs IH]; intros st.
  - simpl. now rewrite !orb_false_r.
  - cbn [fold_left existsb]. destruct (IH (scanStructField st f))
      as (Hd & Hi & Hl). rewrite Hd, Hi, Hl. clear Hd Hi Hl IH.
    unfold scanStructField.
    destruct (isDatetimeField f) eqn:Ed.
    { unfold isDatetimeField in Ed. rewrite Ed.
      apply String.eqb_eq in Ed.
      assert (Ei : isDictField f = false)
        by (unfold isDictField; now rewrite Ed).
      assert (El : isListField f = false)
        by (unfold isListField; now rewrite Ed).
      rewrite Ei, El. cbn [hasDate hasDict hasList orb].
      now rewrite orb_true_r. }
    unfold isDatetimeField in Ed. rewrite Ed.
    destruct (isDictField f) eqn:Ei.
    { unfold isDictField in Ei. rewrite Ei.
      apply String.eqb_eq in Ei.
      assert (El : isListField f = false)
        by (unfold isListField; now rewrite Ei).
      rewrite El. cbn [hasDate hasDict hasList orb].
      now rewrite orb_true_r. }
    unfold isDictField in Ei. rewrite Ei.
    destruct (isListField f) eqn:El; unfold isListField in El; rewrite El;
      cbn [hasDate hasDict hasList orb]; now rewrite ?orb_true_r.
Qed.

(** X14.  The text of a structure, in full: the pydantic import (with
    [Field] under Pydantic v2); with type hints on, the typing import of
    [Optional], of [Dict] and [Any] when a field has the type
    [Dict[str, Any]], of [List] when a field type starts with [List[], and
    the datetime import when a field has the type [datetime] itself; two
    empty lines, the class line, the documentation string; one line
    [name: type] per field, in the order of the struct and also with type
    hints off; the configuration block when it is needed. *)
Theorem generateStructureLines_exact (structure : formatdef.Struct)
    (config : PydanticConfig) :
  generateStructureLines structure config
  = (structHeaderLines structure config
     ++ docLine (formatdef.StructName structure) " data transfer object."
        :: renderedStructLines structure
     ++ (if structNeedsConfig structure config
         then "    " :: configBlockV2 else []))%list.
Proof.
  unfold generateStructureLines, generateStructureBuilder, structNeedsConfig,
    structHeaderLines, structTypingImports.
  destruct (scanStructField_flags (formatdef.Fields structure)
              {| hasDate := false; hasDict := false; hasList := false |})
    as (Hd & Hi & Hl).
  cbn [hasDate hasDict hasList orb] in Hd, Hi, Hl.
  set (st := fold_left scanStructField (formatdef.Fields structure) _) in *.
  cbv zeta. rewrite Hd, Hi, Hl. clear Hd Hi Hl. clearbody st.
  match goal with
  | |- context [fold_left _ (formatdef.Fields structure) ?c] => set (cb1 := c)
  end.
  assert (Hcb1 : formatdef.level cb1 = 1 /\ formatdef.indentStr cb1 = "    "
                 /\ formatdef.lines cb1
                    = (structHeaderLines structure config
                       ++ [docLine (formatdef.StructName structure)
                             " data transfer object."])%list).
  { subst cb1. unfold structHeaderLines, structTypingImports, docLine,
      typingImportText, formatdef.FormatList.
    destruct (PydanticV2 config), (AddTypeHints config),
      (existsb isDictField (formatdef.Fields structure)),
      (existsb isListField (formatdef.Fields structure)),
      (existsb isDatetimeField (formatdef.Fields structure));
      (split; [reflexivity|]; split; reflexivity). }
  destruct Hcb1 as (Hl & Hi & Hb).
  destruct (struct_fields_lines (formatdef.Fields structure) cb1 Hl Hi)
    as (Lf & Vf & If_).
  cbv zeta in Lf, Vf, If_.
  fold (renderedStructLines structure) in Lf.
  set (cb2 := fold_left _ (formatdef.Fields structure) cb1) in *.
  unfold structHeaderLines, structTypingImports in Hb.
  destruct (PydanticV2 config); cbn [andb].
  - destruct (existsb looksLikeEnum (formatdef.Fields structure)).
    + destruct cb2 as [i l ls].
      cbn [formatdef.lines formatdef.level formatdef.indentStr]
        in Lf, Vf, If_.
      subst i l.
      cbn [formatdef.lines formatdef.level formatdef.indentStr formatdef.Line
           formatdef.Indent formatdef.Dedent formatdef.indented
           formatdef.indentation pred].
      rewrite Lf, Hb. unfold configBlockV2.
      rewrite <- !app_assoc. cbn [app]. rewrite <- ?app_assoc. reflexivity.
    + change (formatdef.lines (formatdef.Dedent cb2))
        with (formatdef.lines cb2).
      rewrite Lf, Hb, <- !app_assoc, app_nil_r. reflexivity.
  - change (formatdef.lines (formatdef.Dedent cb2))
      with (formatdef.lines cb2).
    rewrite Lf, Hb, <- !app_assoc, app_nil_r. reflexivity.
Qed.

End StructureText.

(** ** Plain names through the functions of [strings] *)

Lemma string_app_assoc (a b c : string) : (a ++ b) ++ c = a ++ b ++ c.
Proof. induction a as [|x a IH]; simpl; [reflexivity | now rewrite IH]. Qed.

Lemma string_app_nil_r (a : string) : a ++ "" = a.
Proof. induction a as [|x a IH]; simpl; [reflexivity | now rewrite IH]. Qed.

Lemma string_length_app (a b : string) :
  String.length (a ++ b) = String.length a + String.length b.
Proof. induction a as [|x a IH]; simpl; [reflexivity | now rewrite IH]. Qed.

Lemma string_of_list_ascii_app (l1 l2 : list ascii) :
  string_of_list_ascii (l1 ++ l2)
  = string_of_list_ascii l1 ++ string_of_list_ascii l2.
Proof. induction l1 as [|x l IH]; simpl; [reflexivity | now rewrite IH]. Qed.

Lemma strings_rev_involutive (s : string) : strings.rev (strings.rev s) = s.
Proof.
  unfold strings.rev.
  now rewrite list_ascii_of_string_of_list_ascii, rev_involutive,
    string_of_list_ascii_of_string.
Qed.

Lemma strings_rev_app (a b : string) :
  strings.rev (a ++ b) = strings.rev b ++ strings.rev a.
Proof.
  unfold strings.rev.
  now rewrite list_ascii_app, rev_app_distr, string_of_list_ascii_app.
Qed.

Lemma isPlainName_app (a b : string) :
  isPlainName (a ++ b) = isPlainName a && isPlainName b.
Proof.
  induction a as [|x a IH]; simpl; [reflexivity|].
  now rewrite IH, andb_assoc.
Qed.

Lemma isPlainName_rev (s : string) :
  isPlainName s = true -> isPlainName (strings.rev s) = true.
Proof.
  induction s as [|c s IH]; [reflexivity|].
  simpl. intros Hp. apply andb_true_iff in Hp as [Hc Hs].
  change (String c s) with (String c "" ++ s).
  rewrite strings_rev_app, isPlainName_app, (IH Hs).
  unfold strings.rev. simpl. now rewrite Hc.
Qed.

Lemma plain_ReplaceAll (s : string) (old new : ascii) :
  (forall c, isPlainChar c = true -> Ascii.eqb c old = false) ->
  isPlainName s = true -> strings.ReplaceAll s old new = s.
Proof.
  intros Hold. induction s as [|c s IH]; [reflexivity|].
  simpl. intros Hp. apply andb_true_iff in Hp as [Hc Hs].
  now rewrite (Hold c Hc), (IH Hs).
Qed.

(** [Fields] splits at white space that is not ASCII as well: here at
    U+00A0, whose encoding is [C2 A0]. *)
Lemma Fields_no_break_space :
  strings.Fields
    ("List"
     ++ String (ascii_of_nat 194) (String (ascii_of_nat 160) "Person int"))
  = ["List"; "Person"; "int"].
Proof. reflexivity. Qed.

Lemma plain_fieldsAux (s : string) (cur : list ascii) :
  hasWhiteSpace s = false -> (cur <> [] \/ s <> "") ->
  strings.fieldsAux 0 cur s
  = [string_of_list_ascii (List.rev cur) ++ s].
Proof.
  revert cur. induction s as [|c s IH]; intros cur Hw Hne.
  - simpl. destruct cur as [|x cur].
    + destruct Hne as [Hc | Hs]; [now contradiction Hc | now contradiction Hs].
    + now rewrite string_app_nil_r.
  - cbn [hasWhiteSpace] in Hw. apply orb_false_iff in Hw as [Hc Hs].
    apply negb_false_iff, Nat.eqb_eq in Hc.
    cbn [strings.fieldsAux]. rewrite Hc.
    rewrite IH; [|exact Hs | left; discriminate].
    simpl. now rewrite string_of_list_ascii_app, string_app_assoc.
Qed.

Lemma plain_TrimLeft (s : string) :
  isPlainName s = true -> strings.TrimLeft s quoteCutset = s.
Proof.
  destruct s as [|c s]; [reflexivity|]. simpl. intros Hp.
  apply andb_true_iff in Hp as [Hc _].
  unfold isPlainChar in Hc.
  destruct (Ascii.eqb c "'" || (Ascii.eqb c (ascii_of_nat 34) || false))
    eqn:E; [|reflexivity].
  exfalso. unfold quoteCutset, dquote in Hc. simpl in Hc. rewrite E in Hc.
  simpl in Hc. rewrite ?andb_false_r in Hc. discriminate Hc.
Qed.

Lemma plain_Trim (s : string) :
  isPlainName s = true -> strings.Trim s quoteCutset = s.
Proof.
  intros Hp. unfold strings.Trim, strings.TrimRight.
  rewrite (plain_TrimLeft _ Hp), (plain_TrimLeft _ (isPlainName_rev _ Hp)).
  apply strings_rev_involutive.
Qed.

Lemma prefix_cons (a b : ascii) (s1 s2 : string) :
  String.prefix (String a s1) (String b s2)
  = if Ascii.eqb a b then String.prefix s1 s2 else false.
Proof.
  cbn [String.prefix]. destruct (ascii_dec a b) as [-> | Hne].
  - now rewrite Ascii.eqb_refl.
  - apply Ascii.eqb_neq in Hne. now rewrite Hne.
Qed.

Lemma prefix_nil_r (s : string) :
  String.prefix s "" = match s with EmptyString => true | _ => false end.
Proof. destruct s; reflexivity. Qed.

(** A plain name holds no text in which a character is not plain. *)
Lemma plain_not_prefix (s sub : string) (c0 : ascii) (rest : string) :
  isPlainName s = true -> isPlainChar c0 = false ->
  String.prefix (sub ++ String c0 rest) s = false.
Proof.
  intros Hp Hc0. revert s Hp. induction sub as [|x sub IH]; intros s Hp.
  - destruct s as [|c s]; [reflexivity|].
    cbn [String.append]. rewrite prefix_cons.
    destruct (Ascii.eqb_spec c0 c) as [-> | Hne]; [|reflexivity].
    simpl in Hp. apply andb_true_iff in Hp as [Hc _]. congruence.
  - destruct s as [|c s]; [reflexivity|].
    cbn [String.append]. rewrite prefix_cons.
    destruct (Ascii.eqb x c); [|reflexivity].
    simpl in Hp. apply andb_true_iff in Hp as [_ Hs]. now apply IH.
Qed.

Lemma plain_not_Contains (s sub : string) (c0 : ascii) (rest : string) :
  isPlainName s = true -> isPlainChar c0 = false ->
  strings.Contains s (sub ++ String c0 rest) = false.
Proof.
  intros Hp Hc0. induction s as [|c s IH].
  - cbn [strings.Contains]. rewrite orb_false_r.
    now apply plain_not_prefix.
  - cbn [strings.Contains]. rewrite plain_not_prefix by assumption.
    simpl in Hp. apply andb_true_iff in Hp as [_ Hs]. now rewrite IH.
Qed.

Lemma plain_no_bar (s : string) :
  isPlainName s = true -> strings.Contains s "|" = false.
Proof.
  intros Hp. apply (@plain_not_Contains s "" "|"%char "" Hp). reflexivity.
Qed.

(** The inner types of a plain name are the name itself. *)
Lemma extractAllInnerTypes_plain (typeName : string) :
  isPlainName typeName = true -> hasWhiteSpace typeName = false ->
  typeName <> "" ->
  extractAllInnerTypes typeName = [typeName].
Proof.
  intros Hp Hw Hne. unfold extractAllInnerTypes. cbv zeta.
  assert (Hkeep : forall old,
             (forall c, isPlainChar c = true -> Ascii.eqb c old = false) ->
             strings.ReplaceAll typeName old " " = typeName).
  { intros old Hold. now apply plain_ReplaceAll. }
  rewrite !Hkeep.
  - unfold strings.Fields. rewrite plain_fieldsAux; [|exact Hw | now right].
    simpl. rewrite (plain_Trim _ Hp), (plain_no_bar _ Hp).
    destruct (String.eqb_spec typeName ""); [contradiction | reflexivity].
  - intros c Hc. unfold isPlainChar in Hc.
    destruct (Ascii.eqb c ","); [|reflexivity].
    simpl in Hc. rewrite ?andb_false_r in Hc. discriminate Hc.
  - intros c Hc. unfold isPlainChar in Hc.
    destruct (Ascii.eqb c "]"); [|reflexivity].
    simpl in Hc. rewrite ?andb_false_r in Hc. discriminate Hc.
  - intros c Hc. unfold isPlainChar in Hc.
    destruct (Ascii.eqb c "["); [|reflexivity].
    simpl in Hc. discriminate Hc.
Qed.

(** ** Tracking a plain reference *)

Section PlainReference.

Context {H : Helpers}.

Lemma trackIf_frame (cond : bool) (imp : string) (it : ImportTracker) :
  enums (trackIf cond imp it) = enums it
  /\ models (trackIf cond imp it) = models it
  /\ registry_ (trackIf cond imp it) = registry_ it.
Proof. destruct cond; repeat split; reflexivity. Qed.

(** X15.  Tracking a plain name (no bracket, comma, quote or bar, and no
    white space in the sense of [strings.Fields], ASCII or not) that is not
    a basic type records it according to what the registry resolves it to:
    an enum is added to the enum imports, a model is added to the model
    imports together with the typing import [TYPE_CHECKING], anything else
    is added nowhere. *)
Theorem plain_reference_tracked (it : ImportTracker) (typeName : string) :
  isPlainName typeName = true ->
  hasWhiteSpace typeName = false ->
  typeName <> "" ->
  isBasicType typeName = false ->
  (resolveFieldType typeName (registry_ it) = "enum" ->
   enums (TrackFieldType it typeName) = GoMap.set (enums it) typeName true
   /\ models (TrackFieldType it typeName) = models it)
  /\ (resolveFieldType typeName (registry_ it) = "model" ->
      models (TrackFieldType it typeName)
      = GoMap.set (models it) typeName true
      /\ enums (TrackFieldType it typeName) = enums it
      /\ In "TYPE_CHECKING" (typing (TrackFieldType it typeName)))
  /\ (resolveFieldType typeName (registry_ it) <> "enum" ->
      resolveFieldType typeName (registry_ it) <> "model" ->
      enums (TrackFieldType it typeName) = enums it
      /\ models (TrackFieldType it typeName) = models it).
Proof.
  intros Hp Hw Hne Hb. unfold TrackFieldType. cbv zeta.
  rewrite (extractAllInnerTypes_plain Hp Hw Hne). cbn [fold_left].
  match goal with
  | |- context [trackInner ?x typeName] => set (it6 := x)
  end.
  assert (Hf : enums it6 = enums it /\ models it6 = models it
               /\ registry_ it6 = registry_ it).
  { subst it6.
    match goal with
    | |- context [if ?c then setDatetime ?x else ?x] =>
        assert (Hx : enums x = enums it /\ models x = models it
                     /\ registry_ x = registry_ it);
        [|destruct c; exact Hx]
    end.
    repeat match goal with
    | |- enums (trackIf ?c ?i ?x) = _ /\ _ =>
        destruct (trackIf_frame c i x) as (-> & -> & ->)
    end.
    repeat split. }
  destruct Hf as (He & Hm & Hr).
  unfold trackInner.
  destruct (String.eqb_spec typeName "") as [E | _]; [contradiction|].
  rewrite Hb, Hr. cbn [negb andb]. cbv zeta.
  split; [|split].
  - intros ->. cbn [String.eqb]. unfold setEnum. cbn [enums models].
    rewrite He, Hm. split; reflexivity.
  - intros ->. cbn. unfold setModel, AddTyping. cbn [enums models typing].
    rewrite He, Hm. split; [reflexivity|]. split; [reflexivity|].
    cbn [fold_left]. apply containsString_In, addOne_contains.
  - intros Hn1 Hn2.
    destruct (String.eqb_spec (resolveFieldType typeName (registry_ it))
                "enum"); [contradiction|].
    destruct (String.eqb_spec (resolveFieldType typeName (registry_ it))
                "model"); [contradiction|].
    split; assumption.
Qed.

End PlainReference.

Lemma plain_reference_tracked_witness :
  GoMap.lookup
    (models (@TrackFieldType SpecHelpers.helpers
               (NewImportTracker exampleRegistry) "Person")) "Person"
  = Some true.
Proof.
  assert (Hne : "Person" <> "") by discriminate.
  destruct (@plain_reference_tracked SpecHelpers.helpers
              (NewImportTracker exampleRegistry) "Person"
              eq_refl eq_refl Hne eq_refl) as (_ & Hmodel & _).
  destruct (Hmodel eq_refl) as (Hm & _ & _).
  rewrite Hm. reflexivity.
Defined.

(** ** The members of a union, read back by the generator *)

Lemma substring_0_app (s t : string) :
  String.substring 0 (String.length s) (s ++ t) = s.
Proof. induction s as [|c s IH]; [now destruct t | simpl; now rewrite IH]. Qed.

Lemma substring_skip_app (s t : string) (n : nat) :
  String.substring (String.length s) n (s ++ t) = String.substring 0 n t.
Proof. induction s as [|c s IH]; [reflexivity | simpl; exact IH]. Qed.

Lemma HasSuffix_bracket (s : string) : strings.HasSuffix (s ++ "]") "]" = true.
Proof.
  unfold strings.HasSuffix. rewrite string_length_app.
  change (String.length "]") with 1.
  replace (String.length s + 1 - 1) with (String.length s) by lia.
  rewrite substring_skip_app.
  replace (Nat.leb 1 (String.length s + 1)) with true
    by (symmetry; apply Nat.leb_le; lia).
  reflexivity.
Qed.

Lemma splitAux_plain (f rest : string) (cur : list ascii) :
  isPlainName f = true ->
  strings.splitAux ", " 0 cur (f ++ rest)
  = strings.splitAux ", " 0 (List.rev (list_ascii_of_string f) ++ cur)%list
      rest.
Proof.
  revert cur. induction f as [|c f IH]; intros cur Hp; [reflexivity|].
  cbn [isPlainName] in Hp. apply andb_true_iff in Hp as [Hc Hp].
  change (String c f ++ rest) with (String c (f ++ rest)).
  cbn [strings.splitAux]. rewrite prefix_cons.
  assert (Hcomma : Ascii.eqb "," c = false).
  { unfold isPlainChar in Hc. rewrite Ascii.eqb_sym.
    destruct (Ascii.eqb c ","); [|reflexivity].
    rewrite ?andb_false_r in Hc. simpl in Hc.
    rewrite ?andb_false_r in Hc. discriminate Hc. }
  rewrite Hcomma, (IH (c :: cur) Hp).
  cbn [list_ascii_of_string List.rev]. now rewrite <- app_assoc.
Qed.

Lemma list_ascii_of_string_app (a b : string) :
  list_ascii_of_string (a ++ b)
  = (list_ascii_of_string a ++ list_ascii_of_string b)%list.
Proof. induction a as [|c a IH]; [reflexivity | simpl; now rewrite IH]. Qed.

Lemma splitAux_quoted (f rest : string) :
  isPlainName f = true ->
  strings.splitAux ", " 0 [] (squote f ++ rest)
  = strings.splitAux ", " 0
      (List.rev (list_ascii_of_string (squote f))) rest.
Proof.
  intros Hp. unfold squote. rewrite !string_app_assoc.
  change ("'" ++ f ++ "'" ++ rest) with (String "'" (f ++ "'" ++ rest)).
  cbn [strings.splitAux]. rewrite prefix_cons. cbn [Ascii.eqb Bool.eqb].
  rewrite splitAux_plain by exact Hp.
  change ("'" ++ rest) with (String "'" rest).
  assert (Hcur : List.rev (list_ascii_of_string ("'" ++ f ++ "'"))
                 = ("'"%char :: List.rev (list_ascii_of_string f)
                      ++ ["'"%char])%list).
  { change ("'" ++ f ++ "'") with (String "'" (f ++ "'")).
    cbn [list_ascii_of_string List.rev].
    rewrite list_ascii_of_string_app, rev_app_distr. reflexivity. }
  rewrite Hcur.
  destruct rest as [|c rest'].
  - cbn [strings.splitAux]. rewrite prefix_cons. cbn [Ascii.eqb Bool.eqb].
    cbn [strings.splitAux]. reflexivity.
  - cbn [strings.splitAux]. rewrite prefix_cons. cbn [Ascii.eqb Bool.eqb].
    reflexivity.
Qed.

Lemma splitAux_sep (cur : list ascii) (rest : string) :
  strings.splitAux ", " 0 cur (", " ++ rest)
  = string_of_list_ascii (List.rev cur) :: strings.splitAux ", " 0 [] rest.
Proof. destruct rest; reflexivity. Qed.

Lemma Split_Join_quoted (for_ : list string) :
  for_ <> [] ->
  forallb isPlainName for_ = true ->
  strings.Split (strings.Join (map squote for_) ", ") ", " = map squote for_.
Proof.
  unfold strings.Split, strings.Join.
  induction for_ as [|f fs IH]; [contradiction|]. intros _ Hp.
  cbn [forallb] in Hp. apply andb_true_iff in Hp as [Hf Hfs].
  destruct fs as [|g gs].
  - cbn [map String.concat].
    rewrite <- (string_app_nil_r (squote f)) at 1.
    rewrite splitAux_quoted by exact Hf. cbn [strings.splitAux].
    now rewrite rev_involutive, string_of_list_ascii_of_string.
  - change (String.concat ", " (map squote (f :: g :: gs)))
      with (squote f ++ ", " ++ String.concat ", " (map squote (g :: gs))).
    rewrite splitAux_quoted by exact Hf.
    rewrite splitAux_sep.
    rewrite rev_involutive, string_of_list_ascii_of_string.
    rewrite (IH ltac:(discriminate) Hfs). reflexivity.
Qed.

Lemma prefix_nil_l (s : string) : String.prefix "" s = true.
Proof. now destruct s. Qed.

Lemma Trim_quoted (f : string) :
  isPlainName f = true -> strings.Trim (squote f) quoteCutset = f.
Proof.
  intros Hp. unfold strings.Trim, strings.TrimRight, squote.
  change ("'" ++ f ++ "'") with (String "'" (f ++ "'")).
  change (strings.TrimLeft (String "'" (f ++ "'")) quoteCutset)
    with (strings.TrimLeft (f ++ "'") quoteCutset).
  destruct f as [|c f]; [reflexivity|].
  assert (Hl : strings.TrimLeft (String c f ++ "'") quoteCutset
               = String c f ++ "'").
  { pose proof (plain_TrimLeft _ Hp) as Hl.
    cbn [strings.TrimLeft] in Hl.
    change (String c f ++ "'") with (String c (f ++ "'")).
    cbn [strings.TrimLeft].
    destruct (strings.inCutset c quoteCutset); [|reflexivity].
    exfalso.
    assert (Hlen : String.length (strings.TrimLeft f quoteCutset)
                   <= String.length f).
    { clear. induction f as [|d f IH]; [apply Nat.le_refl|].
      cbn [strings.TrimLeft].
      destruct (strings.inCutset d quoteCutset); simpl; lia. }
    rewrite Hl in Hlen. simpl in Hlen. lia. }
  rewrite Hl, strings_rev_app.
  change (strings.rev "'") with "'".
  change (strings.TrimLeft ("'" ++ strings.rev (String c f)) quoteCutset)
    with (strings.TrimLeft (strings.rev (String c f)) quoteCutset).
  rewrite (plain_TrimLeft _ (isPlainName_rev _ Hp)).
  apply strings_rev_involutive.
Qed.

Lemma allowedTypes_union (model : formatdef.Struct)
    (navFieldName : string) (navField : formatdef.Field)
    (for_ : list string) :
  find (fun f => String.eqb (formatdef.Name f) navFieldName)
    (formatdef.Fields model) = Some navField ->
  formatdef.Type_ navField = formatdef.BasicType (unionTypeName for_) ->
  for_ <> [] ->
  forallb isPlainName for_ = true ->
  allowedTypes model navFieldName
  = map (fun f => dquote ++ f ++ dquote) for_.
Proof.
  intros Hfind Hty Hne Hp. unfold allowedTypes. rewrite Hfind, Hty.
  cbn [formatdef.GetName]. cbv zeta.
  change (unionTypeName for_)
    with ("Union[" ++ strings.Join (map squote for_) ", " ++ "]").
  set (body := strings.Join (map squote for_) ", ").
  assert (Hpre : strings.HasPrefix ("Union[" ++ body ++ "]") "Union[" = true).
  { unfold strings.HasPrefix.
    change ("Union[" ++ body ++ "]")
      with (String "U" (String "n" (String "i" (String "o" (String "n"
              (String "[" (body ++ "]"))))))).
    rewrite !prefix_cons. cbn [Ascii.eqb Bool.eqb]. apply prefix_nil_l. }
  assert (Hsuf : strings.HasSuffix ("Union[" ++ body ++ "]") "]" = true).
  { rewrite <- string_app_assoc. apply HasSuffix_bracket. }
  rewrite Hpre, Hsuf. cbn [andb].
  assert (Hsub : String.substring 6
                   (String.length ("Union[" ++ body ++ "]") - 1 - 6)
                   ("Union[" ++ body ++ "]") = body).
  { rewrite !string_length_app.
    change (String.length "Union[") with 6.
    change (String.length "]") with 1.
    replace (6 + (String.length body + 1) - 1 - 6)
      with (String.length body) by lia.
    change 6 with (String.length "Union[") at 1.
    rewrite substring_skip_app. apply substring_0_app. }
  rewrite Hsub. subst body. rewrite (Split_Join_quoted Hne Hp).
  rewrite map_map. apply map_ext_in. intros f Hin.
  rewrite Trim_quoted; [reflexivity|].
  rewrite forallb_forall in Hp. now apply Hp.
Qed.

Section LiteralRoundTrip.

Context {H : Helpers}.

Lemma scan_polyMap_value (r : registry.Registry) (name : string)
    (fields : list formatdef.Field) (st : scanState) :
  (forall v, GoMap.lookup (polymorphicTypeToNavMap st) name = Some v ->
             v = "_nav_" ++ strings.TrimSuffix name "_type") ->
  forall v,
    GoMap.lookup
      (polymorphicTypeToNavMap (fold_left (scanField r) fields st)) name
    = Some v ->
    v = "_nav_" ++ strings.TrimSuffix name "_type".
Proof.
  revert st. induction fields as [|f fs IH]; intros st Hst; [exact Hst|].
  cbn [fold_left]. apply IH. unfold scanField.
  destruct (isNav f); [exact Hst|].
  destruct (isPolyTypeField f); cbn [polymorphicTypeToNavMap];
    [|exact Hst].
  intros v. rewrite set_lookup.
  destruct (String.eqb_spec (formatdef.Name f) name) as [-> | _].
  - now intros [= <-].
  - apply Hst.
Qed.

(** X16.  The members of a union are read back from its name.  With type
    hints on, a polymorphic type field (a data field named [x_type] of type
    [str]) whose navigation field [_nav_x] carries the union that
    [CompileModel] writes for a non-empty "for" list of plain names is
    rendered as [Literal] of exactly these names, each in double quotes, in
    the order of the "for" list. *)
Theorem polymorphic_type_field_literal (model : formatdef.Struct)
    (config : PydanticConfig) (morpheConfig : cfg.MorpheConfig)
    (r : registry.Registry) (field navField : formatdef.Field)
    (for_ : list string) :
  In field (formatdef.Fields model) ->
  isNav field = false ->
  isPolyTypeField field = true ->
  AddTypeHints config = true ->
  find (fun f =>
          String.eqb (formatdef.Name f)
            ("_nav_" ++ strings.TrimSuffix (formatdef.Name field) "_type"))
    (formatdef.Fields model) = Some navField ->
  formatdef.Type_ navField = formatdef.BasicType (unionTypeName for_) ->
  for_ <> [] ->
  forallb isPlainName for_ = true ->
  In ("    "
      ++ SanitizePythonIdentifier (ToSnakeCase (formatdef.Name field))
      ++ ": Literal["
      ++ strings.Join (map (fun f => dquote ++ f ++ dquote) for_) ", "
      ++ "]")
    (generateModelLines model config morpheConfig r).
Proof.
  intros Hin Hnav Hpoly Hh Hfind Hty Hne Hp.
  pose proof (data_line_in_output model config morpheConfig r field Hin Hnav)
    as Hline.
  unfold dataFieldText in Hline. rewrite Hh in Hline.
  assert (Hkey : GoMap.lookup
                   (polymorphicTypeToNavMap
                      (scanModel model config morpheConfig r))
                   (formatdef.Name field) <> None).
  { unfold scanModel. cbv zeta. cbn [polymorphicTypeToNavMap].
    apply scan_polyMap_some. right. apply existsb_exists.
    exists field. split; [exact Hin|].
    now rewrite Hnav, Hpoly, String.eqb_refl. }
  assert (Hval : forall v,
             GoMap.lookup
               (polymorphicTypeToNavMap
                  (scanModel model config morpheConfig r))
               (formatdef.Name field) = Some v ->
             v = "_nav_"
                 ++ strings.TrimSuffix (formatdef.Name field) "_type").
  { unfold scanModel. cbv zeta. cbn [polymorphicTypeToNavMap].
    apply scan_polyMap_value. intros v Hv. discriminate Hv. }
  destruct (GoMap.lookup _ (formatdef.Name field)) as [nav|];
    [|contradiction].
  rewrite (Hval nav eq_refl) in Hline.
  rewrite (allowedTypes_union _ _ Hfind Hty Hne Hp) in Hline.
  destruct for_ as [|f fs]; [contradiction|].
  exact Hline.
Qed.

End LiteralRoundTrip.

Lemma polymorphic_type_field_literal_witness :
  In ("    commentable_type: Literal[" ++ dquote ++ "Author" ++ dquote
      ++ ", " ++ dquote ++ "Post" ++ dquote ++ "]")
    (@generateModelLines SpecHelpers.helpers commentStruct defaultConfig
       emptyMorpheConfig exampleRegistry).
Proof.
  assert (Hin : In (formatdef.mkField "commentable_type"
                      (formatdef.BasicType "str"))
                  (formatdef.Fields commentStruct)).
  { simpl. right. right. left. reflexivity. }
  assert (Hne : ["Author"; "Post"] <> @nil string) by discriminate.
  exact (@polymorphic_type_field_literal SpecHelpers.helpers commentStruct
           defaultConfig emptyMorpheConfig exampleRegistry _ _
           ["Author"; "Post"] Hin eq_refl eq_refl eq_refl eq_refl eq_refl
           Hne eq_refl).
Defined.
